(** * Climate_Trend_Analyzer: a shallow embedding of [climate.py]

    The four operations of [src/climateTrend_analyzer/climate.py]
    ([import_data], [analyze_trends], [visualize_data],
    [calculate_climate_index]) and its driver [main] are written as Rocq
    functions over
      - IEEE binary64 numbers (the kernel's primitive [float], which pandas and
        numpy use for every column),
      - an error monad for Python exceptions,
      - explicit output for [print], and for the driver the trace of what
        was printed and written.
    Calls into pandas and numpy that are reductions (numpy's pairwise sum,
    mean, std, cumsum, maximum, the grouped mean of a resampling) are written
    out in the order in which the libraries add; the statistical routines of
    scipy and statsmodels, the file readers and the drawing routines of
    pandas are parameters of the sections that use them. *)

From Stdlib Require Import Floats ZArith String Ascii Bool Lia.
From Stdlib Require Import DecimalString List.
Import ListNotations.

Set Implicit Arguments.

(** ** Exceptions and the error monad *)

Inductive exception : Type :=
| ValueError (msg : string)
| KeyError (key : string)
| IndexError (msg : string)
| TypeError (msg : string)
| AttributeError (msg : string)
| LibraryError (msg : string).

Inductive result (A : Type) : Type :=
| Ok (a : A)
| Raise (e : exception).

Arguments Ok {A} a.
Arguments Raise {A} e.

Definition bind {A B : Type} (m : result A) (k : A -> result B) : result B :=
  match m with
  | Ok a => k a
  | Raise e => Raise e
  end.

Notation "x <- m ;; k" := (bind m (fun x => k))
  (at level 61, m at next level, right associativity).

Definition is_value_error {A : Type} (r : result A) : bool :=
  match r with
  | Raise (ValueError _) => true
  | _ => false
  end.

(** Element-wise operation on two vectors, or two columns of one frame. *)
Definition zip_with {A B C : Type} (f : A -> B -> C)
    (l1 : list A) (l2 : list B) : list C :=
  map (fun p => f (fst p) (snd p)) (combine l1 l2).

(** ** numpy on float64 *)

Module Np.

Local Open Scope float_scope.

(** Conversion of a Python integer to float64 (round to nearest even). *)
Definition float_of_Z (z : Z) : float :=
  SF2Prim (binary_normalize prec emax z 0 false).

Definition float_of_nat (n : nat) : float := float_of_Z (Z.of_nat n).

(** [np.maximum(x, y)]: [(x >= y || isnan(x)) ? x : y], so a NaN on either
    side comes out. *)
Definition maximum (x y : float) : float :=
  if (y <=? x) || is_nan x then x else y.

(** The values added one after the other from the first one on: what
    [np.cumsum], which accumulates in this order, holds at its last
    position. *)
Definition running_sum (l : list float) : float :=
  match l with
  | [] => 0
  | v :: r => fold_left add r v
  end.

(** numpy's pairwise summation of a contiguous float64 vector
    ([DOUBLE_pairwise_sum]).  Fewer than 8 values are added in order, to a
    zero of negative sign.  Up to 128 values go into eight running sums, the
    value at position [i] into the sum [i mod 8], as far as whole rows of
    eight reach; the eight sums are added as a balanced tree, and the values
    left over, fewer than 8, are added to that in order.  A longer vector is
    cut near its middle, at a multiple of 8, and the sums of the two parts
    are added. *)
Fixpoint accumulate8 (rows : nat) (r l : list float) : list float :=
  match rows with
  | O => r
  | S k => accumulate8 k (zip_with add r (firstn 8 l)) (skipn 8 l)
  end.

Definition tree8 (r : list float) : float :=
  match r with
  | [r0; r1; r2; r3; r4; r5; r6; r7] =>
      ((r0 + r1) + (r2 + r3)) + ((r4 + r5) + (r6 + r7))
  | _ => nan
  end.

Definition block_sum (l : list float) : float :=
  let n := length l in
  if (n <? 8)%nat then fold_left add l neg_zero
  else
    let r := accumulate8 (n / 8 - 1) (firstn 8 l) (skipn 8 l) in
    fold_left add (skipn (n - n mod 8) l) (tree8 r).

(** The recursion halves the vector; [fuel] bounds its depth, and the length
    of the vector is enough of it. *)
Fixpoint pairwise_sum (fuel : nat) (l : list float) : float :=
  match fuel with
  | O => block_sum l
  | S fuel' =>
      let n := length l in
      if (n <=? 128)%nat then block_sum l
      else
        let n2 := (n / 2 - (n / 2) mod 8)%nat in
        pairwise_sum fuel' (firstn n2 l) + pairwise_sum fuel' (skipn n2 l)
  end.

(** [ndarray.sum()] of a float64 vector: 0 for a vector without values;
    otherwise the reduction starts from the zero of negative sign, which
    keeps the sign of a sum of such zeros, and adds the pairwise sum of the
    vector to it. *)
Definition sum (l : list float) : float :=
  match l with
  | [] => 0
  | _ :: _ => neg_zero + pairwise_sum (length l) l
  end.

(** [np.cumsum]: [out[0] = a[0]], [out[i] = out[i-1] + a[i]]. *)
Fixpoint cumsum_from (acc : float) (l : list float) : list float :=
  match l with
  | [] => []
  | v :: r => let a := acc + v in a :: cumsum_from a r
  end.

Definition cumsum (l : list float) : list float :=
  match l with
  | [] => []
  | v :: r => v :: cumsum_from v r
  end.

(** [np.arange(n)], converted to float64 as scipy does on entry. *)
Definition arange (n : nat) : list float := map float_of_nat (seq 0 n).

End Np.

(** ** pandas: index, series, frame *)

(** A calendar date; the time of day plays no part in this program. *)
Record date : Type := mkdate { year : Z; month : Z; day : Z }.

(** A row label that is not a date: a raw string or an integer position. *)
Inductive label : Type :=
| LStr (s : string)
| LInt (z : Z).

Inductive Index : Type :=
| DatetimeIndex (ds : list date)
| LabelIndex (ls : list label).

Definition index_size (ix : Index) : nat :=
  match ix with
  | DatetimeIndex ds => length ds
  | LabelIndex ls => length ls
  end.

(** [isinstance(ix, pd.DatetimeIndex)] *)
Definition is_datetime_index (ix : Index) : bool :=
  match ix with
  | DatetimeIndex _ => true
  | LabelIndex _ => false
  end.

Record Series : Type := mkSeries
  { name : string; sindex : Index; values : list float }.

(** Columns keep their order ([data.columns[0]] is the first one). *)
Record DataFrame : Type := mkFrame
  { index : Index; columns : list (string * list float) }.

Definition column_names (df : DataFrame) : list string :=
  map fst (columns df).

Fixpoint assoc {A : Type} (k : string) (l : list (string * A)) : option A :=
  match l with
  | [] => None
  | (k', v) :: r => if String.eqb k k' then Some v else assoc k r
  end.

(** ['c' in data.columns] *)
Definition has_column (c : string) (df : DataFrame) : bool :=
  existsb (String.eqb c) (column_names df).

(** [data[c]]: the column as a series on the frame's index, or [KeyError]. *)
Definition getitem (df : DataFrame) (c : string) : result Series :=
  match assoc c (columns df) with
  | Some v => Ok (mkSeries c (index df) v)
  | None => Raise (KeyError c)
  end.

(** [Series.to_frame()] *)
Definition to_frame (s : Series) : DataFrame :=
  mkFrame (sindex s) [(name s, values s)].

(** Every column has one value per row of the index. *)
Definition wf_frame (df : DataFrame) : Prop :=
  Forall (fun c => length (snd c) = index_size (index df)) (columns df).

Module Pd.

Local Open Scope float_scope.

(** Values that count for a reduction with [skipna=True]. *)
Definition count (l : list float) : nat :=
  length (filter (fun v => negb (is_nan v)) l).

Definition fillna0 (l : list float) : list float :=
  map (fun v => if is_nan v then 0 else v) l.

(** [Series.mean()] ([nanops.nanmean], pandas without the optional
    bottleneck): the sum with NaN taken as 0 over the count of values that are
    not NaN; NaN when there is none. *)
Definition mean (l : list float) : float :=
  match count l with
  | O => nan
  | S _ => Np.sum (fillna0 l) / Np.float_of_nat (count l)
  end.

(** [Series.var()] ([nanops.nanvar], [ddof=1]): two passes, the squared
    deviations from the average summed and divided by [count - 1]; NaN when
    [count <= ddof]. *)
Definition var (l : list float) : float :=
  match count l with
  | O | S O => nan
  | S (S _) =>
      let avg := Np.sum (fillna0 l) / Np.float_of_nat (count l) in
      let sqr := map (fun v => if is_nan v then 0
                               else (avg - v) * (avg - v)) l in
      Np.sum sqr / Np.float_of_nat (count l - 1)
  end.

(** [Series.std()]: square root of [var]. *)
Definition std (l : list float) : float := sqrt (var l).

(** [Series.cumsum()] ([skipna=True]): NaN is taken as 0 in the running sum
    and put back at its own position. *)
Definition cumsum (l : list float) : list float :=
  zip_with (fun v acc => if is_nan v then nan else acc)
           l (Np.cumsum (fillna0 l)).

(** [Series.max()] ([skipna=True]). *)
Definition max (l : list float) : float :=
  match filter (fun v => negb (is_nan v)) l with
  | [] => nan
  | v :: r => fold_left (fun a b => if a <? b then b else a) r v
  end.

(** Rows [keep] of a column. *)
Definition take {A : Type} (keep : list nat) (l : list A) : list A :=
  flat_map (fun i => match nth_error l i with
                     | Some x => [x]
                     | None => []
                     end) keep.

Definition take_index (keep : list nat) (ix : Index) : Index :=
  match ix with
  | DatetimeIndex ds => DatetimeIndex (take keep ds)
  | LabelIndex ls => LabelIndex (take keep ls)
  end.

(** Row [i] has a value in every column. *)
Definition row_complete (cols : list (string * list float)) (i : nat) : bool :=
  forallb (fun c => match nth_error (snd c) i with
                    | Some v => negb (is_nan v)
                    | None => false
                    end) cols.

(** [DataFrame.dropna()]: the rows without any missing value. *)
Definition dropna (df : DataFrame) : DataFrame :=
  let keep := filter (row_complete (columns df))
                     (seq 0 (index_size (index df))) in
  mkFrame (take_index keep (index df))
          (map (fun c => (fst c, take keep (snd c))) (columns df)).

(** *** Resampling to calendar months or years *)

Inductive freq : Type := MonthEnd | YearEnd.

Definition is_leap (y : Z) : bool :=
  ((y mod 4 =? 0)%Z && negb (y mod 100 =? 0)%Z) || (y mod 400 =? 0)%Z.

Definition days_in_month (y m : Z) : Z :=
  if (m =? 2)%Z then (if is_leap y then 29 else 28)%Z
  else if ((m =? 4) || (m =? 6) || (m =? 9) || (m =? 11))%Z then 30%Z
  else 31%Z.

(** The calendar bin of a date: its month counted from year 0, or its year. *)
Definition bin_of (f : freq) (d : date) : Z :=
  match f with
  | MonthEnd => (year d * 12 + (month d - 1))%Z
  | YearEnd => year d
  end.

(** The label of a bin: the last day of the month or of the year. *)
Definition bin_label (f : freq) (b : Z) : date :=
  match f with
  | MonthEnd =>
      let y := (b / 12)%Z in
      let m := (b mod 12 + 1)%Z in
      mkdate y m (days_in_month y m)
  | YearEnd => mkdate b 12 31
  end.

Definition bins (lo hi : Z) : list Z :=
  map (fun k => (lo + Z.of_nat k)%Z) (seq 0 (Z.to_nat (hi - lo + 1))).

(** Dates in calendar order. *)
Definition date_leb (a b : date) : bool :=
  ((year a <? year b)
   || ((year a =? year b)
       && ((month a <? month b)
           || ((month a =? month b) && (day a <=? day b)))))%Z.

(** The rows in the order of their dates, rows of one date in the order they
    had: an index that is not increasing is sorted, with a stable sort,
    before its rows are put into bins. *)
Fixpoint insert_row (r : date * float) (l : list (date * float))
    : list (date * float) :=
  match l with
  | [] => [r]
  | r' :: l' =>
      if date_leb (fst r) (fst r') then r :: l else r' :: insert_row r l'
  end.

Definition sort_rows (l : list (date * float)) : list (date * float) :=
  fold_right insert_row [] l.

(** The values of the rows whose date falls in bin [b]. *)
Definition in_bin (f : freq) (b : Z) (rows : list (date * float))
    : list float :=
  map snd (filter (fun p => (bin_of f (fst p) =? b)%Z) rows).

(** The mean of a group ([group_mean]): the values that are not NaN are
    added with Kahan's compensation, a compensation that is NaN (after an
    infinite value) being reset to 0, and the sum is divided by their
    count; NaN for a group without values. *)
Fixpoint kahan_sum (sumx compensation : float) (l : list float) : float :=
  match l with
  | [] => sumx
  | val :: r =>
      if is_nan val then kahan_sum sumx compensation r
      else
        let y := val - compensation in
        let t := sumx + y in
        let c := t - sumx - y in
        kahan_sum t (if is_nan c then 0 else c) r
  end.

Definition group_mean (l : list float) : float :=
  match count l with
  | O => nan
  | S _ => kahan_sum 0 0 l / Np.float_of_nat (count l)
  end.

(** [s.resample(f).mean()]: one point per calendar bin from the earliest to the
    latest date, the grouped mean of the values that fall in it, taken in the
    order of their dates (NaN for a bin without values).  Only a date index
    can be resampled. *)
Definition resample_mean (f : freq) (s : Series) : result Series :=
  match sindex s with
  | LabelIndex _ =>
      Raise (TypeError
        "Only valid with DatetimeIndex, TimedeltaIndex or PeriodIndex")
  | DatetimeIndex ds =>
      match map (bin_of f) ds with
      | [] => Ok (mkSeries (name s) (DatetimeIndex []) [])
      | b :: bs =>
          let lo := fold_left Z.min bs b in
          let hi := fold_left Z.max bs b in
          let rows := sort_rows (combine ds (values s)) in
          Ok (mkSeries (name s)
                (DatetimeIndex (map (bin_label f) (bins lo hi)))
                (map (fun b' => group_mean (in_bin f b' rows)) (bins lo hi)))
      end
  end.

(** [pd.date_range(start, periods=n, freq='D')] *)
Definition next_day (d : date) : date :=
  if (day d <? days_in_month (year d) (month d))%Z
  then mkdate (year d) (month d) (day d + 1)
  else if (month d <? 12)%Z then mkdate (year d) (month d + 1) 1
  else mkdate (year d + 1) 1 1.

Fixpoint date_range (start : date) (periods : nat) : list date :=
  match periods with
  | O => []
  | S n => start :: date_range (next_day start) n
  end.

(** [Series.diff()]: NaN on the first row, then each value less the one
    before it. *)
Definition diff (l : list float) : list float :=
  match l with
  | [] => []
  | _ :: r => nan :: zip_with sub r l
  end.

End Pd.

(** ** [calculate_climate_index] *)

(** [**params]: keyword arguments. *)
Definition kwargs_get {A : Type} (kw : list (string * A)) (k : string)
    (default : A) : A :=
  match assoc k kw with
  | Some v => v
  | None => default
  end.

Definition default_base_temp : float := 10%float.

(** [(precipitation - precipitation.mean()) / precipitation.std()] *)
Definition zscore (p : list float) : list float :=
  map (fun v => ((v - Pd.mean p) / Pd.std p)%float) p.

(** [np.maximum(temp - base_temp, 0).cumsum()] *)
Definition degree_days (base_temp : float) (temp : list float) : list float :=
  Pd.cumsum (map (fun t => Np.maximum (t - base_temp)%float 0%float) temp).

(** [(temp_max + temp_min) / 2] *)
Definition mean_temp (temp_max temp_min : list float) : list float :=
  zip_with (fun hi lo => ((hi + lo) / 2)%float) temp_max temp_min.

Definition calculate_climate_index (data : DataFrame) (index_type : string)
    (params : list (string * float)) : result Series :=
  if String.eqb index_type "SPI" then
    if negb (has_column "precipitation" data) then
      Raise (ValueError "Precipitation data not found in the DataFrame")
    else
      precipitation <- getitem data "precipitation" ;;
      let spi := zscore (values precipitation) in
      Ok (mkSeries "SPI" (index data) spi)
  else if String.eqb index_type "GDD" then
    let base_temp := kwargs_get params "base_temp" default_base_temp in
    if has_column "temperature" data then
      temp <- getitem data "temperature" ;;
      let gdd := degree_days base_temp (values temp) in
      Ok (mkSeries "GDD" (index data) gdd)
    else if has_column "temp_max" data && has_column "temp_min" data then
      temp_max <- getitem data "temp_max" ;;
      temp_min <- getitem data "temp_min" ;;
      let gdd :=
        degree_days base_temp (mean_temp (values temp_max) (values temp_min)) in
      Ok (mkSeries "GDD" (index data) gdd)
    else
      Raise (ValueError "Required temperature data not found in the DataFrame")
  else
    Raise (ValueError "Unsupported climate index").

(** ** [import_data] *)

Section Loader.

(** The file readers of pandas, on a path: [pd.read_csv(path,
    parse_dates=True, index_col=0)], [pd.read_json(path)],
    [pd.read_excel(path)]; and [pd.to_datetime] on an index of labels. *)
Variable read_csv : string -> result DataFrame.
Variable read_json : string -> result DataFrame.
Variable read_excel : string -> result DataFrame.
Variable to_datetime : list label -> result (list date).

Definition read_file (file_path file_type : string) : result DataFrame :=
  if String.eqb file_type "csv" then read_csv file_path
  else if String.eqb file_type "json" then read_json file_path
  else if String.eqb file_type "excel" then read_excel file_path
  else Raise (ValueError "Unsupported file type").

(** [if not isinstance(df.index, pd.DatetimeIndex):
       df.index = pd.to_datetime(df.index)] *)
Definition ensure_datetime_index (df : DataFrame) : result DataFrame :=
  match index df with
  | DatetimeIndex _ => Ok df
  | LabelIndex ls =>
      ds <- to_datetime ls ;;
      Ok (mkFrame (DatetimeIndex ds) (columns df))
  end.

Definition import_data (file_path file_type : string) : result DataFrame :=
  df <- read_file file_path file_type ;;
  df <- ensure_datetime_index df ;;
  Ok (Pd.dropna df).

End Loader.

(** ** The trend fit

    [scipy.stats.linregress] is not part of the repository. *)

Record LinregressResult (A : Type) : Type := mkLinregress
  { slope : A; intercept : A; rvalue : A; pvalue : A; stderr : A }.

Section Linregress.

Local Open Scope float_scope.

(** Two-sided p-value of the statistic [t] under Student's distribution with
    [df] degrees of freedom ([scipy.stats.distributions.t]). *)
Variable student_t_p : Z -> float -> float.

(** [TINY = 1.0e-20] *)
Definition tiny64 : float := 0x1.79ca10c924223p-67.

(** [np.mean] *)
Definition np_mean (l : list float) : float :=
  Np.sum l / Np.float_of_nat (length l).

Definition center (l : list float) : list float :=
  map (fun v => v - np_mean l) l.

(** An entry of [np.cov(x, y, bias=1)]: the centred vectors multiplied and
    added up, times [1 / n].  The products are added in order here; the
    library adds them in the order of its [dot]. *)
Definition cov_bias (u v : list float) : float :=
  Np.running_sum (zip_with mul (center u) (center v))
  * (1 / Np.float_of_nat (length u)).

(** Modelled from the spec: the ordinary least-squares fit of [y] against [x]
    with the correlation coefficient and the two-sided p-value of the slope,
    which the source obtains from [scipy.stats.linregress].  The fit is
    total: where a quotient is [0 / 0] (no point, one point, a series
    without variance) the field is NaN, as the library answers from
    version 1.16 on; versions up to 1.15 refuse an input without points
    with a value error. *)
Definition linregress (x y : list float) : LinregressResult float :=
  let n := length x in
  let xmean := np_mean x in
  let ymean := np_mean y in
  let ssxm := cov_bias x x in
  let ssxym := cov_bias x y in
  let ssym := cov_bias y y in
  let r0 := ssxym / sqrt (ssxm * ssym) in
  let r := if 1 <? r0 then 1 else if r0 <? -1 then -1 else r0 in
  let slope := ssxym / ssxm in
  let intercept := ymean - slope * xmean in
  let df := Np.float_of_Z (Z.of_nat n - 2) in
  let t := r * sqrt (df / ((1 - r + tiny64) * (1 + r + tiny64))) in
  let prob := student_t_p (Z.of_nat n - 2) t in
  let se := sqrt ((1 - r * r) * ssym / ssxm / df) in
  mkLinregress slope intercept r prob se.

Definition linregress_f64 (x y : list float)
    : result (LinregressResult float) :=
  Ok (linregress x y).

(** The fit as scipy up to 1.15 runs it: an input without points is
    refused. *)
Definition linregress_refusing_empty (x y : list float)
    : result (LinregressResult float) :=
  if (length x =? 0)%nat || (length y =? 0)%nat then
    Raise (ValueError "Inputs must not be empty.")
  else linregress_f64 x y.

End Linregress.

(** ** [analyze_trends] *)

(** Python values held by the result dictionary. *)
Inductive pyvalue : Type :=
| VFloat (f : float)
| VSeries (s : Series)
| VDict (d : list (string * float)).

Definition pydict : Type := list (string * pyvalue).

(** ['k' in d] *)
Definition dict_has (k : string) (d : pydict) : bool :=
  existsb (fun kv => String.eqb k (fst kv)) d.

(** [d[k] = v] *)
Fixpoint dict_set (d : pydict) (k : string) (v : pyvalue) : pydict :=
  match d with
  | [] => [(k, v)]
  | (k', v') :: r =>
      if String.eqb k k' then (k, v) :: r else (k', v') :: dict_set r k v
  end.

(** What [seasonal_decompose] returns, as far as the program reads it. *)
Record DecomposeResult : Type := mkDecompose
  { seasonal : Series; resid : Series }.

(** [str(n)] *)
Definition str_of_nat (n : nat) : string :=
  NilEmpty.string_of_uint (Nat.to_uint n).

Definition not_enough_data (n : nat) : string :=
  ("Warning: Not enough data for seasonal decomposition. "
   ++ "Need at least 24 observations, but only have "
   ++ str_of_nat n ++ ".")%string.

Section TrendAnalyzer.

(** [scipy.stats.linregress(x, y)] and
    [statsmodels.tsa.seasonal.seasonal_decompose(s, model='additive',
    period=p)]: library calls, which may raise. *)
Variable stats_linregress :
  list float -> list float -> result (LinregressResult float).
Variable seasonal_decompose : Series -> nat -> result DecomposeResult.

Definition resample_column (data : DataFrame) (variable time_period : string)
    : result Series :=
  if String.eqb time_period "monthly" then
    s <- getitem data variable ;; Pd.resample_mean Pd.MonthEnd s
  else if String.eqb time_period "yearly" then
    s <- getitem data variable ;; Pd.resample_mean Pd.YearEnd s
  else Raise (ValueError "Unsupported time period").

Definition trend_dict (t : LinregressResult float) : list (string * float) :=
  [("slope", slope t); ("intercept", intercept t);
   ("r_value", rvalue t); ("p_value", pvalue t)]%string.

(** The result dictionary and the lines printed. *)
Definition analyze_trends (data : DataFrame) (variable time_period : string)
    : result (pydict * list string) :=
  resampled_data <- resample_column data variable time_period ;;
  let x := Np.arange (length (values resampled_data)) in
  let y := values resampled_data in
  t <- stats_linregress x y ;;
  let results := [("trend"%string, VDict (trend_dict t))] in
  if (24 <=? length (values resampled_data))%nat then
    decomposition <- seasonal_decompose resampled_data 12 ;;
    let results := dict_set results "seasonal"
                     (VSeries (seasonal decomposition)) in
    let results := dict_set results "residual"
                     (VSeries (resid decomposition)) in
    Ok (results, [])
  else
    Ok (results, [not_enough_data (length (values resampled_data))]).

End TrendAnalyzer.

(** [convolution_filter(x, filt, nsides=2)]: the filter slid over the
    series where it fits whole, NaN on the rows before and after. *)
Definition convolution_filter (x filt : list float) : list float :=
  let k := length filt in
  let head := (Nat.div2 (S k) - 1)%nat in
  let tail := (Nat.div2 (S k) - k mod 2)%nat in
  let valid :=
    map (fun j => Np.running_sum
                    (zip_with mul filt (rev (firstn k (skipn j x)))))
        (seq 0 (length x + 1 - k)) in
  (repeat nan head ++ valid ++ repeat nan tail)%list.

(** [x[i::period]] *)
Definition every (period i : nat) (x : list float) : list float :=
  map snd (filter (fun p => (i <=? fst p)%nat
                            && ((fst p - i) mod period =? 0)%nat)
                  (combine (seq 0 (length x)) x)).

(** Modelled from the spec: the additive seasonal decomposition with a fixed
    period, which the source obtains from
    [statsmodels.tsa.seasonal.seasonal_decompose(s, model='additive',
    period=p)].  It refuses a series with a value that is not finite, and one
    of fewer than two periods; the trend is the centred moving average over
    one period (half weights at both ends of an even period), the seasonal
    component the mean of the detrended values of each phase less the mean
    of these means, the residual what is left; both components are series on
    the index of [s]. *)
Definition seasonal_decompose_additive (s : Series) (period : nat)
    : result DecomposeResult :=
  let x := values s in
  let nobs := length x in
  if negb (forallb is_finite x) then
    Raise (ValueError "This function does not handle missing values")
  else if (nobs <? 2 * period)%nat then
    Raise (ValueError
      ("x must have 2 complete cycles requires " ++ str_of_nat (2 * period)
       ++ " observations. x only has " ++ str_of_nat nobs
       ++ " observation(s)")%string)
  else
    let p := Np.float_of_nat period in
    let filt :=
      if Nat.even period
      then map (fun w => (w / p)%float)
               (0.5%float :: repeat 1%float (period - 1) ++ [0.5%float])%list
      else repeat (1 / p)%float period in
    let trend := convolution_filter x filt in
    let detrended := zip_with PrimFloat.sub x trend in
    let period_averages :=
      map (fun i => Pd.mean (every period i detrended)) (seq 0 period) in
    let centre := np_mean period_averages in
    let period_averages :=
      map (fun a => (a - centre)%float) period_averages in
    let seasonal :=
      map (fun i => nth (i mod period) period_averages nan) (seq 0 nobs) in
    let resid := zip_with PrimFloat.sub detrended seasonal in
    Ok (mkDecompose (mkSeries "seasonal" (sindex s) seasonal)
                    (mkSeries "resid" (sindex s) resid)).

(** ** [visualize_data] *)

(** What is drawn on the axes of a figure. *)
Inductive artist : Type :=
| LinePlot (x : Index) (y : list float)
| Heatmap (grid : DataFrame) (cmap : string)
| BoxPlot (data : DataFrame) (column : string) (groups : list Z)
| Title (s : string)
| XLabel (s : string)
| YLabel (s : string)
| TightLayout.

Definition Figure : Type := list artist.

Inductive plot_data : Type :=
| FrameData (df : DataFrame)
| SeriesData (s : Series).

Section Visualizer.

(** [data.pivot(columns=months, values=variable)] and
    [data.boxplot(column=variable, by=months, ax=ax)] (pandas): library
    calls, which may raise; the second one looks the column up itself. *)
Variable pivot : DataFrame -> list Z -> string -> result DataFrame.
Variable boxplot : DataFrame -> string -> list Z -> result unit.

(** [data.index.month] *)
Definition index_month (ix : Index) : result (list Z) :=
  match ix with
  | DatetimeIndex ds => Ok (map month ds)
  | LabelIndex _ =>
      Raise (AttributeError "'Index' object has no attribute 'month'")
  end.

(** [kwargs.get('variable', data.columns[0])]: the default is evaluated
    first. *)
Definition chosen_variable (kwargs : list (string * string))
    (data : DataFrame) : result string :=
  match column_names data with
  | [] => Raise (IndexError "index 0 is out of bounds for axis 0 with size 0")
  | c :: _ => Ok (kwargs_get kwargs "variable" c)
  end.

(** The state threaded is the number of figures pyplot holds open:
    [plt.subplots] opens one before the plot type is looked at. *)
Definition visualize_data (open_figures : nat) (data : plot_data)
    (plot_type : string) (kwargs : list (string * string))
    : result Figure * nat :=
  let open_figures := S open_figures in
  let data := match data with
              | SeriesData s => to_frame s
              | FrameData df => df
              end in
  let drawn : result Figure :=
    if String.eqb plot_type "line" then
      variable <- chosen_variable kwargs data ;;
      col <- getitem data variable ;;
      Ok [LinePlot (index data) (values col);
          Title (variable ++ " over time"); XLabel "Date"; YLabel variable]
    else if String.eqb plot_type "heatmap" then
      variable <- chosen_variable kwargs data ;;
      months <- index_month (index data) ;;
      pivot_data <- pivot data months variable ;;
      Ok [Heatmap pivot_data "YlOrRd";
          Title ("Heatmap of " ++ variable); XLabel "Month"; YLabel "Year"]
    else if String.eqb plot_type "boxplot" then
      variable <- chosen_variable kwargs data ;;
      months <- index_month (index data) ;;
      drawn <- boxplot data variable months ;;
      Ok [BoxPlot data variable months;
          Title ("Monthly distribution of " ++ variable);
          XLabel "Month"; YLabel variable]
    else Raise (ValueError "Unsupported plot type") in
  (fig <- drawn ;; Ok (fig ++ [TightLayout]), open_figures).

End Visualizer.

(** ** [main]

    The driver prints and writes files between its calls, and stops at the
    first exception: its steps run in a state and error monad over what the
    program has left behind so far. *)

Inductive effect : Type :=
| Print (s : string)
| PrintWith (s : string) (v : pyvalue)
| SaveFig (fig : Figure) (path : string).

(** The lines printed and the files written, in order, and the number of
    figures pyplot holds open. *)
Record world : Type := mkWorld { trace : list effect; figures : nat }.

Definition io (A : Type) : Type := world -> result A * world.

Definition io_bind {A B : Type} (m : io A) (k : A -> io B) : io B :=
  fun w =>
    match m w with
    | (Ok a, w') => k a w'
    | (Raise e, w') => (Raise e, w')
    end.

Notation "x <~ m ;; k" := (io_bind m (fun x => k))
  (at level 61, m at next level, right associativity).

(** A call that touches nothing outside. *)
Definition lift {A : Type} (r : result A) : io A := fun w => (r, w).

Definition emit (e : effect) : io unit :=
  fun w => (Ok tt, mkWorld (trace w ++ [e]) (figures w)).

(** [d[k]] *)
Definition dict_get (d : pydict) (k : string) : result pyvalue :=
  match assoc k d with
  | Some v => Ok v
  | None => Raise (KeyError k)
  end.

Section Driver.

Variable read_csv : string -> result DataFrame.
Variable read_json : string -> result DataFrame.
Variable read_excel : string -> result DataFrame.
Variable to_datetime : list label -> result (list date).
Variable stats_linregress :
  list float -> list float -> result (LinregressResult float).
Variable seasonal_decompose : Series -> nat -> result DecomposeResult.
Variable pivot : DataFrame -> list Z -> string -> result DataFrame.
Variable boxplot : DataFrame -> string -> list Z -> result unit.

(** [Figure.savefig(path)] (matplotlib), which may raise. *)
Variable savefig : Figure -> string -> result unit.

(** [analyze_trends] prints its notice as its last step, so nothing is
    printed by a call that raises. *)
Definition call_analyze_trends (data : DataFrame)
    (variable time_period : string) : io pydict :=
  fun w =>
    match analyze_trends stats_linregress seasonal_decompose
                         data variable time_period with
    | Ok (results, out) =>
        (Ok results, mkWorld (trace w ++ map Print out) (figures w))
    | Raise e => (Raise e, w)
    end.

Definition call_visualize_data (data : plot_data) (plot_type : string)
    (kwargs : list (string * string)) : io Figure :=
  fun w =>
    let (r, n) :=
      visualize_data pivot boxplot (figures w) data plot_type kwargs in
    (r, mkWorld (trace w) n).

Definition call_savefig (fig : Figure) (path : string) : io unit :=
  fun w =>
    match savefig fig path with
    | Ok _ => (Ok tt, mkWorld (trace w ++ [SaveFig fig path]) (figures w))
    | Raise e => (Raise e, w)
    end.

Definition main : io unit :=
  let file_path := "larger_sample_climate_data.csv"%string in
  climate_data <~ lift (import_data read_csv read_json read_excel to_datetime
                                    file_path "csv") ;;
  temp_trends <~ call_analyze_trends climate_data "temperature" "monthly" ;;
  trend <~ lift (dict_get temp_trends "trend") ;;
  u1 <~ emit (PrintWith "Temperature trend analysis:" trend) ;;
  temp_plot <~ call_visualize_data (FrameData climate_data) "line"
                 [("variable", "temperature")]%string ;;
  u2 <~ call_savefig temp_plot "temperature_trend.png" ;;
  spi <~ lift (calculate_climate_index climate_data "SPI" []) ;;
  spi_plot <~ call_visualize_data (SeriesData spi) "line"
                [("variable", "SPI")]%string ;;
  u3 <~ call_savefig spi_plot "spi_index.png" ;;
  emit (Print
    "Analysis complete. Check the generated plots for visual results.").

End Driver.

(** ** [test_climate.py]

    The check that [test_calculate_climate_index] keeps in a comment:
    [(gdd.diff() >= 0).all()]. *)
Definition diff_never_negative (gdd : Series) : bool :=
  forallb (fun d => (0 <=? d)%float) (Pd.diff (values gdd)).

(** [DataFrame.drop(columns=cols)] *)
Definition drop (df : DataFrame) (cols : list string) : result DataFrame :=
  match filter (fun c => negb (has_column c df)) cols with
  | [] =>
      Ok (mkFrame (index df)
            (filter (fun kv => negb (existsb (String.eqb (fst kv)) cols))
                    (columns df)))
  | c :: _ => Raise (KeyError c)
  end.

(** The assertions of [test_calculate_climate_index] that compare exactly,
    in the order of the test; the two on the mean and the standard deviation
    of the SPI, which hold within 0.1 or not by the draw of the fixture, are
    left out. *)
Definition test_calculate_climate_index (sample_data : DataFrame) : bool :=
  match calculate_climate_index sample_data "SPI" [] with
  | Ok spi =>
      String.eqb (name spi) "SPI"
      && (length (values spi) =? index_size (index sample_data))%nat
  | Raise _ => false
  end
  && match calculate_climate_index sample_data "GDD"
             [("base_temp"%string, 10%float)] with
     | Ok gdd =>
         String.eqb (name gdd) "GDD"
         && (length (values gdd) =? index_size (index sample_data))%nat
     | Raise _ => false
     end
  && is_value_error
       (calculate_climate_index sample_data "UNSUPPORTED_INDEX" [])
  && match drop sample_data ["precipitation"%string] with
     | Ok data_without_precipitation =>
         is_value_error
           (calculate_climate_index data_without_precipitation "SPI" [])
     | Raise _ => false
     end
  && match drop sample_data ["temperature"%string] with
     | Ok data_without_temperature =>
         is_value_error
           (calculate_climate_index data_without_temperature "GDD" [])
     | Raise _ => false
     end.

(** ** Vocabulary of the statements *)

(** Each element is greater than or equal to the previous one. *)
Fixpoint non_decreasing (l : list float) : bool :=
  match l with
  | a :: (b :: _) as r => (a <=? b)%float && non_decreasing r
  | _ => true
  end.

(** The temperature the degree days are counted from: the ['temperature']
    column, else the mean of ['temp_max'] and ['temp_min']. *)
Definition effective_temperature (data : DataFrame) : option (list float) :=
  match assoc "temperature" (columns data) with
  | Some temp => Some temp
  | None =>
      match assoc "temp_max" (columns data),
            assoc "temp_min" (columns data) with
      | Some hi, Some lo => Some (mean_temp hi lo)
      | _, _ => None
      end
  end.

Definition no_missing (df : DataFrame) : bool :=
  forallb (fun c => forallb (fun v => negb (is_nan v)) (snd c)) (columns df).

Definition resampled_size (r : result Series) : option nat :=
  match r with
  | Ok s => Some (length (values s))
  | Raise _ => None
  end.

Definition printed {A : Type} (r : result (A * list string)) : list string :=
  match r with
  | Ok (_, out) => out
  | Raise _ => []
  end.

Definition has_decomposition {A : Type} (r : result (pydict * A)) : bool :=
  match r with
  | Ok (d, _) => dict_has "seasonal" d && dict_has "residual" d
  | Raise _ => false
  end.

(** The figure of a line plot of [y] against [ix], as [visualize_data]
    finishes it. *)
Definition line_figure (ix : Index) (variable : string) (y : list float)
    : Figure :=
  [LinePlot ix y; Title (variable ++ " over time"); XLabel "Date";
   YLabel variable; TightLayout].

(** The paths written, in order. *)
Definition saved_files (t : list effect) : list string :=
  flat_map (fun e => match e with
                     | SaveFig _ path => [path]
                     | _ => []
                     end) t.

(** The dates never go back from one row to the next. *)
Fixpoint dates_in_order (ds : list date) : bool :=
  match ds with
  | a :: (b :: _) as r => Pd.date_leb a b && dates_in_order r
  | _ => true
  end.

(** The resampling frequency a period tag stands for. *)
Definition freq_of (time_period : string) : option Pd.freq :=
  if String.eqb time_period "monthly" then Some Pd.MonthEnd
  else if String.eqb time_period "yearly" then Some Pd.YearEnd
  else None.

(** The rows of a table that [dropna] keeps. *)
Definition complete_rows (df : DataFrame) : list nat :=
  filter (Pd.row_complete (columns df)) (seq 0 (index_size (index df))).

(** ** binary64 against its specification

    Classes of [spec_float] used to read the specification of the primitive
    operations ([FloatAxioms]). *)

Definition fexp64 (e : Z) : Z := Z.max (e - 53) (-1074).

(** What [binary_round_aux] answers from the rounded mantissa and exponent. *)
Definition round_result (s : bool) (m e : Z) : spec_float :=
  match m with
  | Z0 => S754_zero s
  | Zpos p => if (e <=? emax - prec)%Z then S754_finite s p e
              else S754_infinity s
  | Zneg _ => S754_nan
  end.

Definition sf_not_nan (x : spec_float) : bool :=
  match x with S754_nan => false | _ => true end.

Definition sf_fin (x : spec_float) : bool :=
  match x with S754_zero _ | S754_finite _ _ _ => true | _ => false end.

Definition sf_nonneg (x : spec_float) : bool :=
  match x with
  | S754_zero _ => true
  | S754_infinity s | S754_finite s _ _ => negb s
  | S754_nan => false
  end.

Definition sf_zn (x : spec_float) : bool :=
  match x with S754_zero _ | S754_nan => true | _ => false end.

(** A zero of either sign, or NaN. *)
Definition zn (x : float) : bool := sf_zn (Prim2SF x).

Definition sf_zero (x : spec_float) : bool :=
  match x with S754_zero _ => true | _ => false end.

(** A zero of either sign, or a negative number, finite or not. *)
Definition sf_nonpos (x : spec_float) : bool :=
  match x with
  | S754_zero _ => true
  | S754_infinity s | S754_finite s _ _ => s
  | S754_nan => false
  end.

(** ** Sample data

    The fixture of [test_climate.py] has one row per day from 2020-01-01 to
    2022-12-31; its random columns are replaced by fixed ones. *)

Definition sample_dates : list date := Pd.date_range (mkdate 2020 1 1) 1096.

Definition sample_temperature : list float :=
  map (fun i => Np.float_of_nat (10 + (i * 7) mod 11)) (seq 0 1096).

Definition sample_precipitation : list float :=
  map (fun i => Np.float_of_nat ((i * 3) mod 8)) (seq 0 1096).

Definition sample_data : DataFrame :=
  mkFrame (DatetimeIndex sample_dates)
          [("temperature", sample_temperature);
           ("precipitation", sample_precipitation)]%string.

(** The fixture for a draw of its two random columns. *)
Definition fixture (temperatures precipitation : list float) : DataFrame :=
  mkFrame (DatetimeIndex sample_dates)
          [("temperature", temperatures);
           ("precipitation", precipitation)]%string.

Definition first_rows (n : nat) (df : DataFrame) : DataFrame :=
  mkFrame (Pd.take_index (seq 0 n) (index df))
          (map (fun c => (fst c, firstn n (snd c))) (columns df)).

(** Ten days within January 2020, and ten days from 2020-01-27 into
    February. *)
Definition ten_days : DataFrame := first_rows 10 sample_data.

Definition ten_days_across_months : DataFrame :=
  mkFrame (DatetimeIndex (Pd.date_range (mkdate 2020 1 27) 10))
          [("temperature", firstn 10 sample_temperature)]%string.

(** Three years of days at 1.46e308 each: finite, and too large for a month
    of them to be added up. *)
Definition hot_table : DataFrame :=
  mkFrame (DatetimeIndex sample_dates)
          [("temperature", repeat 0x1.ap1023%float 1096)]%string.

Definition empty_table : DataFrame :=
  mkFrame (DatetimeIndex []) [("temperature", [])]%string.

(** A p-value routine for running [linregress_f64]: none is computed. *)
Definition no_pvalue (df : Z) (t : float) : float := nan.

Definition min_max_table : DataFrame :=
  mkFrame (DatetimeIndex (Pd.date_range (mkdate 2021 6 1) 3))
          [("temp_max", [20; 14; 25]%float);
           ("temp_min", [8; 2; 11]%float)]%string.

(** Constant precipitation: 0.1 on each of three days, and 2 on each. *)
Definition tenths_table : DataFrame :=
  mkFrame (DatetimeIndex (Pd.date_range (mkdate 2021 6 1) 3))
          [("precipitation", [0x1.999999999999ap-4; 0x1.999999999999ap-4;
                              0x1.999999999999ap-4]%float)]%string.

Definition twos_table : DataFrame :=
  mkFrame (DatetimeIndex (Pd.date_range (mkdate 2021 6 1) 3))
          [("precipitation", [2; 2; 2]%float)]%string.


Definition ten_tenths_table : DataFrame :=
  mkFrame (DatetimeIndex (Pd.date_range (mkdate 2021 6 1) 10))
          [("precipitation", repeat 0x1.999999999999ap-4%float 10)]%string.

(** A file system with two files, and [pd.to_datetime] on integer labels
    (nanoseconds since 1970-01-01). *)
Definition raw_csv : DataFrame :=
  mkFrame (DatetimeIndex (Pd.date_range (mkdate 2022 1 1) 3))
          [("temperature", [10; nan; 12]%float);
           ("precipitation", [1; 2; 3]%float)]%string.

Definition raw_json : DataFrame :=
  mkFrame (LabelIndex [LInt 0; LInt 1])
          [("temperature", [10; 12]%float)]%string.

Definition sample_read_csv (path : string) : result DataFrame :=
  if String.eqb path "test_data.csv" then Ok raw_csv
  else Raise (LibraryError "FileNotFoundError").

Definition sample_read_json (path : string) : result DataFrame :=
  if String.eqb path "test_data.json" then Ok raw_json
  else Raise (LibraryError "FileNotFoundError").

Definition sample_read_excel (path : string) : result DataFrame :=
  Raise (LibraryError "FileNotFoundError").

Definition sample_to_datetime (ls : list label) : result (list date) :=
  if forallb (fun l => match l with LInt _ => true | LStr _ => false end) ls
  then Ok (map (fun _ => mkdate 1970 1 1) ls)
  else Raise (ValueError "Unknown datetime string format").

Definition sample_pivot (df : DataFrame) (months : list Z) (variable : string)
    : result DataFrame :=
  Raise (ValueError "Index contains duplicate entries, cannot reshape").

(** pandas from 1.5 on asks for the truth value of [by] and raises. *)
Definition sample_boxplot (data : DataFrame) (variable : string)
    (months : list Z) : result unit :=
  Raise (ValueError "The truth value of a Index is ambiguous.").

(** The file the driver reads, with the sample table in it, and a disk that
    takes every figure. *)
Definition driver_read_csv (table : DataFrame) (path : string)
    : result DataFrame :=
  if String.eqb path "larger_sample_climate_data.csv" then Ok table
  else Raise (LibraryError "FileNotFoundError").

Definition sample_savefig (fig : Figure) (path : string) : result unit :=
  Ok tt.

(** A table with a gap: rows in January and in March 2021 only; and one whose
    second temperature is missing. *)
Definition gap_table : DataFrame :=
  mkFrame (DatetimeIndex [mkdate 2021 3 5; mkdate 2021 1 10; mkdate 2021 1 20])
          [("temperature", [9; 4; 6]%float)]%string.

Definition missing_table : DataFrame :=
  mkFrame (DatetimeIndex (Pd.date_range (mkdate 2021 6 1) 3))
          [("temperature", [14; nan; 13]%float);
           ("precipitation", [1; nan; 4]%float)]%string.

(** Temperatures of 0.1, 0.2 and 0.3 on three days of June 2021. *)
Definition ramp_table : DataFrame :=
  mkFrame (DatetimeIndex (Pd.date_range (mkdate 2021 6 1) 3))
          [("temperature", [0x1.999999999999ap-4; 0x1.999999999999ap-3;
                            0x1.3333333333333p-2]%float)]%string.

(** A first day of unbounded heat. *)
Definition infinite_table : DataFrame :=
  mkFrame (DatetimeIndex (Pd.date_range (mkdate 2021 6 1) 2))
          [("temperature", [infinity; 5]%float)]%string.

Definition label_table : DataFrame :=
  mkFrame (LabelIndex [LStr "a"; LStr "b"])
          [("temperature", [10; 12]%float)]%string.

Definition no_columns : DataFrame :=
  mkFrame (DatetimeIndex (Pd.date_range (mkdate 2021 6 1) 3)) [].

(** * Properties *)

Unset Implicit Arguments.

(** ** Columns *)

Lemma has_column_assoc (c : string) (df : DataFrame) :
  has_column c df = true <-> exists v, assoc c (columns df) = Some v.
Proof.
  unfold has_column, column_names.
  induction (columns df) as [|[k v] l IH]; simpl.
  - split; [discriminate | intros [v H]; discriminate].
  - destruct (String.eqb c k); simpl.
    + split; eauto.
    + exact IH.
Qed.

Lemma has_column_false (c : string) (df : DataFrame) :
  has_column c df = false <-> assoc c (columns df) = None.
Proof.
  split; intros H.
  - destruct (assoc c (columns df)) as [v|] eqn:E; trivial.
    assert (has_column c df = true) by (apply has_column_assoc; eauto).
    congruence.
  - destruct (has_column c df) eqn:E; trivial.
    apply has_column_assoc in E as [v E]. congruence.
Qed.

Lemma assoc_In (A : Type) (c : string) (l : list (string * A)) (v : A) :
  assoc c l = Some v -> In (c, v) l.
Proof.
  induction l as [|[k w] l IH]; simpl; [discriminate|].
  destruct (String.eqb_spec c k) as [->|_].
  - intros [= ->]. now left.
  - intros H. right. auto.
Qed.

Lemma wf_column_length (df : DataFrame) (c : string) (v : list float) :
  wf_frame df -> assoc c (columns df) = Some v ->
  length v = index_size (index df).
Proof.
  intros W H. apply assoc_In in H.
  unfold wf_frame in W. rewrite Forall_forall in W.
  exact (W _ H).
Qed.

Lemma zip_with_length (A B C : Type) (f : A -> B -> C) l1 l2 :
  length l1 = length l2 -> length (zip_with f l1 l2) = length l1.
Proof.
  intros H. unfold zip_with. rewrite length_map, length_combine. lia.
Qed.

(** ** binary64: rounding never loses a non-negative addend

    The primitive operations are specified by [FloatAxioms] through
    [SpecFloat]; the lemmas below read that specification. *)

Section Binary64Spec.

Local Open Scope Z_scope.

Lemma digits2_size p : digits2_pos p = Pos.size p.
Proof. induction p; simpl; congruence. Qed.

Lemma digits2_bounds p :
  2 ^ (Z.pos (digits2_pos p) - 1) <= Z.pos p < 2 ^ Z.pos (digits2_pos p).
Proof.
  rewrite digits2_size. split.
  - pose proof (Pos.size_le p) as H.
    assert (E : Z.pos (2 ^ Pos.size p) = 2 ^ Z.pos (Pos.size p))
      by (rewrite Pos2Z.inj_pow; reflexivity).
    assert (Z.pos (2 ^ Pos.size p) <= Z.pos p~0)
      by (apply Pos2Z.pos_le_pos; exact H).
    rewrite E in H0.
    replace (Z.pos (Pos.size p)) with (Z.pos (Pos.size p) - 1 + 1) in H0 by lia.
    rewrite Z.pow_add_r in H0 by lia. change (2 ^ 1) with 2 in H0. lia.
  - pose proof (Pos.size_gt p) as H.
    assert (Z.pos p < Z.pos (2 ^ Pos.size p))
      by (apply Pos2Z.pos_lt_pos; exact H).
    rewrite Pos2Z.inj_pow in H0. exact H0.
Qed.

Lemma digits2_ge_of_pow_le p k : 2 ^ k <= Z.pos p ->
  k + 1 <= Z.pos (digits2_pos p).
Proof.
  intros H. destruct (digits2_bounds p) as [_ U].
  destruct (Z_le_gt_dec (k + 1) (Z.pos (digits2_pos p))) as [|G]; trivial.
  assert (2 ^ Z.pos (digits2_pos p) <= 2 ^ k) by (apply Z.pow_le_mono_r; lia).
  lia.
Qed.

Lemma shr_1_m mrs : 0 <= shr_m mrs -> shr_m (shr_1 mrs) = shr_m mrs / 2.
Proof.
  destruct mrs as [m r s]. simpl. intros H.
  destruct m as [|p|p]; try lia; [reflexivity|].
  destruct p; simpl.
  - rewrite Pos2Z.inj_xI. apply Z.div_unique with 1; lia.
  - rewrite Pos2Z.inj_xO. apply Z.div_unique with 0; lia.
  - reflexivity.
Qed.

Lemma pow2_xI p : 2 ^ Z.pos p~1 = 2 * 2 ^ Z.pos p * 2 ^ Z.pos p.
Proof.
  replace (Z.pos p~1) with (1 + Z.pos p + Z.pos p) by lia.
  rewrite !Z.pow_add_r by lia. reflexivity.
Qed.

Lemma pow2_xO p : 2 ^ Z.pos p~0 = 2 ^ Z.pos p * 2 ^ Z.pos p.
Proof.
  replace (Z.pos p~0) with (Z.pos p + Z.pos p) by lia.
  rewrite !Z.pow_add_r by lia. reflexivity.
Qed.

Lemma iter_pos_shr_m p : forall mrs, 0 <= shr_m mrs ->
  shr_m (SpecFloat.iter_pos shr_1 p mrs) = shr_m mrs / 2 ^ Z.pos p.
Proof.
  induction p; intros mrs H; cbn [SpecFloat.iter_pos].
  - assert (H1 : 0 <= shr_m (shr_1 mrs))
      by (rewrite shr_1_m by trivial; apply Z.div_pos; lia).
    assert (H2 : 0 <= shr_m (SpecFloat.iter_pos shr_1 p (shr_1 mrs)))
      by (rewrite IHp by trivial; apply Z.div_pos; lia).
    rewrite IHp, IHp, shr_1_m by trivial.
    rewrite !Z.div_div by lia. rewrite pow2_xI. f_equal. ring.
  - assert (H2 : 0 <= shr_m (SpecFloat.iter_pos shr_1 p mrs))
      by (rewrite IHp by trivial; apply Z.div_pos; lia).
    rewrite IHp, IHp by trivial.
    rewrite !Z.div_div by lia. rewrite pow2_xO. f_equal.
  - rewrite shr_1_m by trivial. reflexivity.
Qed.

Lemma fexp64_eq e : fexp prec emax e = fexp64 e.
Proof. reflexivity. Qed.

Lemma fexp64_mono a b : a <= b -> fexp64 a <= fexp64 b.
Proof. unfold fexp64. lia. Qed.

Lemma shr_record_of_loc_m m l : shr_m (shr_record_of_loc m l) = m.
Proof. destruct l as [|[]]; reflexivity. Qed.

Lemma shr_fexp_spec m e l : 0 <= m ->
  let k := Z.max (fexp64 (Zdigits2 m + e) - e) 0 in
  shr_m (fst (shr_fexp prec emax m e l)) = m / 2 ^ k /\
  snd (shr_fexp prec emax m e l) = e + k.
Proof.
  intros Hm k. unfold shr_fexp, shr. rewrite fexp64_eq. subst k.
  destruct (fexp64 (Zdigits2 m + e) - e) as [|p|p] eqn:E; cbn [fst snd].
  - rewrite shr_record_of_loc_m, Z.div_1_r. split; [reflexivity | lia].
  - rewrite iter_pos_shr_m by (rewrite shr_record_of_loc_m; trivial).
    rewrite shr_record_of_loc_m.
    replace (Z.max (Z.pos p) 0) with (Z.pos p) by lia.
    split; reflexivity.
  - rewrite shr_record_of_loc_m. replace (Z.max (Z.neg p) 0) with 0 by lia.
    rewrite Z.div_1_r. split; [reflexivity | lia].
Qed.

Lemma round_nearest_even_bounds m l :
  m <= round_nearest_even m l <= m + 1.
Proof.
  destruct l as [|[]]; simpl; try lia.
  destruct (Z.even m); lia.
Qed.

Lemma binary_round_aux_spec s m e l : 0 <= m ->
  let k1 := Z.max (fexp64 (Zdigits2 m + e) - e) 0 in
  let e1 := e + k1 in
  exists m2, m / 2 ^ k1 <= m2 <= m / 2 ^ k1 + 1 /\
    let k2 := Z.max (fexp64 (Zdigits2 m2 + e1) - e1) 0 in
    binary_round_aux prec emax s m e l = round_result s (m2 / 2 ^ k2) (e1 + k2).
Proof.
  intros Hm k1 e1. unfold binary_round_aux.
  destruct (shr_fexp_spec m e l Hm) as [Hm1 He1].
  destruct (shr_fexp prec emax m e l) as [mrs' e'] eqn:E1.
  cbn [fst snd] in Hm1, He1.
  set (m2 := round_nearest_even (shr_m mrs') (loc_of_shr_record mrs')).
  exists m2.
  assert (B := round_nearest_even_bounds (shr_m mrs') (loc_of_shr_record mrs')).
  fold m2 in B. rewrite Hm1 in B. fold k1 in B. split; [exact B|].
  assert (H2 : 0 <= m2).
  { assert (0 <= m / 2 ^ k1)
      by (apply Z.div_pos; [lia | apply Z.pow_pos_nonneg; lia]). lia. }
  destruct (shr_fexp_spec m2 e' loc_Exact H2) as [Hm3 He3].
  destruct (shr_fexp prec emax m2 e' loc_Exact) as [mrs'' e''] eqn:E2.
  cbn [fst snd] in Hm3, He3.
  cbn zeta. rewrite Hm3, He3, He1. fold k1. fold e1. reflexivity.
Qed.

Lemma digits2_pow_le p : 2 ^ (Z.pos (digits2_pos p) - 53) <= Z.pos p.
Proof.
  destruct (digits2_bounds p) as [L _].
  destruct (Z_lt_le_dec (Z.pos (digits2_pos p) - 53) 0) as [N|N].
  - rewrite Z.pow_neg_r by trivial. lia.
  - assert (2 ^ (Z.pos (digits2_pos p) - 53) <= 2 ^ (Z.pos (digits2_pos p) - 1))
      by (apply Z.pow_le_mono_r; lia).
    lia.
Qed.

Lemma binary_round_aux_lower s (mz ma : positive) (ez ea : Z) l :
  fexp64 (Z.pos (digits2_pos ma) + ea) = ea ->
  ez <= ea ->
  Z.pos ma * 2 ^ (ea - ez) <= Z.pos mz ->
  match binary_round_aux prec emax s (Z.pos mz) ez l with
  | S754_finite s' m e => s' = s /\ (ea < e \/ (e = ea /\ (ma <= m)%positive))
  | S754_infinity s' => s' = s
  | _ => False
  end.
Proof.
  intros Hc Hez Hle.
  destruct (binary_round_aux_spec s (Z.pos mz) ez l) as (m2 & [B1 B2] & E);
    [lia|].
  cbn zeta in E. rewrite E; clear E. cbn [Zdigits2] in *.
  set (f1 := fexp64 (Z.pos (digits2_pos mz) + ez)) in *.
  assert (P : 0 < 2 ^ (ea - ez)) by (apply Z.pow_pos_nonneg; lia).
  assert (D : Z.pos (digits2_pos ma) + ea <= Z.pos (digits2_pos mz) + ez).
  { destruct (digits2_bounds ma) as [L _].
    assert (2 ^ (Z.pos (digits2_pos ma) - 1 + (ea - ez)) <= Z.pos mz).
    { rewrite Z.pow_add_r by lia. nia. }
    apply digits2_ge_of_pow_le in H. lia. }
  assert (F : ea <= f1) by (rewrite <- Hc; apply fexp64_mono; exact D).
  replace (Z.max (f1 - ez) 0) with (f1 - ez) in * by lia.
  replace (ez + (f1 - ez)) with f1 in * by lia.
  assert (K : 2 ^ (f1 - ez) <= Z.pos mz).
  { unfold f1, fexp64 in *.
    destruct (Z.max_spec (Z.pos (digits2_pos mz) + ez - 53) (-1074))
      as [[_ M]|[_ M]];
      rewrite M in *.
    - assert (ea = -1074) by lia. subst ea. nia.
    - replace (Z.pos (digits2_pos mz) + ez - 53 - ez)
        with (Z.pos (digits2_pos mz) - 53) by lia.
      apply digits2_pow_le. }
  assert (Pk : 0 < 2 ^ (f1 - ez)) by (apply Z.pow_pos_nonneg; lia).
  assert (M1 : 1 <= Z.pos mz / 2 ^ (f1 - ez)).
  { apply Z.div_le_lower_bound; lia. }
  destruct m2 as [|p2|p2]; try lia. cbn [Zdigits2] in *.
  set (k2 := Z.max (fexp64 (Z.pos (digits2_pos p2) + f1) - f1) 0).
  assert (F1 : -1074 <= f1) by (unfold f1, fexp64; lia).
  assert (K2 : 2 ^ k2 <= Z.pos p2).
  { unfold k2, fexp64.
    destruct (Z.max_spec (Z.pos (digits2_pos p2) + f1 - 53 - f1) 0)
      as [[_ M]|[_ M]].
    - replace (Z.max (Z.max (Z.pos (digits2_pos p2) + f1 - 53) (-1074) - f1) 0)
        with 0 by lia.
      simpl. lia.
    - replace (Z.max (Z.max (Z.pos (digits2_pos p2) + f1 - 53) (-1074) - f1) 0)
        with (Z.pos (digits2_pos p2) - 53) by lia.
      apply digits2_pow_le. }
  assert (Pk2 : 0 < 2 ^ k2) by (apply Z.pow_pos_nonneg; unfold k2; lia).
  assert (M3 : 1 <= Z.pos p2 / 2 ^ k2) by (apply Z.div_le_lower_bound; lia).
  destruct (Z.pos p2 / 2 ^ k2) as [|p3|p3] eqn:E3; try lia.
  unfold round_result.
  destruct (f1 + k2 <=? emax - prec); [|reflexivity].
  split; [reflexivity|].
  destruct (Z_lt_le_dec ea (f1 + k2)) as [|G]; [now left|right].
  assert (k2 = 0) by (unfold k2 in *; lia).
  assert (f1 = ea) by lia.
  split; [lia|].
  rewrite H in E3. simpl in E3. rewrite Z.div_1_r in E3. injection E3 as <-.
  assert (Z.pos ma <= Z.pos mz / 2 ^ (f1 - ez)).
  { apply Z.div_le_lower_bound; [lia|]. rewrite H0. lia. }
  lia.
Qed.

Lemma pos_iter_xO (m d : positive) :
  Z.pos (Pos.iter xO m d) = Z.pos m * 2 ^ Z.pos d.
Proof.
  induction d using Pos.peano_ind.
  - simpl. lia.
  - rewrite Pos.iter_succ, Pos2Z.inj_xO, IHd, Pos2Z.inj_succ, Z.pow_succ_r
      by lia.
    ring.
Qed.

Lemma shl_align_spec (m : positive) (e e' : Z) :
  snd (shl_align m e e') = Z.min e e' /\
  Z.pos (fst (shl_align m e e')) = Z.pos m * 2 ^ (e - Z.min e e').
Proof.
  unfold shl_align. destruct (e' - e) as [|d|d] eqn:E; cbn [fst snd].
  - replace (Z.min e e') with e by lia. rewrite Z.sub_diag. simpl. lia.
  - replace (Z.min e e') with e by lia. rewrite Z.sub_diag. simpl. lia.
  - replace (Z.min e e') with e' by lia. split; [reflexivity|].
    rewrite pos_iter_xO. f_equal. f_equal. lia.
Qed.

Lemma round_result_not_nan s m e : 0 <= m ->
  sf_not_nan (round_result s m e) = true.
Proof.
  destruct m; simpl; try lia; trivial. now destruct (_ <=? _).
Qed.

Lemma binary_round_aux_not_nan s m e l : 0 <= m ->
  sf_not_nan (binary_round_aux prec emax s m e l) = true.
Proof.
  intros Hm. destruct (binary_round_aux_spec s m e l Hm) as (m2 & [B1 B2] & E).
  cbn zeta in E. rewrite E. apply round_result_not_nan.
  assert (0 <= m / 2 ^ Z.max (fexp64 (Zdigits2 m + e) - e) 0)
    by (apply Z.div_pos; [lia | apply Z.pow_pos_nonneg; lia]).
  apply Z.div_pos; [lia | apply Z.pow_pos_nonneg; lia].
Qed.

Lemma binary_normalize_not_nan m e sz :
  sf_not_nan (binary_normalize prec emax m e sz) = true.
Proof.
  destruct m; simpl; trivial; unfold binary_round;
    destruct (shl_align _ _ _); apply binary_round_aux_not_nan; lia.
Qed.

Lemma SFadd_fin_not_nan a b :
  sf_fin a = true -> sf_fin b = true -> sf_not_nan (SF64add a b) = true.
Proof.
  destruct a as [sa|sa| |sa ma ea], b as [sb|sb| |sb mb eb]; try discriminate;
    intros _ _;
    unfold SF64add, SFadd; try reflexivity.
  - now destruct sa, sb.
  - apply binary_normalize_not_nan.
Qed.

Lemma SFsub_not_nan a b :
  sf_not_nan a = true -> sf_fin b = true -> sf_not_nan (SF64sub a b) = true.
Proof.
  destruct a as [sa|sa| |sa ma ea], b as [sb|sb| |sb mb eb]; try discriminate;
    intros _ _;
    unfold SF64sub, SFsub; try reflexivity.
  - now destruct sa, sb.
  - apply binary_normalize_not_nan.
Qed.

Lemma SFdiv_finite_not_nan a sb mb eb :
  sf_not_nan a = true -> sf_not_nan (SF64div a (S754_finite sb mb eb)) = true.
Proof.
  destruct a as [sa|sa| |sa ma ea]; try discriminate; intros _;
    unfold SF64div, SFdiv; try reflexivity.
  destruct (SFdiv_core_binary prec emax (Z.pos ma) ea (Z.pos mb) eb)
    as [[q e'] l] eqn:E.
  apply binary_round_aux_not_nan.
  unfold SFdiv_core_binary in E.
  set (m' := match _ - _ - _ with
             | Z0 => _ | Z.pos _ => _ | Z.neg _ => _
             end) in E.
  assert (Hm : 0 <= m').
  { subst m'. destruct (_ - _ - _); try lia. rewrite Z.shiftl_mul_pow2 by lia.
    apply Z.mul_nonneg_nonneg; [lia | apply Z.pow_nonneg; lia]. }
  pose proof (Z_div_mod m' (Z.pos mb) eq_refl) as DM.
  destruct (Z.div_eucl m' (Z.pos mb)) as [q' r']. injection E as <- _ _.
  destruct DM as [DM1 DM2]. nia.
Qed.

Lemma valid_canonical s m e :
  valid_binary (S754_finite s m e) = true ->
  fexp64 (Z.pos (digits2_pos m) + e) = e.
Proof.
  simpl. unfold bounded, canonical_mantissa. rewrite fexp64_eq.
  intros H. apply andb_prop in H as [H _]. now apply Z.eqb_eq in H.
Qed.

Lemma SFcompare_finite_refl s m e :
  SFcompare (S754_finite s m e) (S754_finite s m e) = Some Eq.
Proof.
  simpl. rewrite Z.compare_refl, Pos.compare_cont_refl. now destruct s.
Qed.

Lemma SFadd_nonneg_le a b :
  valid_binary a = true -> sf_nonneg a = true -> sf_nonneg b = true ->
  sf_nonneg (SF64add a b) = true /\ SFleb a (SF64add a b) = true.
Proof.
  intros Va Ha Hb.
  destruct a as [sa|sa| |sa ma ea], b as [sb|sb| |sb mb eb]; try discriminate;
    simpl in Ha, Hb;
    try (apply negb_true_iff in Ha; subst sa);
    try (apply negb_true_iff in Hb; subst sb);
    unfold SF64add, SFadd, SFleb.
  - now destruct sa, sb.
  - now split.
  - now split.
  - now split.
  - now split.
  - now split.
  - rewrite SFcompare_finite_refl. now split.
  - now split.
  - apply valid_canonical in Va.
    destruct (shl_align_spec ma ea (Z.min ea eb)) as [_ A].
    destruct (shl_align_spec mb eb (Z.min ea eb)) as [_ B].
    set (ma' := fst (shl_align ma ea (Z.min ea eb))) in *.
    set (mb' := fst (shl_align mb eb (Z.min ea eb))) in *.
    cbn [cond_Zopp]. change (Z.pos ma' + Z.pos mb') with (Z.pos (ma' + mb')).
    cbn [binary_normalize]. unfold binary_round.
    set (ez := Z.min ea eb) in *.
    destruct (shl_align_spec (ma' + mb') ez
                (fexp prec emax (Z.pos (digits2_pos (ma' + mb')) + ez)))
                  as [S1 S2].
    destruct (shl_align (ma' + mb') ez _) as [mz ez'] eqn:E.
    cbn [fst snd] in S1, S2.
    replace (Z.min ea ez) with ez in A by (unfold ez; lia).
    assert (Hez : ez' <= ea) by (unfold ez in *; lia).
    assert (Hm : Z.pos ma * 2 ^ (ea - ez') <= Z.pos mz).
    { rewrite S2, <- S1, Pos2Z.inj_add, A.
      replace (ea - ez') with ((ea - ez) + (ez - ez')) by lia.
      rewrite Z.pow_add_r by (unfold ez in *; lia).
      assert (0 < 2 ^ (ez - ez')) by (apply Z.pow_pos_nonneg; lia).
      assert (0 <= Z.pos mb' * 2 ^ (ez - ez'))
        by (apply Z.mul_nonneg_nonneg; lia).
      rewrite Z.mul_add_distr_r, Z.mul_assoc. lia. }
    pose proof (binary_round_aux_lower false mz ma ez' ea loc_Exact Va Hez Hm)
      as L.
    destruct (binary_round_aux prec emax false (Z.pos mz) ez' loc_Exact)
      as [s'|s'| |s' m' e']; try contradiction.
    + subst s'. now split.
    + destruct L as [-> L]. split; [reflexivity|]. cbn [SFcompare].
      destruct L as [L|[-> L]].
      * apply Z.compare_lt_iff in L. now rewrite L.
      * rewrite Z.compare_refl.
        change (Pos.compare_cont Eq ma m') with (Pos.compare ma m').
        apply Pos.compare_le_iff in L.
        destruct (Pos.compare ma m'); trivial. contradiction.
Qed.

Local Close Scope Z_scope.
Local Open Scope float_scope.

Lemma leb0_spec x : (0 <=? x) = sf_nonneg (Prim2SF x).
Proof.
  rewrite leb_spec. change (Prim2SF 0) with (S754_zero false).
  destruct (Prim2SF x) as [s|s| |s m e]; try destruct s; reflexivity.
Qed.

Lemma SFeqb_refl s : SFeqb s s = sf_not_nan s.
Proof.
  destruct s as [s|s| |s m e]; unfold SFeqb; try reflexivity.
  - now destruct s.
  - now rewrite SFcompare_finite_refl.
Qed.

Lemma is_nan_spec x : is_nan x = negb (sf_not_nan (Prim2SF x)).
Proof. unfold is_nan. now rewrite FloatAxioms.eqb_spec, SFeqb_refl. Qed.

Lemma is_finite_spec x : is_finite x = sf_fin (Prim2SF x).
Proof.
  unfold is_finite, is_infinity.
  rewrite is_nan_spec, FloatAxioms.eqb_spec, abs_spec.
  change (Prim2SF infinity) with (S754_infinity false).
  destruct (Prim2SF x) as [s|s| |s m e]; reflexivity.
Qed.

Lemma add_nonneg_le x y :
  (0 <=? x) = true -> (0 <=? y) = true ->
  (0 <=? x + y) = true /\ (x <=? x + y) = true.
Proof.
  rewrite !leb0_spec, leb_spec, add_spec. intros Hx Hy.
  apply SFadd_nonneg_le; trivial. apply Prim2SF_valid.
Qed.

Lemma nonneg_not_nan x : (0 <=? x) = true -> is_nan x = false.
Proof.
  rewrite leb0_spec, is_nan_spec. now destruct (Prim2SF x).
Qed.

Lemma sub_not_nan x b :
  is_nan x = false -> is_finite b = true -> is_nan (x - b) = false.
Proof.
  rewrite !is_nan_spec, is_finite_spec, sub_spec. intros Hx Hb.
  apply negb_false_iff in Hx. now rewrite SFsub_not_nan.
Qed.

Lemma add_finite_not_nan x y :
  is_finite x = true -> is_finite y = true -> is_nan (x + y) = false.
Proof.
  rewrite is_nan_spec, !is_finite_spec, add_spec. intros Hx Hy.
  now rewrite SFadd_fin_not_nan.
Qed.

Lemma div2_not_nan x : is_nan x = false -> is_nan (x / 2) = false.
Proof.
  rewrite !is_nan_spec, div_spec. intros Hx. apply negb_false_iff in Hx.
  change (Prim2SF 2) with (S754_finite false 4503599627370496 (-51)).
  now rewrite SFdiv_finite_not_nan.
Qed.

Lemma finite_not_nan x : is_finite x = true -> is_nan x = false.
Proof. rewrite is_finite_spec, is_nan_spec. now destruct (Prim2SF x). Qed.

Lemma zn_mul a b : zn a = true -> zn b = true -> zn (a * b) = true.
Proof.
  unfold zn. rewrite mul_spec.
  destruct (Prim2SF a), (Prim2SF b); try discriminate; reflexivity.
Qed.

Lemma zn_add a b : zn a = true -> zn b = true -> zn (a + b) = true.
Proof.
  unfold zn. rewrite add_spec.
  destruct (Prim2SF a) as [[]| | |], (Prim2SF b) as [[]| | |]; try discriminate;
    reflexivity.
Qed.

Lemma zn_div_l a b : zn a = true -> zn (a / b) = true.
Proof.
  unfold zn. rewrite div_spec.
  destruct (Prim2SF a), (Prim2SF b); try discriminate; reflexivity.
Qed.

Lemma zn_sqrt a : zn a = true -> zn (sqrt a) = true.
Proof.
  unfold zn. rewrite sqrt_spec.
  destruct (Prim2SF a); try discriminate; reflexivity.
Qed.

Lemma zn_div_zn a b : zn a = true -> zn b = true -> is_nan (a / b) = true.
Proof.
  unfold zn. rewrite is_nan_spec, div_spec.
  destruct (Prim2SF a), (Prim2SF b); try discriminate; reflexivity.
Qed.

Lemma div_nan_r a : is_nan (a / nan) = true.
Proof.
  rewrite is_nan_spec, div_spec. change (Prim2SF nan) with S754_nan.
  destruct (Prim2SF a); reflexivity.
Qed.

Lemma SFsub_diag s m e :
  SF64sub (S754_finite s m e) (S754_finite s m e) = S754_zero false.
Proof.
  unfold SF64sub, SFsub. cbv zeta. now rewrite Z.sub_diag.
Qed.

Lemma eqb_sub_zn a b :
  (a =? b) = true -> zn (a - b) = true /\ zn (b - a) = true.
Proof.
  unfold zn. rewrite FloatAxioms.eqb_spec, !sub_spec. unfold SFeqb.
  destruct (Prim2SF a) as [sa|sa| |sa ma ea], (Prim2SF b) as [sb|sb| |sb mb eb];
    try discriminate;
    try (destruct sa, sb; discriminate || (split; reflexivity)).
  cbn [SFcompare].
  destruct sa, sb; try discriminate;
    (destruct (Z.compare_spec ea eb) as [->| |]; try discriminate;
     change (Pos.compare_cont Eq ma mb) with (Pos.compare ma mb);
     destruct (Pos.compare_spec ma mb) as [->| |]; try discriminate;
     intros _; rewrite SFsub_diag; split; reflexivity).
Qed.

Lemma ltb0_maximum x : (x <? 0) = true -> (0 <=? x) = false /\ is_nan x = false.
Proof.
  rewrite ltb_spec, leb_spec, is_nan_spec.
  change (Prim2SF 0) with (S754_zero false).
  destruct (Prim2SF x) as [s|s| |s m e]; try destruct s; try discriminate;
    now split.
Qed.

End Binary64Spec.

(** ** Running sums *)

Section RunningSum.

Local Open Scope float_scope.

(** The length of the vector is fuel enough for the pairwise sum: more
    changes nothing. *)
Lemma pairwise_sum_fuel fuel : forall l more,
  (length l <= fuel)%nat ->
  Np.pairwise_sum (fuel + more) l = Np.pairwise_sum fuel l.
Proof.
  induction fuel as [|fuel IH]; intros l more H.
  - destruct l; [|simpl in H; lia]. destruct more; reflexivity.
  - cbn [Nat.add Np.pairwise_sum].
    destruct (Nat.leb_spec (length l) 128) as [_|G]; [reflexivity|].
    pose proof (Nat.div_mod_eq (length l) 2) as D.
    pose proof (Nat.mod_upper_bound (length l) 2 ltac:(lia)) as U.
    pose proof (Nat.mod_upper_bound (length l / 2) 8 ltac:(lia)) as V.
    rewrite !IH; [reflexivity| |].
    + rewrite length_skipn. lia.
    + rewrite length_firstn. lia.
Qed.

Lemma cumsum_from_length acc l : length (Np.cumsum_from acc l) = length l.
Proof.
  revert acc. induction l as [|v l IH]; intros acc; simpl; [reflexivity|].
  now rewrite IH.
Qed.

Lemma np_cumsum_length l : length (Np.cumsum l) = length l.
Proof. destruct l; simpl; [reflexivity|]. now rewrite cumsum_from_length. Qed.

Lemma fillna0_length l : length (Pd.fillna0 l) = length l.
Proof. unfold Pd.fillna0. apply length_map. Qed.

Lemma pd_cumsum_length l : length (Pd.cumsum l) = length l.
Proof.
  unfold Pd.cumsum. rewrite zip_with_length; [reflexivity|].
  now rewrite np_cumsum_length, fillna0_length.
Qed.

Lemma cumsum_from_prefix acc l i :
  (i < length l)%nat ->
  nth_error (Np.cumsum_from acc l) i =
    Some (fold_left add (firstn (S i) l) acc).
Proof.
  revert acc i. induction l as [|v l IH]; intros acc i Hi; simpl in Hi; [lia|].
  destruct i as [|i]; simpl.
  - reflexivity.
  - rewrite IH by lia. reflexivity.
Qed.

(** Each point of [np.cumsum] is the sum of the values up to it. *)
Lemma np_cumsum_prefix l i :
  (i < length l)%nat ->
  nth_error (Np.cumsum l) i = Some (Np.running_sum (firstn (S i) l)).
Proof.
  destruct l as [|v l]; simpl; intros Hi; [lia|].
  destruct i as [|i]; simpl; [reflexivity|].
  rewrite cumsum_from_prefix by lia. reflexivity.
Qed.

Lemma fillna0_id l :
  Forall (fun v => is_nan v = false) l -> Pd.fillna0 l = l.
Proof.
  induction 1 as [|v l Hv _ IH]; simpl; [reflexivity|].
  now rewrite Hv, IH.
Qed.

Lemma zip_restore_id (l acc : list float) :
  Forall (fun v => is_nan v = false) l -> length acc = length l ->
  zip_with (fun v a => if is_nan v then nan else a) l acc = acc.
Proof.
  intros H. revert acc. induction H as [|v l Hv _ IH]; intros [|a acc] E;
    simpl in E; try discriminate; [reflexivity|].
  unfold zip_with in *. simpl. rewrite Hv. f_equal. apply IH. lia.
Qed.

(** Without missing values the pandas running sum is numpy's. *)
Lemma pd_cumsum_no_nan l :
  Forall (fun v => is_nan v = false) l -> Pd.cumsum l = Np.cumsum l.
Proof.
  intros H. unfold Pd.cumsum. rewrite fillna0_id by exact H.
  apply zip_restore_id; [exact H | apply np_cumsum_length].
Qed.

End RunningSum.

(** ** What [np.maximum(x, 0)] does *)

Section Floor.

Local Open Scope float_scope.

Lemma maximum_negative x : (x <? 0) = true -> Np.maximum x 0 = 0.
Proof.
  intros H. apply ltb0_maximum in H as [H1 H2].
  unfold Np.maximum. now rewrite H1, H2.
Qed.

Lemma maximum_nonneg x : (0 <=? x) = true -> Np.maximum x 0 = x.
Proof. intros H. unfold Np.maximum. now rewrite H. Qed.

Lemma maximum_zero_nonneg x :
  is_nan x = false -> (0 <=? Np.maximum x 0) = true.
Proof.
  intros H. unfold Np.maximum. rewrite H, orb_false_r.
  destruct (0 <=? x) eqn:E; [exact E | reflexivity].
Qed.

End Floor.

(** ** The index calculator *)

Section IndexCalculator.

Local Open Scope string_scope.
Local Open Scope float_scope.

Lemma getitem_assoc (df : DataFrame) (c : string) (v : list float) :
  assoc c (columns df) = Some v ->
  getitem df c = Ok (mkSeries c (index df) v).
Proof. intros H. unfold getitem. now rewrite H. Qed.

Lemma eqb_neq_false (a b : string) : a <> b -> String.eqb a b = false.
Proof. apply String.eqb_neq. Qed.

Lemma mean_of_present p :
  (1 <= Pd.count p)%nat ->
  Pd.mean p = Np.sum (Pd.fillna0 p) / Np.float_of_nat (Pd.count p).
Proof.
  unfold Pd.mean. destruct (Pd.count p) eqn:E; [lia | reflexivity].
Qed.



Lemma spi_missing_precipitation data params :
  has_column "precipitation" data = false ->
  calculate_climate_index data "SPI" params =
    Raise (ValueError "Precipitation data not found in the DataFrame").
Proof.
  intros H. unfold calculate_climate_index.
  cbn [String.eqb Ascii.eqb Bool.eqb]. now rewrite H.
Qed.

Lemma gdd_missing_temperature data params :
  has_column "temperature" data = false ->
  has_column "temp_max" data && has_column "temp_min" data = false ->
  calculate_climate_index data "GDD" params =
    Raise (ValueError "Required temperature data not found in the DataFrame").
Proof.
  intros H1 H2. unfold calculate_climate_index.
  cbn [String.eqb Ascii.eqb Bool.eqb]. now rewrite H1, H2.
Qed.

(** C7: ['SPI'] without a ['precipitation'] column, and ['GDD'] without
    ['temperature'] and without the pair ['temp_max'], ['temp_min'], raise a
    value error. *)
Theorem index_without_required_columns
    (data : DataFrame) (params : list (string * float)) :
  (has_column "precipitation" data = false ->
   is_value_error (calculate_climate_index data "SPI" params) = true /\
   calculate_climate_index data "SPI" params =
     Raise (ValueError "Precipitation data not found in the DataFrame")) /\
  (has_column "temperature" data = false ->
   has_column "temp_max" data && has_column "temp_min" data = false ->
   is_value_error (calculate_climate_index data "GDD" params) = true /\
   calculate_climate_index data "GDD" params =
     Raise (ValueError "Required temperature data not found in the DataFrame")).
Proof.
  split.
  - intros H. rewrite (spi_missing_precipitation data params H). now split.
  - intros H1 H2. rewrite (gdd_missing_temperature data params H1 H2).
    now split.
Qed.

Lemma index_without_required_columns_witness :
  calculate_climate_index empty_table "SPI" [] =
    Raise (ValueError "Precipitation data not found in the DataFrame") /\
  calculate_climate_index (mkFrame (DatetimeIndex []) [("temp_max", [])])
    "GDD" [] =
    Raise (ValueError "Required temperature data not found in the DataFrame").
Proof.
  split.
  - apply (proj1 (index_without_required_columns empty_table [])).
    reflexivity.
  - apply (proj2 (index_without_required_columns
                    (mkFrame (DatetimeIndex []) [("temp_max", [])]) []));
      reflexivity.
Defined.

End IndexCalculator.


Section DegreeDays.

Local Open Scope string_scope.
Local Open Scope float_scope.

Lemma mean_temp_nth hi lo i h l :
  nth_error hi i = Some h -> nth_error lo i = Some l ->
  nth_error (mean_temp hi lo) i = Some ((h + l) / 2).
Proof.
  revert lo i. induction hi as [|h' hi IH]; intros [|l' lo] [|i]; simpl;
    try discriminate.
  - intros [= ->] [= ->]. reflexivity.
  - intros Hh Hl. exact (IH lo i Hh Hl).
Qed.

Lemma degree_days_length base temp :
  length (degree_days base temp) = length temp.
Proof. unfold degree_days. now rewrite pd_cumsum_length, length_map. Qed.

Lemma floored_no_nan base temp :
  Forall (fun t => is_nan (t - base) = false) temp ->
  Forall (fun g => is_nan g = false)
         (map (fun t => Np.maximum (t - base) 0) temp).
Proof.
  induction 1 as [|t temp Ht _ IH]; simpl; constructor; [|exact IH].
  apply nonneg_not_nan, maximum_zero_nonneg, Ht.
Qed.

Lemma degree_days_prefix base temp i :
  Forall (fun t => is_nan (t - base) = false) temp ->
  (i < length temp)%nat ->
  nth_error (degree_days base temp) i =
    Some (Np.running_sum (map (fun t => Np.maximum (t - base) 0)
                              (firstn (S i) temp))).
Proof.
  intros H Hi. unfold degree_days.
  rewrite pd_cumsum_no_nan by (apply floored_no_nan; exact H).
  rewrite np_cumsum_prefix by (rewrite length_map; exact Hi).
  now rewrite firstn_map.
Qed.

Lemma gdd_on_temperature data params temp :
  assoc "temperature" (columns data) = Some temp ->
  calculate_climate_index data "GDD" params =
    Ok (mkSeries "GDD" (index data)
          (degree_days (kwargs_get params "base_temp" default_base_temp) temp)).
Proof.
  intros H. unfold calculate_climate_index.
  cbn [String.eqb Ascii.eqb Bool.eqb].
  assert (C : has_column "temperature" data = true)
    by (apply has_column_assoc; eauto).
  rewrite C, (getitem_assoc _ _ _ H). reflexivity.
Qed.

Lemma gdd_on_min_max data params hi lo :
  assoc "temperature" (columns data) = None ->
  assoc "temp_max" (columns data) = Some hi ->
  assoc "temp_min" (columns data) = Some lo ->
  calculate_climate_index data "GDD" params =
    Ok (mkSeries "GDD" (index data)
          (degree_days (kwargs_get params "base_temp" default_base_temp)
                       (mean_temp hi lo))).
Proof.
  intros H0 H1 H2. unfold calculate_climate_index.
  cbn [String.eqb Ascii.eqb Bool.eqb].
  apply has_column_false in H0.
  assert (C1 : has_column "temp_max" data = true)
    by (apply has_column_assoc; eauto).
  assert (C2 : has_column "temp_min" data = true)
    by (apply has_column_assoc; eauto).
  rewrite H0, C1, C2, (getitem_assoc _ _ _ H1), (getitem_assoc _ _ _ H2).
  reflexivity.
Qed.

Lemma gdd_without_temperature data params :
  effective_temperature data = None ->
  calculate_climate_index data "GDD" params =
    Raise (ValueError "Required temperature data not found in the DataFrame").
Proof.
  unfold effective_temperature. intros H.
  destruct (assoc "temperature" (columns data)) eqn:E0; [discriminate|].
  apply has_column_false in E0.
  apply (gdd_missing_temperature data params E0).
  destruct (assoc "temp_max" (columns data)) eqn:E1.
  - destruct (assoc "temp_min" (columns data)) eqn:E2; [discriminate|].
    apply has_column_false in E2. rewrite E2. apply andb_false_r.
  - apply has_column_false in E1. now rewrite E1.
Qed.

End DegreeDays.

Section MissingDegreeDays.

Local Open Scope string_scope.
Local Open Scope float_scope.

Lemma sub_nan_l x b : is_nan x = true -> is_nan (x - b) = true.
Proof.
  rewrite !is_nan_spec, sub_spec. destruct (Prim2SF x); try discriminate.
  reflexivity.
Qed.

Lemma div_nan_l x b : is_nan x = true -> is_nan (x / b) = true.
Proof.
  rewrite !is_nan_spec, div_spec. destruct (Prim2SF x); try discriminate.
  reflexivity.
Qed.

Lemma sub_finite_is_nan x b :
  is_finite b = true -> is_nan (x - b) = is_nan x.
Proof.
  intros B. destruct (is_nan x) eqn:E.
  - now apply sub_nan_l.
  - now apply sub_not_nan.
Qed.

Lemma maximum_is_nan x : is_nan (Np.maximum x 0) = is_nan x.
Proof.
  unfold Np.maximum. destruct (is_nan x) eqn:E.
  - rewrite orb_true_r. exact E.
  - rewrite orb_false_r. destruct (0 <=? x); [exact E | reflexivity].
Qed.

Lemma fillna0_nonneg l :
  Forall (fun g => is_nan g = true \/ (0 <=? g) = true) l ->
  Forall (fun g => (0 <=? g) = true) (Pd.fillna0 l).
Proof.
  induction 1 as [|g l H _ IH]; cbn [Pd.fillna0 map]; constructor;
    [|exact IH].
  destruct (is_nan g) eqn:E; [reflexivity|].
  destruct H as [H|H]; [discriminate | exact H].
Qed.

Lemma cumsum_from_nonneg l : forall acc,
  (0 <=? acc) = true ->
  Forall (fun g => (0 <=? g) = true) l ->
  Forall (fun g => (0 <=? g) = true) (Np.cumsum_from acc l).
Proof.
  induction l as [|v l IH]; intros acc Ha Hl; [constructor|].
  inversion Hl as [|? ? Hv Hl']; subst.
  destruct (add_nonneg_le acc v Ha Hv) as [N _].
  cbn [Np.cumsum_from]. constructor; [exact N|]. now apply IH.
Qed.

Lemma np_cumsum_nonneg l :
  Forall (fun g => (0 <=? g) = true) l ->
  Forall (fun g => (0 <=? g) = true) (Np.cumsum l).
Proof.
  destruct 1 as [|v l Hv Hl]; [constructor|].
  cbn [Np.cumsum]. constructor; [exact Hv|]. now apply cumsum_from_nonneg.
Qed.

Lemma restore_is_nan l : forall acc,
  length acc = length l ->
  Forall (fun a => (0 <=? a) = true) acc ->
  map is_nan (zip_with (fun v a => if is_nan v then nan else a) l acc)
    = map is_nan l /\
  Forall (fun g => is_nan g = true \/ (0 <=? g) = true)
         (zip_with (fun v a => if is_nan v then nan else a) l acc).
Proof.
  unfold zip_with.
  induction l as [|v l IH]; intros [|a acc] L H; cbn in L; try discriminate.
  - split; [reflexivity | constructor].
  - inversion H as [|? ? Ha Hacc]; subst.
    destruct (IH acc ltac:(lia) Hacc) as [IH1 IH2].
    cbn [combine map fst snd]. split.
    + f_equal; [|exact IH1].
      destruct (is_nan v); [reflexivity | now apply nonneg_not_nan].
    + constructor; [|exact IH2].
      destruct (is_nan v); [now left | now right].
Qed.

(** A row of the degree days is missing exactly where the temperature less
    the base is NaN, and is not negative elsewhere. *)
Lemma degree_days_is_nan base temp :
  map is_nan (degree_days base temp) = map (fun t => is_nan (t - base)) temp /\
  Forall (fun g => is_nan g = true \/ (0 <=? g) = true)
         (degree_days base temp).
Proof.
  unfold degree_days, Pd.cumsum.
  set (fl := map (fun t => Np.maximum (t - base) 0) temp).
  assert (F : Forall (fun g => is_nan g = true \/ (0 <=? g) = true) fl).
  { apply Forall_map, Forall_forall. intros t _.
    destruct (is_nan (t - base)) eqn:E.
    - left. now rewrite maximum_is_nan.
    - right. now apply maximum_zero_nonneg. }
  destruct (restore_is_nan fl (Np.cumsum (Pd.fillna0 fl))) as [M N].
  - now rewrite np_cumsum_length, fillna0_length.
  - apply np_cumsum_nonneg, fillna0_nonneg, F.
  - split; [|exact N]. rewrite M. unfold fl. rewrite map_map.
    apply map_ext. intros t. apply maximum_is_nan.
Qed.

Lemma degree_days_missing base temp :
  is_finite base = true ->
  map is_nan (degree_days base temp) = map is_nan temp /\
  Forall (fun g => is_nan g = true \/ (0 <=? g) = true)
         (degree_days base temp).
Proof.
  intros B. destruct (degree_days_is_nan base temp) as [M N].
  split; [|exact N]. rewrite M. apply map_ext. intros t.
  now apply sub_finite_is_nan.
Qed.

Lemma zip_with_nth {A B C : Type} (f : A -> B -> C) l1 : forall l2 i a b,
  nth_error l1 i = Some a -> nth_error l2 i = Some b ->
  nth_error (zip_with f l1 l2) i = Some (f a b).
Proof.
  unfold zip_with.
  induction l1 as [|a' l1 IH]; intros [|b' l2] [|i] a b; simpl;
    try discriminate.
  - intros [= ->] [= ->]. reflexivity.
  - intros Ha Hb. exact (IH l2 i a b Ha Hb).
Qed.

(** Where the temperature less the base is a number, the row holds the sum
    of the degree days up to it, a row without one counting as 0. *)
Lemma degree_days_present base temp i t :
  nth_error temp i = Some t -> is_nan (t - base) = false ->
  nth_error (degree_days base temp) i =
    Some (Np.running_sum
            (map (fun t' => if is_nan (t' - base) then 0
                            else Np.maximum (t' - base) 0)
                 (firstn (S i) temp))).
Proof.
  intros Hi Ht. unfold degree_days, Pd.cumsum.
  set (fl := map (fun t => Np.maximum (t - base) 0) temp).
  assert (Li : (i < length temp)%nat)
    by (apply nth_error_Some; congruence).
  rewrite (zip_with_nth _ fl (Np.cumsum (Pd.fillna0 fl)) i
             (Np.maximum (t - base) 0)
             (Np.running_sum (firstn (S i) (Pd.fillna0 fl)))).
  - rewrite maximum_is_nan, Ht. do 2 f_equal.
    unfold Pd.fillna0, fl. rewrite map_map, firstn_map.
    apply map_ext. intros t'. now rewrite maximum_is_nan.
  - exact (map_nth_error (fun t => Np.maximum (t - base) 0) i temp Hi).
  - apply np_cumsum_prefix. unfold fl.
    now rewrite fillna0_length, length_map.
Qed.

Lemma forallb_of_map {A B : Type} (f : A -> B) (p : B -> bool) l :
  forallb p (map f l) = forallb (fun a => p (f a)) l.
Proof. induction l as [|a l IH]; simpl; [reflexivity | now rewrite IH]. Qed.

Lemma leb_not_nan a b :
  (a <=? b) = true -> is_nan a = false /\ is_nan b = false.
Proof.
  rewrite leb_spec, !is_nan_spec.
  destruct (Prim2SF a), (Prim2SF b); cbn; intros H; try discriminate H;
    split; reflexivity.
Qed.

(** Two rows of which one is NaN are not in order: NaN compares with
    nothing. *)
Lemma non_decreasing_no_nan l :
  (2 <= length l)%nat -> non_decreasing l = true ->
  forallb (fun g => negb (is_nan g)) l = true.
Proof.
  induction l as [|a l IH]; [simpl; lia|].
  destruct l as [|b r]; [simpl; lia|]. intros _ H.
  cbn [non_decreasing] in H. apply andb_prop in H as [H1 H2].
  destruct (leb_not_nan _ _ H1) as [Na Nb].
  cbn [forallb]. rewrite Na. cbn [negb andb].
  destruct r as [|c r]; [cbn [forallb]; now rewrite Nb|].
  apply IH; [simpl; lia | exact H2].
Qed.

Lemma gdd_on_effective_temperature data params temp :
  effective_temperature data = Some temp ->
  calculate_climate_index data "GDD" params =
    Ok (mkSeries "GDD" (index data)
          (degree_days (kwargs_get params "base_temp" default_base_temp)
                       temp)).
Proof.
  unfold effective_temperature. intros E.
  destruct (assoc "temperature" (columns data)) as [t|] eqn:E0.
  - injection E as <-. now apply gdd_on_temperature.
  - destruct (assoc "temp_max" (columns data)) as [hi|] eqn:E1; [|discriminate].
    destruct (assoc "temp_min" (columns data)) as [lo|] eqn:E2; [|discriminate].
    injection E as <-. now apply gdd_on_min_max.
Qed.

End MissingDegreeDays.

Section GrowingDegreeDays.

Local Open Scope string_scope.
Local Open Scope float_scope.

(** C2: the tag ['GDD'] takes the ['temperature'] column, or else the mean of
    ['temp_max'] and ['temp_min'], and raises a value error when neither is
    there; the base temperature (10 unless [base_temp] is given) is
    subtracted, what is negative becomes zero, and the series named ['GDD'] on
    the table's index holds at each row the sum of these values up to that
    row. *)
Theorem gdd_is_running_sum_of_degree_days
    (data : DataFrame) (params : list (string * float)) :
  let base := kwargs_get params "base_temp" default_base_temp in
  (assoc "base_temp" params = None -> base = 10) /\
  (forall b, assoc "base_temp" params = Some b -> base = b) /\
  (forall temp, assoc "temperature" (columns data) = Some temp ->
     calculate_climate_index data "GDD" params =
       Ok (mkSeries "GDD" (index data) (degree_days base temp))) /\
  (forall hi lo,
     assoc "temperature" (columns data) = None ->
     assoc "temp_max" (columns data) = Some hi ->
     assoc "temp_min" (columns data) = Some lo ->
     calculate_climate_index data "GDD" params =
       Ok (mkSeries "GDD" (index data) (degree_days base (mean_temp hi lo)))) /\
  (effective_temperature data = None ->
     calculate_climate_index data "GDD" params =
       Raise (ValueError
                "Required temperature data not found in the DataFrame")) /\
  (forall hi lo i h l,
     nth_error hi i = Some h -> nth_error lo i = Some l ->
     nth_error (mean_temp hi lo) i = Some ((h + l) / 2)) /\
  (forall x, (x <? 0) = true -> Np.maximum x 0 = 0) /\
  (forall x, (0 <=? x) = true -> Np.maximum x 0 = x) /\
  (forall temp i,
     Forall (fun t => is_nan (t - base) = false) temp ->
     (i < length temp)%nat ->
     nth_error (degree_days base temp) i =
       Some (Np.running_sum (map (fun t => Np.maximum (t - base) 0)
                         (firstn (S i) temp)))) /\
  (forall temp, wf_frame data -> effective_temperature data = Some temp ->
     length (degree_days base temp) = index_size (index data)).
Proof.
  intros base. unfold base, kwargs_get.
  split; [intros ->; reflexivity|].
  split; [intros b ->; reflexivity|].
  split; [apply gdd_on_temperature|].
  split; [apply gdd_on_min_max|].
  split; [apply gdd_without_temperature|].
  split; [apply mean_temp_nth|].
  split; [apply maximum_negative|].
  split; [apply maximum_nonneg|].
  split; [apply degree_days_prefix|].
  intros temp W E. rewrite degree_days_length.
  unfold effective_temperature in E.
  destruct (assoc "temperature" (columns data)) as [t|] eqn:E0.
  - injection E as <-. exact (wf_column_length _ _ _ W E0).
  - destruct (assoc "temp_max" (columns data)) as [hi|] eqn:E1; [|discriminate].
    destruct (assoc "temp_min" (columns data)) as [lo|] eqn:E2; [|discriminate].
    injection E as <-. unfold mean_temp.
    pose proof (wf_column_length _ _ _ W E1).
    pose proof (wf_column_length _ _ _ W E2).
    rewrite zip_with_length; congruence.
Qed.

Lemma gdd_is_running_sum_of_degree_days_witness :
  calculate_climate_index min_max_table "GDD" [("base_temp", 5%float)] =
    Ok (mkSeries "GDD" (index min_max_table) [9; 12; 25]%float) /\
  calculate_climate_index raw_json "GDD" [] =
    Ok (mkSeries "GDD" (index raw_json) [0; 2]%float).
Proof.
  split.
  - rewrite (proj1 (proj2 (proj2 (proj2
      (gdd_is_running_sum_of_degree_days min_max_table
         [("base_temp", 5%float)])))) [20; 14; 25]%float [8; 2; 11]%float
      eq_refl eq_refl eq_refl).
    vm_compute. reflexivity.
  - rewrite (proj1 (proj2 (proj2
      (gdd_is_running_sum_of_degree_days raw_json []))) [10; 12]%float eq_refl).
    vm_compute. reflexivity.
Defined.

(** Running sums of values that are not negative never go down. *)
Lemma cumsum_from_non_decreasing l : forall acc,
  (0 <=? acc) = true ->
  Forall (fun g => (0 <=? g) = true) l ->
  non_decreasing (acc :: Np.cumsum_from acc l) = true.
Proof.
  induction l as [|v l IH]; intros acc Ha Hl; [reflexivity|].
  inversion Hl as [|? ? Hv Hl']; subst.
  destruct (add_nonneg_le acc v Ha Hv) as [N L].
  cbn [Np.cumsum_from non_decreasing]. rewrite L. cbn [andb].
  exact (IH (acc + v) N Hl').
Qed.

Lemma np_cumsum_non_decreasing l :
  Forall (fun g => (0 <=? g) = true) l -> non_decreasing (Np.cumsum l) = true.
Proof.
  destruct 1 as [|v l Hv Hl]; [reflexivity|].
  cbn [Np.cumsum]. now apply cumsum_from_non_decreasing.
Qed.

Lemma degree_days_non_decreasing base temp :
  Forall (fun t => is_nan (t - base) = false) temp ->
  non_decreasing (degree_days base temp) = true.
Proof.
  intros H. unfold degree_days.
  rewrite pd_cumsum_no_nan by (apply floored_no_nan; exact H).
  apply np_cumsum_non_decreasing.
  induction H as [|t temp Ht _ IH]; simpl; constructor; [|exact IH].
  apply maximum_zero_nonneg, Ht.
Qed.

(** C3, as the code has it: on a table with the temperature column(s), and
    for a base temperature not above the highest temperature observed, the
    ['GDD'] series never goes down from one row to the next as long as the
    temperature less the base is a number on every row (no temperature is
    missing, and none is an infinity that the base equals); on a table of two
    rows or more that is the only case in which it never goes down. *)
Theorem gdd_non_decreasing
    (data : DataFrame) (params : list (string * float)) (temp : list float) :
  let base := kwargs_get params "base_temp" default_base_temp in
  effective_temperature data = Some temp ->
  (base <=? Pd.max temp) = true ->
  exists s,
    calculate_climate_index data "GDD" params = Ok s /\
    name s = "GDD" /\
    (forallb (fun t => negb (is_nan (t - base))) temp = true ->
     non_decreasing (values s) = true) /\
    ((2 <= length temp)%nat ->
     non_decreasing (values s) = true ->
     forallb (fun t => negb (is_nan (t - base))) temp = true).
Proof.
  intros base E _.
  exists (mkSeries "GDD" (index data) (degree_days base temp)).
  split; [exact (gdd_on_effective_temperature _ _ _ E)|].
  split; [reflexivity|]. cbn [values]. split.
  - intros H. apply degree_days_non_decreasing, Forall_forall.
    intros t Ht. rewrite forallb_forall in H.
    now apply negb_true_iff, H.
  - intros L H.
    pose proof (non_decreasing_no_nan (degree_days base temp)) as N.
    rewrite degree_days_length in N. specialize (N L H).
    rewrite <- (forallb_of_map is_nan negb) in N.
    rewrite (proj1 (degree_days_is_nan base temp)) in N.
    now rewrite forallb_of_map in N.
Qed.

Lemma gdd_non_decreasing_witness :
  forallb (fun t => negb (is_nan (t - 12))) sample_temperature = true /\
  exists s,
    calculate_climate_index sample_data "GDD" [("base_temp", 12%float)] =
      Ok s /\
    name s = "GDD" /\
    non_decreasing (values s) = true.
Proof.
  assert (E : effective_temperature sample_data = Some sample_temperature)
    by (vm_compute; reflexivity).
  assert (B : (12 <=? Pd.max sample_temperature) = true)
    by (vm_compute; reflexivity).
  assert (F : forallb (fun t => negb (is_nan (t - 12))) sample_temperature
              = true) by (vm_compute; reflexivity).
  destruct (gdd_non_decreasing sample_data [("base_temp", 12%float)]
              sample_temperature E B) as (s & C & N & M & _).
  split; [exact F|]. exists s. split; [exact C|]. split; [exact N|].
  exact (M F).
Defined.

(** C3 as stated fails on a table whose second temperature is missing: with
    the base temperature 10, below the highest temperature 14, the series is
    4, NaN, 7, and NaN is not greater than or equal to 4.  It fails as well
    when the base temperature is the infinity that the highest temperature
    is: the series is NaN, 0. *)
Lemma gdd_with_missing_temperature_decreases :
  (effective_temperature missing_table = Some [14; nan; 13] /\
   kwargs_get [] "base_temp" default_base_temp = 10 /\
   (10 <=? Pd.max [14; nan; 13]) = true /\
   calculate_climate_index missing_table "GDD" [] =
     Ok (mkSeries "GDD" (index missing_table) [4; nan; 7]) /\
   (4 <=? nan) = false /\
   non_decreasing [4; nan; 7] = false) /\
  (effective_temperature infinite_table = Some [infinity; 5] /\
   (infinity <=? Pd.max [infinity; 5]) = true /\
   calculate_climate_index infinite_table "GDD" [("base_temp", infinity)] =
     Ok (mkSeries "GDD" (index infinite_table) [nan; 0]) /\
   non_decreasing [nan; 0] = false).
Proof. vm_compute. repeat split. Qed.

End GrowingDegreeDays.

(** ** Degenerate precipitation *)

Section DegenerateSPI.

Local Open Scope string_scope.
Local Open Scope float_scope.

Lemma fold_add_zn l : forall acc,
  zn acc = true -> Forall (fun v => zn v = true) l ->
  zn (fold_left add l acc) = true.
Proof.
  induction l as [|v l IH]; intros acc Ha Hl; [exact Ha|].
  inversion Hl; subst. simpl. apply IH; [now apply zn_add | assumption].
Qed.

Lemma Forall_parts {A : Type} (P : A -> Prop) n (l : list A) :
  Forall P l -> Forall P (firstn n l) /\ Forall P (skipn n l).
Proof.
  intros H. rewrite <- (firstn_skipn n l) in H. now apply Forall_app in H.
Qed.

Lemma zip_add_zn r : forall l,
  Forall (fun v => zn v = true) r -> Forall (fun v => zn v = true) l ->
  Forall (fun v => zn v = true) (zip_with add r l).
Proof.
  unfold zip_with. induction r as [|a r IH]; intros [|b l] Hr Hl;
    try constructor.
  - inversion Hr; inversion Hl; subst. now apply zn_add.
  - inversion Hr; inversion Hl; subst. now apply IH.
Qed.

Lemma accumulate8_zn rows : forall r l,
  Forall (fun v => zn v = true) r -> Forall (fun v => zn v = true) l ->
  Forall (fun v => zn v = true) (Np.accumulate8 rows r l).
Proof.
  induction rows as [|k IH]; intros r l Hr Hl; [exact Hr|].
  cbn [Np.accumulate8]. destruct (Forall_parts _ 8 l Hl) as [H1 H2].
  apply IH; [now apply zip_add_zn | exact H2].
Qed.

Lemma tree8_zn r :
  Forall (fun v => zn v = true) r -> zn (Np.tree8 r) = true.
Proof.
  intros H. unfold Np.tree8.
  do 8 (destruct r as [|? r]; [reflexivity|]).
  destruct r; [|reflexivity].
  repeat match goal with
         | H : Forall _ (_ :: _) |- _ => inversion H; clear H; subst
         end.
  repeat apply zn_add; assumption.
Qed.

Lemma block_sum_zn l :
  Forall (fun v => zn v = true) l -> zn (Np.block_sum l) = true.
Proof.
  intros H. unfold Np.block_sum.
  destruct (length l <? 8)%nat; [now apply fold_add_zn|].
  destruct (Forall_parts _ 8 l H) as [H1 H2].
  apply fold_add_zn; [|now apply Forall_parts].
  now apply tree8_zn, accumulate8_zn.
Qed.

Lemma pairwise_sum_zn fuel : forall l,
  Forall (fun v => zn v = true) l -> zn (Np.pairwise_sum fuel l) = true.
Proof.
  induction fuel as [|fuel IH]; intros l H; [now apply block_sum_zn|].
  cbn [Np.pairwise_sum]. destruct (length l <=? 128)%nat;
    [now apply block_sum_zn|].
  apply zn_add; apply IH; now apply Forall_parts.
Qed.

Lemma sum_zn l : Forall (fun v => zn v = true) l -> zn (Np.sum l) = true.
Proof.
  intros H. unfold Np.sum. destruct l as [|v l]; [reflexivity|].
  apply zn_add; [reflexivity|]. now apply pairwise_sum_zn.
Qed.

Lemma count_le_length l : (Pd.count l <= length l)%nat.
Proof. unfold Pd.count. apply filter_length_le. Qed.

(** One row has no standard deviation ([ddof=1]). *)
Lemma std_single_row p : (length p <= 1)%nat -> Pd.std p = nan.
Proof.
  intros H. pose proof (count_le_length p). unfold Pd.std, Pd.var.
  destruct (Pd.count p) as [|[|k]]; try reflexivity. lia.
Qed.

Lemma squares_zn m l :
  Forall (fun v => (v =? m) = true) l ->
  Forall (fun v => zn v = true)
         (map (fun v => if is_nan v then 0 else (m - v) * (m - v)) l).
Proof.
  induction 1 as [|v l Hv _ IH]; simpl; constructor; [|exact IH].
  destruct (is_nan v); [reflexivity|].
  destruct (eqb_sub_zn _ _ Hv) as [_ Z]. now apply zn_mul.
Qed.

(** When every value equals the mean, the standard deviation is a zero or
    NaN. *)
Lemma std_zn p :
  Forall (fun v => (v =? Pd.mean p) = true) p -> zn (Pd.std p) = true.
Proof.
  intros H. unfold Pd.std. apply zn_sqrt. unfold Pd.var.
  destruct (Pd.count p) as [|[|k]] eqn:C; try reflexivity.
  assert (M := mean_of_present p). rewrite C in M. specialize (M ltac:(lia)).
  rewrite <- M. apply zn_div_l, sum_zn, squares_zn, H.
Qed.

Lemma zscore_single_row p :
  length p = 1%nat -> forallb is_nan (zscore p) = true.
Proof.
  intros H. unfold zscore. rewrite std_single_row by lia.
  apply forallb_forall. intros z Hz. apply in_map_iff in Hz as (v & <- & _).
  apply div_nan_r.
Qed.

Lemma zscore_all_equal_mean p :
  Forall (fun v => (v =? Pd.mean p) = true) p ->
  forallb is_nan (zscore p) = true.
Proof.
  intros H. pose proof (std_zn p H) as S. unfold zscore.
  apply forallb_forall. intros z Hz. apply in_map_iff in Hz as (v & <- & Hv).
  rewrite Forall_forall in H. destruct (eqb_sub_zn _ _ (H v Hv)) as [Z _].
  now apply zn_div_zn.
Qed.

(** C10, as the code has it: on a ['precipitation'] column of a single row,
    or whose values all equal the mean that pandas computes for the column (a
    constant column whose pairwise sum over its length is the constant
    again, so that the deviations and the standard deviation are zero), the
    tag ['SPI'] raises nothing and gives a series named ['SPI'] whose values
    are all NaN. *)
Theorem spi_degenerate_column_is_nan
    (data : DataFrame) (params : list (string * float)) (p : list float) :
  assoc "precipitation" (columns data) = Some p ->
  length p = 1%nat \/ Forall (fun v => (v =? Pd.mean p) = true) p ->
  exists s,
    calculate_climate_index data "SPI" params = Ok s /\
    name s = "SPI" /\
    length (values s) = length p /\
    forallb is_nan (values s) = true.
Proof.
  intros Hp D. exists (mkSeries "SPI" (index data) (zscore p)). split.
  - unfold calculate_climate_index. cbn [String.eqb Ascii.eqb Bool.eqb].
    assert (C : has_column "precipitation" data = true)
      by (apply has_column_assoc; eauto).
    rewrite C. cbn [negb]. rewrite (getitem_assoc _ _ _ Hp). reflexivity.
  - cbn [name values]. split; [reflexivity|]. split.
    + unfold zscore. apply length_map.
    + destruct D as [D|D];
        [now apply zscore_single_row | now apply zscore_all_equal_mean].
Qed.

Lemma spi_degenerate_column_is_nan_witness :
  (exists s,
     calculate_climate_index twos_table "SPI" [] = Ok s /\
     name s = "SPI" /\
     length (values s) = length [2; 2; 2] /\
     forallb is_nan (values s) = true) /\
  (exists s,
     calculate_climate_index ten_tenths_table "SPI" [] = Ok s /\
     name s = "SPI" /\
     length (values s) = length (repeat 0x1.999999999999ap-4 10) /\
     forallb is_nan (values s) = true) /\
  Pd.mean (repeat 0x1.999999999999ap-4 10) = 0x1.999999999999ap-4.
Proof.
  split; [|split; [|vm_compute; reflexivity]].
  - apply (spi_degenerate_column_is_nan twos_table [] [2; 2; 2]).
    + reflexivity.
    + right. repeat constructor.
  - apply (spi_degenerate_column_is_nan ten_tenths_table []
             (repeat 0x1.999999999999ap-4 10)).
    + reflexivity.
    + right. repeat (constructor; [vm_compute; reflexivity|]). constructor.
Defined.

(** C10 as stated fails on three days of 0.1: the mean of the column is
    0.10000000000000002, the standard deviation 1.6996749443881478e-17, and
    every point of the series is -0.81649658092772615, not NaN. *)
Lemma spi_constant_tenths_is_not_nan :
  Pd.mean [0x1.999999999999ap-4; 0x1.999999999999ap-4; 0x1.999999999999ap-4]
    = 0x1.999999999999bp-4 /\
  Pd.std [0x1.999999999999ap-4; 0x1.999999999999ap-4; 0x1.999999999999ap-4]
    = 0x1.3988e1409212ep-56 /\
  calculate_climate_index tenths_table "SPI" [] =
    Ok (mkSeries "SPI" (index tenths_table)
          [-0x1.a20bd700c2c3fp-1; -0x1.a20bd700c2c3fp-1;
           -0x1.a20bd700c2c3fp-1]) /\
  is_nan (-0x1.a20bd700c2c3fp-1) = false.
Proof. vm_compute. repeat split. Qed.

End DegenerateSPI.

(** ** The loader *)

Section LoaderProperties.

Local Open Scope string_scope.

Variable read_csv read_json read_excel : string -> result DataFrame.
Variable to_datetime : list label -> result (list date).

Lemma take_In {A : Type} (keep : list nat) (l : list A) (x : A) :
  In x (Pd.take keep l) -> exists i, In i keep /\ nth_error l i = Some x.
Proof.
  unfold Pd.take. intros H. apply in_flat_map in H as (i & Hi & Hx).
  exists i. split; [exact Hi|].
  destruct (nth_error l i) as [y|]; [|contradiction].
  destruct Hx as [->|[]]. reflexivity.
Qed.

Lemma row_complete_value cols i c v :
  Pd.row_complete cols i = true -> In c cols ->
  nth_error (snd c) i = Some v -> is_nan v = false.
Proof.
  unfold Pd.row_complete. intros H Hc Hv.
  rewrite forallb_forall in H. specialize (H c Hc). rewrite Hv in H.
  now apply negb_true_iff.
Qed.

(** [dropna] leaves no missing value. *)
Lemma dropna_no_missing df : no_missing (Pd.dropna df) = true.
Proof.
  unfold no_missing, Pd.dropna. cbn [columns].
  apply forallb_forall. intros c' Hc'.
  apply in_map_iff in Hc' as (c & <- & Hc). cbn [snd].
  apply forallb_forall. intros v Hv.
  apply take_In in Hv as (i & Hi & Hv).
  apply filter_In in Hi as [_ Hi].
  now rewrite (row_complete_value _ _ _ _ Hi Hc Hv).
Qed.

Lemma dropna_keeps_index_type df :
  is_datetime_index (index (Pd.dropna df)) = is_datetime_index (index df).
Proof. unfold Pd.dropna. cbn [index]. now destruct (index df). Qed.

Lemma dropna_column_names df :
  column_names (Pd.dropna df) = column_names df.
Proof.
  unfold Pd.dropna, column_names. cbn [columns]. rewrite map_map.
  reflexivity.
Qed.

Lemma ensure_datetime_index_ok df df' :
  ensure_datetime_index to_datetime df = Ok df' ->
  is_datetime_index (index df') = true /\ columns df' = columns df.
Proof.
  unfold ensure_datetime_index. destruct (index df) as [ds|ls] eqn:E.
  - intros [= <-]. now rewrite E.
  - destruct (to_datetime ls) as [ds|e]; [|discriminate].
    intros [= <-]. now split.
Qed.

(** C8: a table that [import_data] returns has a date index and no missing
    value in any column; it keeps the columns of the file. *)
Theorem import_data_is_clean (file_path file_type : string) (df : DataFrame) :
  import_data read_csv read_json read_excel to_datetime file_path file_type
    = Ok df ->
  is_datetime_index (index df) = true /\
  no_missing df = true /\
  (forall c v, In (c, v) (columns df) ->
    Forall (fun x => is_nan x = false) v) /\
  exists raw,
    read_file read_csv read_json read_excel file_path file_type = Ok raw /\
    column_names df = column_names raw.
Proof.
  unfold import_data. intros H.
  destruct (read_file read_csv read_json read_excel file_path file_type)
    as [raw|e] eqn:R; [|discriminate].
  cbn [bind] in H.
  destruct (ensure_datetime_index to_datetime raw) as [dated|e] eqn:D;
    [|discriminate].
  cbn [bind] in H. injection H as <-.
  destruct (ensure_datetime_index_ok _ _ D) as [I C].
  split; [now rewrite dropna_keeps_index_type|].
  split; [apply dropna_no_missing|]. split.
  - intros c v Hin. pose proof (dropna_no_missing dated) as N.
    unfold no_missing in N. rewrite forallb_forall in N.
    specialize (N _ Hin). cbn [snd] in N. rewrite forallb_forall in N.
    apply Forall_forall. intros x Hx. now apply negb_true_iff, N.
  - exists raw. split; [reflexivity|].
    rewrite dropna_column_names. unfold column_names. now rewrite C.
Qed.

(** An unsupported file type is refused before any file is read. *)
Lemma import_data_unsupported (file_path file_type : string) :
  file_type <> "csv" -> file_type <> "json" -> file_type <> "excel" ->
  import_data read_csv read_json read_excel to_datetime file_path file_type
    = Raise (ValueError "Unsupported file type").
Proof.
  intros H1 H2 H3. unfold import_data, read_file.
  now rewrite !eqb_neq_false by assumption.
Qed.

End LoaderProperties.

Lemma import_data_is_clean_witness :
  (is_datetime_index (index (Pd.dropna raw_csv)) = true /\
   no_missing (Pd.dropna raw_csv) = true /\
   (forall c v, In (c, v) (columns (Pd.dropna raw_csv)) ->
                Forall (fun x => is_nan x = false) v) /\
   exists raw,
     read_file sample_read_csv sample_read_json sample_read_excel
               "test_data.csv" "csv" = Ok raw /\
     column_names (Pd.dropna raw_csv) = column_names raw) /\
  length (Pd.take [0; 2]%nat (Pd.date_range (mkdate 2022 1 1) 3)) = 2%nat.
Proof.
  split; [|reflexivity].
  apply (import_data_is_clean sample_read_csv sample_read_json
           sample_read_excel sample_to_datetime "test_data.csv" "csv").
  reflexivity.
Defined.

(** ** The trend analyzer *)

Section AnalyzerProperties.

Local Open Scope string_scope.

Variable stats_linregress :
  list float -> list float -> result (LinregressResult float).
Variable seasonal_decompose : Series -> nat -> result DecomposeResult.

Abbreviation run := (analyze_trends stats_linregress seasonal_decompose).

Lemma resample_column_unsupported data variable time_period :
  time_period <> "monthly" -> time_period <> "yearly" ->
  resample_column data variable time_period =
    Raise (ValueError "Unsupported time period").
Proof.
  intros H1 H2. unfold resample_column.
  now rewrite !eqb_neq_false by assumption.
Qed.

Lemma analyze_trends_unsupported data variable time_period :
  time_period <> "monthly" -> time_period <> "yearly" ->
  run data variable time_period = Raise (ValueError "Unsupported time period").
Proof.
  intros H1 H2. unfold analyze_trends.
  now rewrite resample_column_unsupported.
Qed.

Lemma resample_mean_ok f s :
  is_datetime_index (sindex s) = true ->
  exists rs, Pd.resample_mean f s = Ok rs.
Proof.
  unfold Pd.resample_mean. destruct (sindex s) as [ds|ls]; [|discriminate].
  intros _. destruct (map (Pd.bin_of f) ds); eauto.
Qed.

Lemma resample_column_ok data variable time_period :
  time_period = "monthly" \/ time_period = "yearly" ->
  has_column variable data = true ->
  is_datetime_index (index data) = true ->
  exists rs, resample_column data variable time_period = Ok rs.
Proof.
  intros P C I. apply has_column_assoc in C as [v Hv].
  unfold resample_column. rewrite (getitem_assoc _ _ _ Hv). cbn [bind].
  destruct P as [-> | ->]; cbn [String.eqb Ascii.eqb Bool.eqb];
    apply resample_mean_ok; exact I.
Qed.

(** The three ways through the decomposition gate, once the column is
    resampled. *)
Lemma analyze_trends_short data variable time_period rs t :
  resample_column data variable time_period = Ok rs ->
  (length (values rs) < 24)%nat ->
  stats_linregress (Np.arange (length (values rs))) (values rs) = Ok t ->
  run data variable time_period =
    Ok ([("trend", VDict (trend_dict t))],
        [not_enough_data (length (values rs))]).
Proof.
  intros R N L. unfold analyze_trends. rewrite R. cbn [bind]. rewrite L.
  cbn [bind]. apply Nat.leb_gt in N. now rewrite N.
Qed.

Lemma analyze_trends_long data variable time_period rs t d :
  resample_column data variable time_period = Ok rs ->
  (24 <= length (values rs))%nat ->
  stats_linregress (Np.arange (length (values rs))) (values rs) = Ok t ->
  seasonal_decompose rs 12 = Ok d ->
  run data variable time_period =
    Ok ([("trend", VDict (trend_dict t));
         ("seasonal", VSeries (seasonal d));
         ("residual", VSeries (resid d))], []).
Proof.
  intros R N L D. unfold analyze_trends. rewrite R. cbn [bind]. rewrite L.
  cbn [bind]. apply Nat.leb_le in N. rewrite N, D. reflexivity.
Qed.


Lemma analyze_trends_decomposition_raises data variable time_period rs t e :
  resample_column data variable time_period = Ok rs ->
  (24 <= length (values rs))%nat ->
  stats_linregress (Np.arange (length (values rs))) (values rs) = Ok t ->
  seasonal_decompose rs 12 = Raise e ->
  run data variable time_period = Raise e.
Proof.
  intros R N L D. unfold analyze_trends. rewrite R. cbn [bind]. rewrite L.
  cbn [bind]. apply Nat.leb_le in N. rewrite N, D. reflexivity.
Qed.

End AnalyzerProperties.

Section DecompositionGate.

Local Open Scope string_scope.

(** A regression that answers on every series, as scipy's does (from
    version 1.16 on also on a series without points), and any decomposition
    routine. *)
Variable fit : list float -> list float -> LinregressResult float.
Variable seasonal_decompose : Series -> nat -> result DecomposeResult.

Abbreviation run :=
  (analyze_trends (fun x y => Ok (fit x y)) seasonal_decompose).


End DecompositionGate.

(** ** Resampling: how many points *)

Section ResampleSize.

Local Open Scope Z_scope.

Lemma fold_min_le bs : forall b x,
  In x (b :: bs) -> fold_left Z.min bs b <= x.
Proof.
  induction bs as [|c bs IH]; intros b x H; simpl in *.
  - destruct H as [->|[]]. lia.
  - destruct H as [->|[->|H]].
    + specialize (IH (Z.min x c) (Z.min x c) (or_introl eq_refl)). lia.
    + specialize (IH (Z.min b x) (Z.min b x) (or_introl eq_refl)). lia.
    + apply IH. now right.
Qed.

Lemma fold_min_in bs : forall b, In (fold_left Z.min bs b) (b :: bs).
Proof.
  induction bs as [|c bs IH]; intros b; simpl; [now left|].
  destruct (IH (Z.min b c)) as [H|H].
  - rewrite <- H. destruct (Z.min_spec b c) as [[_ ->]|[_ ->]]; auto.
  - right. now right.
Qed.

Lemma fold_max_ge bs : forall b x,
  In x (b :: bs) -> x <= fold_left Z.max bs b.
Proof.
  induction bs as [|c bs IH]; intros b x H; simpl in *.
  - destruct H as [->|[]]. lia.
  - destruct H as [->|[->|H]].
    + specialize (IH (Z.max x c) (Z.max x c) (or_introl eq_refl)). lia.
    + specialize (IH (Z.max b x) (Z.max b x) (or_introl eq_refl)). lia.
    + apply IH. now right.
Qed.

Lemma fold_max_in bs : forall b, In (fold_left Z.max bs b) (b :: bs).
Proof.
  induction bs as [|c bs IH]; intros b; simpl; [now left|].
  destruct (IH (Z.max b c)) as [H|H].
  - rewrite <- H. destruct (Z.max_spec b c) as [[_ ->]|[_ ->]]; auto.
  - right. now right.
Qed.

Lemma bins_length lo hi : length (Pd.bins lo hi) = Z.to_nat (hi - lo + 1).
Proof. unfold Pd.bins. now rewrite length_map, length_seq. Qed.

(** The resampled series has one point per calendar bin from the earliest
    to the latest date. *)
Lemma resample_mean_span f s ds lo hi :
  sindex s = DatetimeIndex ds ->
  In lo (map (Pd.bin_of f) ds) ->
  In hi (map (Pd.bin_of f) ds) ->
  Forall (fun b => lo <= b <= hi) (map (Pd.bin_of f) ds) ->
  exists rs,
    Pd.resample_mean f s = Ok rs /\
    length (values rs) = Z.to_nat (hi - lo + 1).
Proof.
  intros I Hlo Hhi B. unfold Pd.resample_mean. rewrite I.
  destruct (map (Pd.bin_of f) ds) as [|b bs] eqn:E; [contradiction|].
  eexists. split; [reflexivity|]. cbn [values].
  rewrite length_map, bins_length. rewrite Forall_forall in B.
  pose proof (fold_min_le bs b lo Hlo).
  pose proof (fold_max_ge bs b hi Hhi).
  pose proof (B _ (fold_min_in bs b)).
  pose proof (B _ (fold_max_in bs b)).
  f_equal. lia.
Qed.

(** Ten days that end within the month of the first one share its month. *)
Lemma date_range_same_month n : forall start,
  1 <= day start ->
  day start + Z.of_nat n - 1 <= Pd.days_in_month (year start) (month start) ->
  Forall (fun d => year d = year start /\ month d = month start)
         (Pd.date_range start n).
Proof.
  induction n as [|n IH]; intros start H1 H2; [constructor|].
  cbn [Pd.date_range]. constructor; [now split|].
  destruct n as [|n]; [constructor|].
  assert (N : Pd.next_day start
              = mkdate (year start) (month start) (day start + 1)).
  { unfold Pd.next_day.
    destruct (Z.ltb_spec (day start)
                (Pd.days_in_month (year start) (month start)));
                  [reflexivity|lia]. }
  rewrite N.
  specialize (IH (mkdate (year start) (month start) (day start + 1))).
  cbn [year month day] in IH. apply IH; lia.
Qed.

End ResampleSize.

Section AnalyzerExamples.

Local Open Scope string_scope.

Lemma resample_monthly_span data variable ds lo hi :
  has_column variable data = true ->
  index data = DatetimeIndex ds ->
  In lo (map (Pd.bin_of Pd.MonthEnd) ds) ->
  In hi (map (Pd.bin_of Pd.MonthEnd) ds) ->
  Forall (fun b => (lo <= b <= hi)%Z) (map (Pd.bin_of Pd.MonthEnd) ds) ->
  exists rs,
    resample_column data variable "monthly" = Ok rs /\
    length (values rs) = Z.to_nat (hi - lo + 1).
Proof.
  intros C I Hlo Hhi B. apply has_column_assoc in C as [v Hv].
  unfold resample_column. cbn [String.eqb Ascii.eqb Bool.eqb].
  rewrite (getitem_assoc _ _ _ Hv). cbn [bind].
  now apply resample_mean_span with (ds := ds).
Qed.

Lemma ten_days_one_point data variable start :
  has_column variable data = true ->
  index data = DatetimeIndex (Pd.date_range start 10) ->
  (1 <= day start)%Z ->
  (day start + 9 <= Pd.days_in_month (year start) (month start))%Z ->
  exists rs,
    resample_column data variable "monthly" = Ok rs /\
    length (values rs) = 1%nat.
Proof.
  intros C I H1 H2.
  destruct (resample_monthly_span data variable (Pd.date_range start 10)
              (Pd.bin_of Pd.MonthEnd start) (Pd.bin_of Pd.MonthEnd start) C I)
    as (rs & R & L).
  - now left.
  - now left.
  - apply Forall_map.
    eapply Forall_impl; [|apply (date_range_same_month 10 start); lia].
    intros d [Ey Em]. cbv beta. unfold Pd.bin_of. rewrite Ey, Em. lia.
  - exists rs. split; [exact R|]. rewrite L. f_equal. lia.
Qed.

Lemma three_years_36_points data variable ds Y :
  has_column variable data = true ->
  index data = DatetimeIndex ds ->
  existsb (fun d => (year d =? Y)%Z && (month d =? 1)%Z) ds = true ->
  existsb (fun d => (year d =? Y + 2)%Z && (month d =? 12)%Z) ds = true ->
  forallb (fun d => (Y <=? year d)%Z && (year d <=? Y + 2)%Z
                    && (1 <=? month d)%Z && (month d <=? 12)%Z) ds = true ->
  exists rs,
    resample_column data variable "monthly" = Ok rs /\
    length (values rs) = 36%nat.
Proof.
  intros C I J D A.
  destruct (resample_monthly_span data variable ds (12 * Y) (12 * Y + 35) C I)
    as (rs & R & L).
  - apply existsb_exists in J as (d & Hd & E).
    apply andb_prop in E as [E1 E2]. apply Z.eqb_eq in E1, E2.
    apply in_map_iff. exists d. split; [|exact Hd]. unfold Pd.bin_of. lia.
  - apply existsb_exists in D as (d & Hd & E).
    apply andb_prop in E as [E1 E2]. apply Z.eqb_eq in E1, E2.
    apply in_map_iff. exists d. split; [|exact Hd]. unfold Pd.bin_of. lia.
  - apply Forall_map, Forall_forall. intros d Hd.
    rewrite forallb_forall in A. specialize (A d Hd).
    apply andb_prop in A as [A A4]. apply andb_prop in A as [A A3].
    apply andb_prop in A as [A1 A2].
    apply Z.leb_le in A1, A2, A3, A4. unfold Pd.bin_of. lia.
  - exists rs. split; [exact R|]. rewrite L. f_equal. lia.
Qed.

Lemma convolution_filter_length x filt :
  (length filt = 13)%nat -> (13 <= length x)%nat ->
  length (convolution_filter x filt) = length x.
Proof.
  intros K L. unfold convolution_filter.
  rewrite !length_app, !repeat_length, length_map, length_seq, K.
  change (Nat.div2 14 - 1)%nat with 6%nat.
  change (Nat.div2 14 - 13 mod 2)%nat with 6%nat. lia.
Qed.

(** On a series of finite values over two years or more, the decomposition
    with period 12 returns two series as long as the series, on its index. *)
Lemma seasonal_decompose_additive_monthly s :
  forallb is_finite (values s) = true ->
  (24 <= length (values s))%nat ->
  exists seas res,
    seasonal_decompose_additive s 12 = Ok (mkDecompose seas res) /\
    name seas = "seasonal" /\ sindex seas = sindex s /\
    length (values seas) = length (values s) /\
    name res = "resid" /\ sindex res = sindex s /\
    length (values res) = length (values s).
Proof.
  intros F L. unfold seasonal_decompose_additive. rewrite F. cbn [negb].
  destruct (Nat.ltb_spec (length (values s)) (2 * 12)) as [H|_]; [lia|].
  eexists. eexists. split; [reflexivity|]. cbn [name sindex values].
  assert (D : length (zip_with PrimFloat.sub (values s)
                        (convolution_filter (values s)
                           (map (fun w => (w / Np.float_of_nat 12)%float)
                                (0.5%float :: repeat 1%float (12 - 1)
                                 ++ [0.5%float])%list)))
              = length (values s)).
  { apply zip_with_length. symmetry. apply convolution_filter_length;
      [reflexivity | lia]. }
  repeat split.
  - now rewrite length_map, length_seq.
  - cbn [Nat.even]. rewrite zip_with_length; [exact D|].
    now rewrite D, length_map, length_seq.
Qed.

Lemma seasonal_decompose_additive_refuses s period :
  forallb is_finite (values s) = false ->
  seasonal_decompose_additive s period =
    Raise (ValueError "This function does not handle missing values").
Proof. intros F. unfold seasonal_decompose_additive. now rewrite F. Qed.

(** A regression that answers on every series, as scipy's does. *)
Variable fit : list float -> list float -> LinregressResult float.

Abbreviation run :=
  (analyze_trends (fun x y => Ok (fit x y)) seasonal_decompose_additive).

(** C5, as the code has it: ten days of daily data that lie within one
    calendar month resample to 1 point, nothing is raised, the result has
    the trend alone and the notice printed names the count 1; daily data from
    a day of January to a day of the December two years later resample to 36
    points, and when these 36 monthly means are finite numbers the seasonal
    and the residual field each hold a series of 36 points on the index of
    the resampled series; when one of them is not, the decomposition raises
    its value error. *)
Theorem analyze_trends_ten_days_and_three_years
    (data : DataFrame) (variable : string) :
  has_column variable data = true ->
  (forall start,
     index data = DatetimeIndex (Pd.date_range start 10) ->
     (1 <= day start)%Z ->
     (day start + 9 <= Pd.days_in_month (year start) (month start))%Z ->
     exists rs,
       resample_column data variable "monthly" = Ok rs /\
       length (values rs) = 1%nat /\
       run data variable "monthly" =
         Ok ([("trend", VDict (trend_dict (fit (Np.arange 1) (values rs))))],
             ["Warning: Not enough data for seasonal decomposition. "
              ++ "Need at least 24 observations, but only have 1."])) /\
  (forall ds Y,
     index data = DatetimeIndex ds ->
     existsb (fun d => (year d =? Y)%Z && (month d =? 1)%Z) ds = true ->
     existsb (fun d => (year d =? Y + 2)%Z && (month d =? 12)%Z) ds = true ->
     forallb (fun d => (Y <=? year d)%Z && (year d <=? Y + 2)%Z
                       && (1 <=? month d)%Z && (month d <=? 12)%Z) ds = true ->
     exists rs,
       resample_column data variable "monthly" = Ok rs /\
       length (values rs) = 36%nat /\
       (forallb is_finite (values rs) = true ->
        exists seas res,
          run data variable "monthly" =
            Ok ([("trend",
                  VDict (trend_dict (fit (Np.arange 36) (values rs))));
                 ("seasonal", VSeries seas);
                 ("residual", VSeries res)], []) /\
          sindex seas = sindex rs /\ length (values seas) = 36%nat /\
          sindex res = sindex rs /\ length (values res) = 36%nat) /\
       (forallb is_finite (values rs) = false ->
        run data variable "monthly" =
          Raise (ValueError "This function does not handle missing values"))).
Proof.
  intros C. split.
  - intros start I H1 H2.
    destruct (ten_days_one_point data variable start C I H1 H2) as (rs & R & L).
    exists rs. split; [exact R|]. split; [exact L|].
    rewrite (analyze_trends_short (fun x y => Ok (fit x y))
               seasonal_decompose_additive data variable "monthly" rs
               (fit (Np.arange (length (values rs))) (values rs)) R);
      [|lia|reflexivity].
    now rewrite L.
  - intros ds Y I J D A.
    destruct (three_years_36_points data variable ds Y C I J D A)
      as (rs & R & L).
    exists rs. split; [exact R|]. split; [exact L|]. split.
    + intros F.
      destruct (seasonal_decompose_additive_monthly rs F)
        as (seas & res & E & _ & Is & Ls & _ & Ir & Lr); [lia|].
      exists seas, res. rewrite Ls, Lr, L. repeat split; try assumption.
      rewrite (analyze_trends_long (fun x y => Ok (fit x y))
                 seasonal_decompose_additive data variable "monthly" rs
                 (fit (Np.arange (length (values rs))) (values rs))
                 (mkDecompose seas res) R);
        [|lia|reflexivity|exact E].
      now rewrite L.
    + intros F.
      apply (analyze_trends_decomposition_raises (fun x y => Ok (fit x y))
               seasonal_decompose_additive data variable "monthly" rs
               (fit (Np.arange (length (values rs))) (values rs))
               (ValueError "This function does not handle missing values")
               R);
        [lia|reflexivity|].
      now apply seasonal_decompose_additive_refuses.
Qed.

End AnalyzerExamples.

(** ** The analyzer on the sample tables *)

Section AnalyzerRuns.

Local Open Scope string_scope.

Abbreviation run64 :=
  (analyze_trends (linregress_f64 no_pvalue) seasonal_decompose_additive).


Lemma analyze_trends_ten_days_and_three_years_witness :
  (exists rs,
     resample_column ten_days "temperature" "monthly" = Ok rs /\
     length (values rs) = 1%nat /\
     run64 ten_days "temperature" "monthly" =
       Ok ([("trend",
             VDict (trend_dict
                      (linregress no_pvalue (Np.arange 1) (values rs))))],
           ["Warning: Not enough data for seasonal decomposition. "
            ++ "Need at least 24 observations, but only have 1."])) /\
  (exists rs seas res,
     resample_column sample_data "temperature" "monthly" = Ok rs /\
     length (values rs) = 36%nat /\
     forallb is_finite (values rs) = true /\
     run64 sample_data "temperature" "monthly" =
       Ok ([("trend",
             VDict (trend_dict
                      (linregress no_pvalue (Np.arange 36) (values rs))));
            ("seasonal", VSeries seas);
            ("residual", VSeries res)], []) /\
     sindex seas = sindex rs /\ length (values seas) = 36%nat /\
     sindex res = sindex rs /\ length (values res) = 36%nat).
Proof.
  split.
  - apply (proj1 (analyze_trends_ten_days_and_three_years
                    (linregress no_pvalue) ten_days "temperature" eq_refl)
             (mkdate 2020 1 1)).
    + reflexivity.
    + vm_compute. discriminate.
    + vm_compute. discriminate.
  - destruct (proj2 (analyze_trends_ten_days_and_three_years
                       (linregress no_pvalue) sample_data "temperature"
                       eq_refl) sample_dates 2020%Z)
      as (rs & R & L & S & _);
      [reflexivity | vm_compute; reflexivity | vm_compute; reflexivity
       | vm_compute; reflexivity |].
    assert (F : forallb is_finite (values rs) = true)
      by (vm_compute in R; injection R as <-; vm_compute; reflexivity).
    destruct (S F) as (seas & res & E & H).
    exists rs, seas, res. split; [exact R|]. split; [exact L|].
    split; [exact F|]. split; [exact E | exact H].
Defined.

(** C5 as stated fails on ten days from 2020-01-27 to 2020-02-05: they
    resample to 2 points and the notice names the count 2.  It fails as well
    on three full years of days at 1.46e308 each: the 36 monthly means are
    not finite, and the decomposition raises. *)
Lemma ten_days_across_months_two_points :
  (index ten_days_across_months
     = DatetimeIndex (Pd.date_range (mkdate 2020 1 27) 10) /\
   length (Pd.date_range (mkdate 2020 1 27) 10) = 10%nat /\
   resampled_size (resample_column ten_days_across_months
                     "temperature" "monthly") = Some 2%nat /\
   printed (run64 ten_days_across_months "temperature" "monthly")
     = ["Warning: Not enough data for seasonal decomposition. "
        ++ "Need at least 24 observations, but only have 2."]) /\
  (index hot_table = DatetimeIndex (Pd.date_range (mkdate 2020 1 1) 1096) /\
   nth_error (Pd.date_range (mkdate 2020 1 1) 1096) 1095
     = Some (mkdate 2022 12 31) /\
   forallb is_finite (repeat 0x1.ap1023%float 1096) = true /\
   assoc "temperature" (columns hot_table)
     = Some (repeat 0x1.ap1023%float 1096) /\
   resampled_size (resample_column hot_table "temperature" "monthly")
     = Some 36%nat /\
   run64 hot_table "temperature" "monthly"
     = Raise (ValueError "This function does not handle missing values")).
Proof. vm_compute. repeat split. Qed.

(** The fit on short and on extreme series: one point has no slope; a
    constant series has slope 0 and no correlation coefficient; an increase
    by the smallest number is lost, and one between the largest numbers
    overflows. *)
Lemma linregress_on_degenerate_series :
  (let t := linregress no_pvalue (Np.arange 1) [5]%float in
   is_nan (slope t) = true /\ is_nan (rvalue t) = true) /\
  (let t := linregress no_pvalue (Np.arange 3) [7; 7; 7]%float in
   slope t = 0%float /\ intercept t = 7%float /\ is_nan (rvalue t) = true) /\
  (let t := linregress no_pvalue (Np.arange 2) [0; 0x1p-1074]%float in
   (0 <? 0x1p-1074)%float = true /\ slope t = 0%float) /\
  (let t := linregress no_pvalue (Np.arange 2) [0x1p1023; 0x1.8p1023]%float in
   (0x1p1023 <? 0x1.8p1023)%float = true /\ is_nan (slope t) = true).
Proof. vm_compute. repeat split. Qed.

(** On the sample table itself both library stand-ins return, and the result
    has the three fields. *)
Lemma sample_data_has_decomposition :
  has_decomposition (run64 sample_data "temperature" "monthly") = true /\
  printed (run64 sample_data "temperature" "monthly") = [] /\
  has_decomposition (run64 ten_days "temperature" "monthly") = false /\
  printed (run64 ten_days "temperature" "monthly")
    = ["Warning: Not enough data for seasonal decomposition. "
       ++ "Need at least 24 observations, but only have 1."].
Proof. vm_compute. repeat split. Qed.

End AnalyzerRuns.

(** ** Unsupported tags *)

Section UnsupportedTags.

Local Open Scope string_scope.

Lemma visualize_data_unsupported pivot boxplot open_figures data plot_type
    kwargs :
  plot_type <> "line" -> plot_type <> "heatmap" -> plot_type <> "boxplot" ->
  visualize_data pivot boxplot open_figures data plot_type kwargs =
    (Raise (ValueError "Unsupported plot type"), S open_figures).
Proof.
  intros H1 H2 H3. unfold visualize_data.
  now rewrite !eqb_neq_false by assumption.
Qed.

Lemma calculate_climate_index_unsupported data index_type params :
  index_type <> "SPI" -> index_type <> "GDD" ->
  calculate_climate_index data index_type params =
    Raise (ValueError "Unsupported climate index").
Proof.
  intros H1 H2. unfold calculate_climate_index.
  now rewrite !eqb_neq_false by assumption.
Qed.

(** C6: a tag outside the recognized ones makes each operation raise a value
    error, whatever its other arguments: [import_data] before any file is
    read, [analyze_trends] before the column is looked up,
    [calculate_climate_index] at once, [visualize_data] after it has opened
    its figure. *)
Theorem unsupported_tags_raise_value_error :
  (forall read_csv read_json read_excel to_datetime file_path file_type,
     file_type <> "csv" -> file_type <> "json" -> file_type <> "excel" ->
     import_data read_csv read_json read_excel to_datetime file_path file_type
       = Raise (ValueError "Unsupported file type")) /\
  (forall stats_linregress seasonal_decompose data variable time_period,
     time_period <> "monthly" -> time_period <> "yearly" ->
     analyze_trends stats_linregress seasonal_decompose
                    data variable time_period
       = Raise (ValueError "Unsupported time period")) /\
  (forall pivot boxplot open_figures data plot_type kwargs,
     plot_type <> "line" -> plot_type <> "heatmap" ->
     plot_type <> "boxplot" ->
     visualize_data pivot boxplot open_figures data plot_type kwargs
       = (Raise (ValueError "Unsupported plot type"), S open_figures)) /\
  (forall data index_type params,
     index_type <> "SPI" -> index_type <> "GDD" ->
     calculate_climate_index data index_type params
       = Raise (ValueError "Unsupported climate index")).
Proof.
  split; [|split; [|split]].
  - intros. now apply import_data_unsupported.
  - intros. now apply analyze_trends_unsupported.
  - intros. now apply visualize_data_unsupported.
  - intros. now apply calculate_climate_index_unsupported.
Qed.

Lemma unsupported_tags_raise_value_error_witness :
  import_data sample_read_csv sample_read_json sample_read_excel
              sample_to_datetime "test_data.csv" "xml"
    = Raise (ValueError "Unsupported file type") /\
  analyze_trends (linregress_f64 no_pvalue) seasonal_decompose_additive
                 sample_data "temperature" "weekly"
    = Raise (ValueError "Unsupported time period") /\
  visualize_data sample_pivot sample_boxplot 0 (FrameData sample_data) "pie" []
    = (Raise (ValueError "Unsupported plot type"), 1%nat) /\
  calculate_climate_index sample_data "PDSI" []
    = Raise (ValueError "Unsupported climate index").
Proof.
  destruct unsupported_tags_raise_value_error as (L & A & V & C).
  split; [apply L; discriminate|].
  split; [apply A; discriminate|].
  split; [apply V; discriminate|].
  apply C; discriminate.
Defined.

End UnsupportedTags.

(** * Further properties of the four operations and of the driver *)

(** ** The loader: which rows survive *)

Section LoaderRows.

Local Open Scope string_scope.

Variable read_csv read_json read_excel : string -> result DataFrame.
Variable to_datetime : list label -> result (list date).

Lemma take_all_from {A : Type} (l pre : list A) :
  Pd.take (seq (length pre) (length l)) (pre ++ l)%list = l.
Proof.
  revert pre. induction l as [|x l IH]; intros pre; [reflexivity|].
  cbn [length seq]. unfold Pd.take. cbn [flat_map].
  rewrite nth_error_app2, Nat.sub_diag by lia. cbn [nth_error app].
  f_equal. specialize (IH (pre ++ [x])%list).
  rewrite length_app, Nat.add_1_r, <- app_assoc in IH. exact IH.
Qed.

Lemma take_all {A : Type} (l : list A) : Pd.take (seq 0 (length l)) l = l.
Proof. exact (take_all_from l []). Qed.

Lemma take_length {A : Type} (keep : list nat) (l : list A) :
  Forall (fun i => (i < length l)%nat) keep ->
  length (Pd.take keep l) = length keep.
Proof.
  induction 1 as [|i keep Hi _ IH]; [reflexivity|].
  unfold Pd.take in *. cbn [flat_map]. rewrite length_app, IH.
  destruct (nth_error l i) eqn:E; [reflexivity|].
  apply nth_error_None in E. lia.
Qed.

Lemma complete_rows_bound df :
  Forall (fun i => (i < index_size (index df))%nat) (complete_rows df).
Proof.
  apply Forall_forall. intros i H. unfold complete_rows in H.
  apply filter_In in H as [H _]. apply in_seq in H. lia.
Qed.

Lemma row_complete_iff cols i :
  Pd.row_complete cols i = true <->
  forall c v, In (c, v) cols ->
    exists x, nth_error v i = Some x /\ is_nan x = false.
Proof.
  unfold Pd.row_complete. rewrite forallb_forall. split.
  - intros H c v Hc. specialize (H _ Hc). cbn [snd] in H.
    destruct (nth_error v i) as [x|]; [|discriminate].
    exists x. split; [reflexivity|]. now apply negb_true_iff.
  - intros H [c v] Hc. cbn [snd]. destruct (H c v Hc) as (x & E & Hx).
    now rewrite E, Hx.
Qed.

Lemma complete_rows_all df :
  wf_frame df -> no_missing df = true ->
  complete_rows df = seq 0 (index_size (index df)).
Proof.
  intros W N. unfold complete_rows. apply forallb_filter_id.
  apply forallb_forall. intros i Hi. apply in_seq in Hi.
  apply row_complete_iff. intros c v Hc.
  unfold wf_frame in W. rewrite Forall_forall in W.
  pose proof (W _ Hc) as L. cbn [snd] in L.
  destruct (nth_error v i) as [x|] eqn:E.
  - exists x. split; [reflexivity|].
    unfold no_missing in N. rewrite forallb_forall in N.
    specialize (N _ Hc). cbn [snd] in N. rewrite forallb_forall in N.
    apply negb_true_iff, N. eapply nth_error_In, E.
  - apply nth_error_None in E. lia.
Qed.

Lemma take_index_size keep ix :
  Forall (fun i => (i < index_size ix)%nat) keep ->
  index_size (Pd.take_index keep ix) = length keep.
Proof. destruct ix; cbn; apply take_length. Qed.

Lemma dropna_unfold df :
  Pd.dropna df =
    mkFrame (Pd.take_index (complete_rows df) (index df))
            (map (fun c => (fst c, Pd.take (complete_rows df) (snd c)))
                 (columns df)).
Proof. reflexivity. Qed.

Lemma dropna_wf df : wf_frame df -> wf_frame (Pd.dropna df).
Proof.
  intros W. rewrite dropna_unfold. unfold wf_frame in *. cbn [index columns].
  rewrite take_index_size by apply complete_rows_bound.
  apply Forall_map. eapply Forall_impl; [|exact W].
  intros c L. cbn [snd] in *. apply take_length. rewrite L.
  apply complete_rows_bound.
Qed.

(** A table without missing values goes through [dropna] unchanged. *)
Lemma dropna_complete df :
  wf_frame df -> no_missing df = true -> Pd.dropna df = df.
Proof.
  intros W N. rewrite dropna_unfold, (complete_rows_all df W N).
  destruct df as [ix cols]. cbn [index columns] in *. clear N. f_equal.
  - destruct ix; cbn; f_equal; apply take_all.
  - unfold wf_frame in W. cbn [index columns] in W.
    induction W as [|[c v] cols L _ IH]; [reflexivity|].
    cbn [map fst snd] in *. rewrite IH. f_equal. f_equal.
    rewrite <- L. apply take_all.
Qed.

Lemma assoc_map_values {A B : Type} (f : A -> B) c (cols : list (string * A)) :
  assoc c (map (fun kv => (fst kv, f (snd kv))) cols)
    = option_map f (assoc c cols).
Proof.
  induction cols as [|[k v] cols IH]; [reflexivity|].
  cbn [map assoc fst snd]. destruct (String.eqb c k); [reflexivity | exact IH].
Qed.

(** X1: a file whose table has a date index and no missing value comes back
    from [import_data] exactly as it was read. *)
Theorem import_data_keeps_complete_table
    (file_path file_type : string) (raw : DataFrame) :
  read_file read_csv read_json read_excel file_path file_type = Ok raw ->
  is_datetime_index (index raw) = true ->
  wf_frame raw ->
  no_missing raw = true ->
  import_data read_csv read_json read_excel to_datetime file_path file_type
    = Ok raw.
Proof.
  intros R I W N. unfold import_data. rewrite R. cbn [bind].
  unfold ensure_datetime_index. destruct (index raw) eqn:E; [|discriminate].
  cbn [bind]. now rewrite dropna_complete.
Qed.

(** X2: [import_data] keeps the rows in which every column has a value, and
    only those, in the order of the file: each column of the result is the
    column of the file at these rows, and the index has one entry per kept
    row. *)
Theorem import_data_drops_incomplete_rows
    (file_path file_type : string) (raw df : DataFrame) :
  (forall ls ds, to_datetime ls = Ok ds -> length ds = length ls) ->
  read_file read_csv read_json read_excel file_path file_type = Ok raw ->
  wf_frame raw ->
  import_data read_csv read_json read_excel to_datetime file_path file_type
    = Ok df ->
  wf_frame df /\
  index_size (index df) = length (complete_rows raw) /\
  (index_size (index df) <= index_size (index raw))%nat /\
  (forall c v, assoc c (columns raw) = Some v ->
     assoc c (columns df) = Some (Pd.take (complete_rows raw) v)) /\
  (forall i, In i (complete_rows raw) <->
     (i < index_size (index raw))%nat /\
     forall c v, In (c, v) (columns raw) ->
       exists x, nth_error v i = Some x /\ is_nan x = false).
Proof.
  intros T R W H. unfold import_data in H. rewrite R in H. cbn [bind] in H.
  destruct (ensure_datetime_index to_datetime raw) as [dated|e] eqn:D;
    [|discriminate].
  cbn [bind] in H. injection H as <-.
  assert (C : columns dated = columns raw /\
              index_size (index dated) = index_size (index raw)).
  { unfold ensure_datetime_index in D. destruct (index raw) as [ds|ls] eqn:E.
    - injection D as <-. now rewrite E.
    - destruct (to_datetime ls) as [ds|e] eqn:E'; [|discriminate].
      injection D as <-. cbn [columns index index_size]. split; [reflexivity|].
      now apply T. }
  destruct C as [C S].
  assert (K : complete_rows dated = complete_rows raw)
    by (unfold complete_rows; now rewrite C, S).
  assert (Wd : wf_frame dated) by (unfold wf_frame in *; now rewrite C, S).
  split; [now apply dropna_wf|].
  rewrite dropna_unfold. cbn [index columns]. rewrite K, C.
  rewrite take_index_size
    by (rewrite <- K; apply complete_rows_bound).
  split; [reflexivity|]. split.
  - pose proof (filter_length_le (Pd.row_complete (columns raw))
                  (seq 0 (index_size (index raw)))) as F.
    now rewrite length_seq in F.
  - split.
    + intros c v Hv. now rewrite assoc_map_values, Hv.
    + intros i. unfold complete_rows.
      rewrite filter_In, in_seq, row_complete_iff.
      split; intros [A B]; (split; [lia | exact B]).
Qed.

(** X3: [import_data] raises exactly what its reader or the date conversion
    raises; a date index is not converted, and dropping rows never raises. *)
Theorem import_data_raises_what_its_calls_raise
    (file_path file_type : string) (e : exception) :
  import_data read_csv read_json read_excel to_datetime file_path file_type
    = Raise e <->
  read_file read_csv read_json read_excel file_path file_type = Raise e \/
  exists raw ls,
    read_file read_csv read_json read_excel file_path file_type = Ok raw /\
    index raw = LabelIndex ls /\
    to_datetime ls = Raise e.
Proof.
  unfold import_data, ensure_datetime_index.
  destruct (read_file read_csv read_json read_excel file_path file_type)
    as [raw|e0]; cbn [bind].
  - destruct (index raw) as [ds|ls] eqn:E; cbn [bind].
    + split; [discriminate|].
      intros [H|(raw' & ls & [= <-] & E' & _)]; [discriminate | congruence].
    + destruct (to_datetime ls) as [ds|e1] eqn:T; cbn [bind].
      * split; [discriminate|].
        intros [H|(raw' & ls' & [= <-] & E' & T')]; [discriminate|].
        congruence.
      * split.
        -- intros [= <-]. right. exists raw, ls. auto.
        -- intros [H|(raw' & ls' & [= <-] & E' & T')]; [discriminate|].
           congruence.
  - split.
    + intros [= <-]. now left.
    + intros [[= <-]|(raw & ls & H & _)]; [reflexivity | discriminate].
Qed.

End LoaderRows.

Lemma import_data_keeps_complete_table_witness :
  import_data (driver_read_csv sample_data) sample_read_json sample_read_excel
              sample_to_datetime "larger_sample_climate_data.csv" "csv"
    = Ok sample_data.
Proof.
  apply (import_data_keeps_complete_table (driver_read_csv sample_data)
           sample_read_json sample_read_excel sample_to_datetime
           "larger_sample_climate_data.csv" "csv" sample_data).
  - reflexivity.
  - reflexivity.
  - repeat constructor.
  - vm_compute. reflexivity.
Defined.

Lemma import_data_drops_incomplete_rows_witness :
  complete_rows raw_csv = [0; 2]%nat /\
  assoc "precipitation" (columns (Pd.dropna raw_csv)) = Some [1; 3]%float /\
  index_size (index (Pd.dropna raw_csv)) = 2%nat.
Proof.
  destruct (import_data_drops_incomplete_rows sample_read_csv sample_read_json
              sample_read_excel sample_to_datetime "test_data.csv" "csv"
              raw_csv (Pd.dropna raw_csv)) as (_ & S & _ & C & _).
  - intros ls ds. unfold sample_to_datetime.
    destruct (forallb _ ls); [|discriminate].
    intros [= <-]. apply length_map.
  - reflexivity.
  - repeat constructor.
  - reflexivity.
  - split; [reflexivity|]. split; [|exact S].
    exact (C "precipitation"%string [1; 2; 3]%float eq_refl).
Defined.

(** ** The trend analyzer: errors, and what the result holds *)

Section AnalyzerErrors.

Local Open Scope string_scope.

Variable stats_linregress :
  list float -> list float -> result (LinregressResult float).
Variable seasonal_decompose : Series -> nat -> result DecomposeResult.

Abbreviation run := (analyze_trends stats_linregress seasonal_decompose).

Lemma getitem_missing data variable :
  has_column variable data = false ->
  getitem data variable = Raise (KeyError variable).
Proof.
  intros H. apply has_column_false in H. unfold getitem. now rewrite H.
Qed.

(** X4: with a recognized period tag, a column name that the table does not
    have makes [analyze_trends] raise the table's own missing-key error,
    before anything is resampled or fitted. *)
Theorem analyze_trends_unknown_column
    (data : DataFrame) (variable time_period : string) :
  time_period = "monthly" \/ time_period = "yearly" ->
  has_column variable data = false ->
  run data variable time_period = Raise (KeyError variable).
Proof.
  intros P H. unfold analyze_trends, resample_column.
  rewrite (getitem_missing _ _ H).
  destruct P as [-> | ->]; reflexivity.
Qed.

(** X5: a table whose index is not made of dates cannot be resampled:
    [analyze_trends] raises a type error on it, whatever the column holds. *)
Theorem analyze_trends_needs_date_index
    (data : DataFrame) (variable time_period : string) :
  time_period = "monthly" \/ time_period = "yearly" ->
  has_column variable data = true ->
  is_datetime_index (index data) = false ->
  exists msg, run data variable time_period = Raise (TypeError msg).
Proof.
  intros P C I. apply has_column_assoc in C as [v Hv].
  unfold analyze_trends, resample_column. rewrite (getitem_assoc _ _ _ Hv).
  cbn [bind]. unfold Pd.resample_mean. cbn [sindex].
  destruct (index data) as [ds|ls]; [discriminate|].
  destruct P as [-> | ->]; cbn [String.eqb Ascii.eqb Bool.eqb bind]; eauto.
Qed.

(** X6: an exception of the regression aborts the call at any length of the
    series, since the fit comes before the length is looked at; with 24 points
    or more an exception of the decomposition (asked for with period 12)
    aborts it as well.  In both cases nothing is returned. *)
Theorem analyze_trends_library_errors_propagate
    (data : DataFrame) (variable time_period : string) (rs : Series)
    (e : exception) :
  resample_column data variable time_period = Ok rs ->
  (stats_linregress (Np.arange (length (values rs))) (values rs) = Raise e ->
   run data variable time_period = Raise e) /\
  (forall t,
     stats_linregress (Np.arange (length (values rs))) (values rs) = Ok t ->
     (24 <= length (values rs))%nat ->
     seasonal_decompose rs 12 = Raise e ->
     run data variable time_period = Raise e).
Proof.
  intros R. unfold analyze_trends. rewrite R. cbn [bind]. split.
  - intros ->. reflexivity.
  - intros t -> N D. cbn [bind]. apply Nat.leb_le in N. now rewrite N, D.
Qed.

(** X7: what a call that returns has done: the column was resampled, the fit
    of the resampled values against their positions returned, and the result
    holds under ['trend'] the slope, intercept, correlation and p-value of
    that fit (not its standard error); then either the keys are ['trend']
    alone, with the notice printed, or ['trend'], ['seasonal'], ['residual']
    in this order, from the decomposition, with nothing printed. *)
Theorem analyze_trends_result_shape
    (data : DataFrame) (variable time_period : string)
    (results : pydict) (out : list string) :
  run data variable time_period = Ok (results, out) ->
  exists rs t,
    resample_column data variable time_period = Ok rs /\
    stats_linregress (Np.arange (length (values rs))) (values rs) = Ok t /\
    assoc "trend" results =
      Some (VDict [("slope", slope t); ("intercept", intercept t);
                   ("r_value", rvalue t); ("p_value", pvalue t)]) /\
    ((map fst results = ["trend"] /\
      out = [not_enough_data (length (values rs))] /\
      (length (values rs) < 24)%nat)
     \/
     (map fst results = ["trend"; "seasonal"; "residual"] /\
      out = [] /\
      (24 <= length (values rs))%nat /\
      exists d,
        seasonal_decompose rs 12 = Ok d /\
        assoc "seasonal" results = Some (VSeries (seasonal d)) /\
        assoc "residual" results = Some (VSeries (resid d)))).
Proof.
  unfold analyze_trends.
  destruct (resample_column data variable time_period) as [rs|e];
    [|discriminate].
  cbn [bind].
  destruct (stats_linregress _ _) as [t|e] eqn:L; [|discriminate].
  cbn [bind]. intros H. exists rs, t. split; [reflexivity|].
  split; [exact L|].
  destruct (24 <=? length (values rs))%nat eqn:N.
  - apply Nat.leb_le in N.
    destruct (seasonal_decompose rs 12) as [d|e] eqn:D; [|discriminate].
    cbn [bind] in H. injection H as <- <-. split; [reflexivity|].
    right. repeat split; trivial. exists d. repeat split.
  - apply Nat.leb_gt in N. injection H as <- <-. split; [reflexivity|].
    left. repeat split; trivial.
Qed.

(** X8: the result depends on the table through its index and the one column
    named: two tables that agree on these give the same result, whatever their
    other columns hold. *)
Theorem analyze_trends_reads_one_column
    (data1 data2 : DataFrame) (variable time_period : string) :
  index data1 = index data2 ->
  assoc variable (columns data1) = assoc variable (columns data2) ->
  run data1 variable time_period = run data2 variable time_period.
Proof.
  intros I C. unfold analyze_trends, resample_column, getitem.
  now rewrite I, C.
Qed.

End AnalyzerErrors.

Section DecompositionCalls.

Local Open Scope string_scope.

Variable stats_linregress :
  list float -> list float -> result (LinregressResult float).

(** X9: with fewer than 24 resampled points the decomposition routine is not
    called: whichever routine is supplied, the call gives the same answer. *)
Theorem analyze_trends_short_series_skips_decomposition
    (decompose1 decompose2 : Series -> nat -> result DecomposeResult)
    (data : DataFrame) (variable time_period : string) :
  (forall rs, resample_column data variable time_period = Ok rs ->
              (length (values rs) < 24)%nat) ->
  analyze_trends stats_linregress decompose1 data variable time_period =
  analyze_trends stats_linregress decompose2 data variable time_period.
Proof.
  intros H. unfold analyze_trends.
  destruct (resample_column data variable time_period) as [rs|e];
    [|reflexivity].
  cbn [bind]. specialize (H rs eq_refl). apply Nat.leb_gt in H.
  destruct (stats_linregress _ _) as [t|e]; [|reflexivity].
  cbn [bind]. now rewrite H.
Qed.

End DecompositionCalls.

Lemma analyze_trends_unknown_column_witness :
  analyze_trends (linregress_f64 no_pvalue) seasonal_decompose_additive
                 sample_data "humidity" "yearly"
    = Raise (KeyError "humidity").
Proof.
  apply (analyze_trends_unknown_column (linregress_f64 no_pvalue)
           seasonal_decompose_additive sample_data "humidity" "yearly").
  - right. reflexivity.
  - reflexivity.
Defined.

Lemma analyze_trends_needs_date_index_witness :
  exists msg,
    analyze_trends (linregress_f64 no_pvalue) seasonal_decompose_additive
                   label_table "temperature" "monthly"
      = Raise (TypeError msg).
Proof.
  apply (analyze_trends_needs_date_index (linregress_f64 no_pvalue)
           seasonal_decompose_additive label_table "temperature" "monthly").
  - left. reflexivity.
  - reflexivity.
  - reflexivity.
Defined.

(** ** Resampling: the points, one per calendar bin *)

Section ResamplePoints.

Local Open Scope string_scope.
Local Open Scope Z_scope.

Variable stats_linregress :
  list float -> list float -> result (LinregressResult float).
Variable seasonal_decompose : Series -> nat -> result DecomposeResult.

Abbreviation run := (analyze_trends stats_linregress seasonal_decompose).

Lemma resample_column_freq data variable time_period f :
  freq_of time_period = Some f ->
  resample_column data variable time_period =
    (s <- getitem data variable ;; Pd.resample_mean f s).
Proof.
  unfold freq_of, resample_column.
  destruct (String.eqb time_period "monthly"); [now intros [= <-]|].
  destruct (String.eqb time_period "yearly"); [now intros [= <-]|].
  discriminate.
Qed.

Lemma resample_mean_bins f s ds lo hi :
  sindex s = DatetimeIndex ds ->
  In lo (map (Pd.bin_of f) ds) ->
  In hi (map (Pd.bin_of f) ds) ->
  Forall (fun b => lo <= b <= hi) (map (Pd.bin_of f) ds) ->
  Pd.resample_mean f s =
    Ok (mkSeries (name s)
          (DatetimeIndex (map (Pd.bin_label f) (Pd.bins lo hi)))
          (map (fun b => Pd.group_mean
                           (Pd.in_bin f b
                              (Pd.sort_rows (combine ds (values s)))))
               (Pd.bins lo hi))).
Proof.
  intros I Hlo Hhi B. unfold Pd.resample_mean. rewrite I.
  destruct (map (Pd.bin_of f) ds) as [|b bs] eqn:E; [contradiction|].
  rewrite Forall_forall in B.
  pose proof (fold_min_le bs b lo Hlo).
  pose proof (fold_max_ge bs b hi Hhi).
  pose proof (B _ (fold_min_in bs b)).
  pose proof (B _ (fold_max_in bs b)).
  replace (fold_left Z.min bs b) with lo by lia.
  replace (fold_left Z.max bs b) with hi by lia.
  reflexivity.
Qed.

Lemma bins_nth lo hi k :
  (k < Z.to_nat (hi - lo + 1))%nat ->
  nth_error (Pd.bins lo hi) k = Some (lo + Z.of_nat k).
Proof.
  intros H. unfold Pd.bins. rewrite nth_error_map, nth_error_seq.
  apply Nat.ltb_lt in H. now rewrite H.
Qed.

(** The label of a bin is a date of that bin. *)
Lemma bin_of_label f b : Pd.bin_of f (Pd.bin_label f b) = b.
Proof.
  destruct f; cbn; [|reflexivity].
  pose proof (Z.div_mod b 12 ltac:(lia)). lia.
Qed.

Lemma insert_row_In r l p :
  In p (Pd.insert_row r l) <-> r = p \/ In p l.
Proof.
  induction l as [|r' l IH]; cbn [Pd.insert_row]; [reflexivity|].
  destruct (Pd.date_leb (fst r) (fst r')); [reflexivity|].
  cbn [In]. rewrite IH. tauto.
Qed.

(** Sorting the rows keeps each of them. *)
Lemma sort_rows_In l p : In p (Pd.sort_rows l) <-> In p l.
Proof.
  induction l as [|r l IH]; [reflexivity|].
  cbn [Pd.sort_rows fold_right]. fold (Pd.sort_rows l).
  rewrite insert_row_In, IH. reflexivity.
Qed.

(** Rows whose dates are in order stay as they are. *)
Lemma sort_rows_in_order ds : forall v : list float,
  dates_in_order ds = true -> Pd.sort_rows (combine ds v) = combine ds v.
Proof.
  induction ds as [|d ds IH]; intros v H; [reflexivity|].
  destruct v as [|x v]; [reflexivity|].
  cbn [combine Pd.sort_rows fold_right]. fold (Pd.sort_rows (combine ds v)).
  destruct ds as [|d' ds]; [reflexivity|].
  cbn [dates_in_order] in H. apply andb_prop in H as [H1 H2].
  rewrite (IH v H2). destruct v as [|x' v]; [reflexivity|].
  cbn [combine Pd.insert_row fst]. now rewrite H1.
Qed.


Lemma in_bin_all f b rows :
  (forall p, In p rows -> Pd.bin_of f (fst p) = b) ->
  Pd.in_bin f b rows = map snd rows.
Proof.
  unfold Pd.in_bin. induction rows as [|r rows IH]; intros H; [reflexivity|].
  cbn [filter]. rewrite (H r (or_introl eq_refl)), Z.eqb_refl.
  cbn [map]. f_equal. apply IH. intros p Hp. apply H. now right.
Qed.

Lemma map_snd_combine (ds : list date) : forall v : list float,
  (length v <= length ds)%nat -> map snd (combine ds v) = v.
Proof.
  induction ds as [|d ds IH]; intros [|x v] L; cbn in L; try reflexivity;
    [lia|].
  cbn [combine map snd]. f_equal. apply IH. lia.
Qed.

(** X10: the resampled series has one point for every calendar month (or
    year) from the earliest to the latest date of the table, whatever the
    order and the number of the rows; it keeps the column's name, and its
    index holds for each point the last day of that month (or year). *)
Theorem resampled_points_span_the_calendar
    (data : DataFrame) (variable time_period : string) (f : Pd.freq)
    (ds : list date) (v : list float) (lo hi : Z) :
  freq_of time_period = Some f ->
  index data = DatetimeIndex ds ->
  assoc variable (columns data) = Some v ->
  In lo (map (Pd.bin_of f) ds) ->
  In hi (map (Pd.bin_of f) ds) ->
  Forall (fun b => lo <= b <= hi) (map (Pd.bin_of f) ds) ->
  exists rs labels,
    resample_column data variable time_period = Ok rs /\
    name rs = variable /\
    sindex rs = DatetimeIndex labels /\
    length (values rs) = Z.to_nat (hi - lo + 1) /\
    length labels = Z.to_nat (hi - lo + 1) /\
    forall k, (k < Z.to_nat (hi - lo + 1))%nat ->
      exists d,
        nth_error labels k = Some d /\
        Pd.bin_of f d = lo + Z.of_nat k /\
        match f with
        | Pd.MonthEnd => day d = Pd.days_in_month (year d) (month d)
        | Pd.YearEnd => month d = 12 /\ day d = 31
        end.
Proof.
  intros F I C Hlo Hhi B.
  rewrite (resample_column_freq _ _ _ _ F), (getitem_assoc _ _ _ C).
  cbn [bind].
  rewrite (resample_mean_bins f (mkSeries variable (index data) v)
             ds lo hi I Hlo Hhi B).
  eexists. eexists. split; [reflexivity|]. cbn [name sindex values].
  split; [reflexivity|]. split; [reflexivity|].
  rewrite !length_map, bins_length. split; [reflexivity|].
  split; [reflexivity|]. intros k Hk.
  exists (Pd.bin_label f (lo + Z.of_nat k)).
  rewrite nth_error_map, (bins_nth _ _ _ Hk). split; [reflexivity|].
  split; [apply bin_of_label|]. destruct f; cbn; auto.
Qed.


(** X12: when all the rows of a table lie in one calendar month (or year),
    the resampled series is a single point, labelled with the last day of
    that month (or year): the compensated mean of the column's values in the
    order of their dates, which is the order of the column when the dates of
    the table are in order. *)
Theorem resample_within_one_bin_is_the_column_mean
    (data : DataFrame) (variable time_period : string) (f : Pd.freq)
    (d0 : date) (ds : list date) (v : list float) :
  freq_of time_period = Some f ->
  index data = DatetimeIndex (d0 :: ds) ->
  assoc variable (columns data) = Some v ->
  wf_frame data ->
  Forall (fun d => Pd.bin_of f d = Pd.bin_of f d0) ds ->
  exists rs,
    resample_column data variable time_period = Ok rs /\
    values rs =
      [Pd.group_mean (map snd (Pd.sort_rows (combine (d0 :: ds) v)))] /\
    (dates_in_order (d0 :: ds) = true -> values rs = [Pd.group_mean v]) /\
    sindex rs = DatetimeIndex [Pd.bin_label f (Pd.bin_of f d0)].
Proof.
  intros F I C W A.
  rewrite (resample_column_freq _ _ _ _ F), (getitem_assoc _ _ _ C).
  cbn [bind].
  assert (A' : Forall (fun d => Pd.bin_of f d = Pd.bin_of f d0) (d0 :: ds))
    by (constructor; [reflexivity | exact A]).
  rewrite (resample_mean_bins f (mkSeries variable (index data) v)
             (d0 :: ds) (Pd.bin_of f d0) (Pd.bin_of f d0) I).
  - eexists. split; [reflexivity|]. cbn [values sindex].
    unfold Pd.bins. rewrite Z.sub_diag.
    change (Z.to_nat (0 + 1)) with 1%nat. cbn [seq map Z.of_nat].
    rewrite Z.add_0_r. rewrite in_bin_all.
    + split; [reflexivity|]. split; [|reflexivity]. intros O.
      rewrite sort_rows_in_order by exact O. rewrite map_snd_combine.
      * reflexivity.
      * pose proof (wf_column_length _ _ _ W C) as L. rewrite I in L.
        cbn [index_size] in L. lia.
    + intros p Hp. apply (proj1 (sort_rows_In _ _)) in Hp. destruct p as [d x].
      apply in_combine_l in Hp. rewrite Forall_forall in A'.
      exact (A' d Hp).
  - now left.
  - now left.
  - apply Forall_map. eapply Forall_impl; [|exact A'].
    intros d ->. lia.
Qed.

(** X13: the decomposition fields never appear when the dates of the table
    span fewer than 24 calendar bins, however many rows there are: with the
    tag ['yearly'] this means data of fewer than 24 calendar years. *)
Theorem no_decomposition_within_23_bins
    (data : DataFrame) (variable time_period : string) (f : Pd.freq)
    (ds : list date) (first : Z) :
  freq_of time_period = Some f ->
  index data = DatetimeIndex ds ->
  Forall (fun d => first <= Pd.bin_of f d <= first + 22) ds ->
  has_decomposition (run data variable time_period) = false.
Proof.
  intros F I B. unfold analyze_trends.
  rewrite (resample_column_freq _ _ _ _ F). unfold getitem.
  destruct (assoc variable (columns data)) as [v|]; [|reflexivity].
  cbn [bind]. unfold Pd.resample_mean. cbn [sindex]. rewrite I.
  destruct (map (Pd.bin_of f) ds) as [|b bs] eqn:E.
  - cbn [bind values length].
    destruct (stats_linregress _ _); reflexivity.
  - cbn [bind values]. rewrite length_map, bins_length.
    assert (B' : Forall (fun b => first <= b <= first + 22) (b :: bs))
      by (rewrite <- E; apply Forall_map; exact B).
    rewrite Forall_forall in B'.
    pose proof (B' _ (fold_min_in bs b)).
    pose proof (B' _ (fold_max_in bs b)).
    destruct (stats_linregress _ _); [|reflexivity]. cbn [bind].
    destruct (Nat.leb_spec 24
                (Z.to_nat (fold_left Z.max bs b - fold_left Z.min bs b + 1)));
      [lia | reflexivity].
Qed.

End ResamplePoints.

(** ** The visualizer *)

Section VisualizerProperties.

Local Open Scope string_scope.

Variable pivot : DataFrame -> list Z -> string -> result DataFrame.
Variable boxplot : DataFrame -> string -> list Z -> result unit.

Lemma chosen_variable_first kwargs df c rest :
  column_names df = c :: rest ->
  chosen_variable kwargs df = Ok (kwargs_get kwargs "variable" c).
Proof. intros H. unfold chosen_variable. now rewrite H. Qed.

Lemma visualize_line_present n df kwargs c rest v y :
  column_names df = c :: rest ->
  kwargs_get kwargs "variable" c = v ->
  assoc v (columns df) = Some y ->
  visualize_data pivot boxplot n (FrameData df) "line" kwargs
    = (Ok (line_figure (index df) v y), S n).
Proof.
  intros H K Y. unfold visualize_data. cbn [String.eqb Ascii.eqb Bool.eqb].
  rewrite (chosen_variable_first _ _ _ _ H), K. cbn [bind].
  now rewrite (getitem_assoc _ _ _ Y).
Qed.

Lemma visualize_line_absent n df kwargs c rest v :
  column_names df = c :: rest ->
  kwargs_get kwargs "variable" c = v ->
  has_column v df = false ->
  visualize_data pivot boxplot n (FrameData df) "line" kwargs
    = (Raise (KeyError v), S n).
Proof.
  intros H K Y. unfold visualize_data. cbn [String.eqb Ascii.eqb Bool.eqb].
  rewrite (chosen_variable_first _ _ _ _ H), K. cbn [bind].
  apply has_column_false in Y. unfold getitem. now rewrite Y.
Qed.

(** X14: a line plot draws the column named by [variable] against the index
    of the table, of whatever type the index is, with the title, the labels
    and the layout call; without [variable] it draws the first column; a name
    that is not a column raises the missing-key error.  A figure has been
    opened in each case. *)
Theorem visualize_line_draws_chosen_column
    (n : nat) (df : DataFrame) (kwargs : list (string * string))
    (c0 : string) (y0 : list float) (rest : list (string * list float)) :
  columns df = (c0, y0) :: rest ->
  (assoc "variable" kwargs = None ->
   visualize_data pivot boxplot n (FrameData df) "line" kwargs
     = (Ok [LinePlot (index df) y0; Title (c0 ++ " over time");
            XLabel "Date"; YLabel c0; TightLayout], S n)) /\
  (forall v y,
     assoc "variable" kwargs = Some v ->
     assoc v (columns df) = Some y ->
     visualize_data pivot boxplot n (FrameData df) "line" kwargs
       = (Ok [LinePlot (index df) y; Title (v ++ " over time");
              XLabel "Date"; YLabel v; TightLayout], S n)) /\
  (forall v,
     assoc "variable" kwargs = Some v ->
     has_column v df = false ->
     visualize_data pivot boxplot n (FrameData df) "line" kwargs
       = (Raise (KeyError v), S n)).
Proof.
  intros C.
  assert (N : column_names df = c0 :: map fst rest)
    by (unfold column_names; now rewrite C).
  split; [|split].
  - intros K. apply (visualize_line_present n df kwargs c0 (map fst rest)).
    + exact N.
    + unfold kwargs_get. now rewrite K.
    + rewrite C. cbn [assoc]. now rewrite String.eqb_refl.
  - intros v y K Y.
    apply (visualize_line_present n df kwargs c0 (map fst rest)); trivial.
    unfold kwargs_get. now rewrite K.
  - intros v K Y.
    apply (visualize_line_absent n df kwargs c0 (map fst rest)); trivial.
    unfold kwargs_get. now rewrite K.
Qed.

(** X15: on a table without columns every plot type raises an index error,
    also when [variable] is given: the default, the first column, is looked
    up before the keyword is. *)
Theorem visualize_table_without_columns
    (n : nat) (df : DataFrame) (plot_type : string)
    (kwargs : list (string * string)) :
  columns df = [] ->
  plot_type = "line" \/ plot_type = "heatmap" \/ plot_type = "boxplot" ->
  exists msg,
    visualize_data pivot boxplot n (FrameData df) plot_type kwargs
      = (Raise (IndexError msg), S n).
Proof.
  intros C P. unfold visualize_data, chosen_variable, column_names.
  rewrite C. cbn [map bind].
  destruct P as [-> | [-> | ->]]; cbn [String.eqb Ascii.eqb Bool.eqb bind];
    eauto.
Qed.

(** X16: the heatmap and the boxplot group by the month of the index: on a
    table whose index is not made of dates they raise an attribute error,
    before the table is pivoted or the column looked up. *)
Theorem visualize_by_month_needs_date_index
    (n : nat) (df : DataFrame) (plot_type : string)
    (kwargs : list (string * string)) :
  is_datetime_index (index df) = false ->
  columns df <> [] ->
  plot_type = "heatmap" \/ plot_type = "boxplot" ->
  exists msg,
    visualize_data pivot boxplot n (FrameData df) plot_type kwargs
      = (Raise (AttributeError msg), S n).
Proof.
  intros I C P. unfold visualize_data, chosen_variable, column_names.
  destruct (columns df) as [|[c y] rest]; [contradiction|].
  cbn [map fst bind]. unfold index_month.
  destruct (index df) as [ds|ls]; [discriminate|].
  destruct P as [-> | ->]; cbn [String.eqb Ascii.eqb Bool.eqb bind]; eauto.
Qed.

(** X17: every call opens exactly one figure, also a call that raises; a
    figure that is returned holds one drawing, a title, the two axis labels
    and, last, the layout call. *)
Theorem visualize_opens_one_figure
    (n : nat) (data : plot_data) (plot_type : string)
    (kwargs : list (string * string)) :
  snd (visualize_data pivot boxplot n data plot_type kwargs) = S n /\
  forall fig,
    fst (visualize_data pivot boxplot n data plot_type kwargs) = Ok fig ->
    exists drawing title xlabel ylabel,
      fig = [drawing; Title title; XLabel xlabel; YLabel ylabel; TightLayout] /\
      match drawing with
      | LinePlot _ _ => plot_type = "line" /\ xlabel = "Date"
      | Heatmap _ _ => plot_type = "heatmap" /\ xlabel = "Month"
      | BoxPlot _ _ _ => plot_type = "boxplot" /\ xlabel = "Month"
      | _ => False
      end.
Proof.
  split; [reflexivity|]. intros fig. unfold visualize_data. cbn [fst].
  set (df := match data with SeriesData s => to_frame s | FrameData d => d end).
  destruct (String.eqb_spec plot_type "line") as [->|_].
  { destruct (chosen_variable kwargs df) as [v|e]; [|discriminate].
    cbn [bind]. destruct (getitem df v) as [col|e]; [|discriminate].
    cbn [bind app]. intros [= <-]. repeat eexists. }
  destruct (String.eqb_spec plot_type "heatmap") as [->|_].
  { destruct (chosen_variable kwargs df) as [v|e]; [|discriminate].
    cbn [bind]. destruct (index_month (index df)) as [ms|e]; [|discriminate].
    cbn [bind]. destruct (pivot df ms v) as [g|e]; [|discriminate].
    cbn [bind app]. intros [= <-]. repeat eexists. }
  destruct (String.eqb_spec plot_type "boxplot") as [->|_].
  { destruct (chosen_variable kwargs df) as [v|e]; [|discriminate].
    cbn [bind]. destruct (index_month (index df)) as [ms|e]; [|discriminate].
    cbn [bind]. destruct (boxplot df v ms) as [u|e]; [|discriminate].
    cbn [bind app]. intros [= <-]. repeat eexists. }
  discriminate.
Qed.

Lemma calculate_climate_index_ok data index_type params s :
  calculate_climate_index data index_type params = Ok s ->
  name s = index_type /\ sindex s = index data.
Proof.
  unfold calculate_climate_index.
  destruct (String.eqb_spec index_type "SPI") as [->|_].
  { destruct (negb _); [discriminate|].
    destruct (getitem data "precipitation"); [|discriminate].
    cbn [bind]. intros [= <-]. now split. }
  destruct (String.eqb_spec index_type "GDD") as [->|_]; [|discriminate].
  destruct (has_column "temperature" data).
  { destruct (getitem data "temperature"); [|discriminate].
    cbn [bind]. intros [= <-]. now split. }
  destruct (_ && _); [|discriminate].
  destruct (getitem data "temp_max"); [|discriminate]. cbn [bind].
  destruct (getitem data "temp_min"); [|discriminate]. cbn [bind].
  intros [= <-]. now split.
Qed.

Lemma visualize_series_line n s kwargs :
  kwargs_get kwargs "variable" (name s) = name s ->
  visualize_data pivot boxplot n (SeriesData s) "line" kwargs
    = (Ok (line_figure (sindex s) (name s) (values s)), S n).
Proof.
  intros K.
  change (visualize_data pivot boxplot n (SeriesData s) "line" kwargs)
    with (visualize_data pivot boxplot n (FrameData (to_frame s)) "line"
            kwargs).
  apply (visualize_line_present n (to_frame s) kwargs (name s) [] (name s));
    trivial.
  cbn [to_frame columns assoc]. now rewrite String.eqb_refl.
Qed.

(** X18: a series that [calculate_climate_index] returns is named after the
    index type asked for, so that a line plot of it under that name, as the
    driver asks for, or without a name, draws its values against the index
    of the table. *)
Theorem climate_index_plots_under_its_tag
    (n : nat) (data : DataFrame) (index_type : string)
    (params : list (string * float)) (s : Series) :
  calculate_climate_index data index_type params = Ok s ->
  name s = index_type /\
  visualize_data pivot boxplot n (SeriesData s) "line"
    [("variable", index_type)]
    = (Ok [LinePlot (index data) (values s);
           Title (index_type ++ " over time"); XLabel "Date";
           YLabel index_type; TightLayout], S n) /\
  visualize_data pivot boxplot n (SeriesData s) "line" []
    = visualize_data pivot boxplot n (SeriesData s) "line"
        [("variable", index_type)].
Proof.
  intros H. destruct (calculate_climate_index_ok _ _ _ _ H) as [N I].
  clear H. destruct s as [nm ix vals]. cbn [name sindex values] in *.
  subst nm ix. split; [reflexivity|].
  assert (K : kwargs_get [("variable", index_type)] "variable" index_type
              = index_type) by reflexivity.
  rewrite (visualize_series_line n (mkSeries index_type (index data) vals)
             [("variable", index_type)] K).
  rewrite (visualize_series_line n (mkSeries index_type (index data) vals)
             [] eq_refl).
  split; reflexivity.
Qed.

End VisualizerProperties.

(** ** The index calculator on tables with missing values *)

Section MissingValues.

Local Open Scope string_scope.
Local Open Scope float_scope.

(** X19: the ['SPI'] series has one point per row of the table, and a row
    whose precipitation is missing has a missing index: the rows are neither
    dropped nor filled. *)
Theorem spi_keeps_missing_rows_missing
    (data : DataFrame) (params : list (string * float)) (p : list float) :
  assoc "precipitation" (columns data) = Some p ->
  exists s,
    calculate_climate_index data "SPI" params = Ok s /\
    length (values s) = length p /\
    forall i v,
      nth_error p i = Some v -> is_nan v = true ->
      exists z, nth_error (values s) i = Some z /\ is_nan z = true.
Proof.
  intros Hp. exists (mkSeries "SPI" (index data) (zscore p)). split.
  - unfold calculate_climate_index. cbn [String.eqb Ascii.eqb Bool.eqb].
    assert (C : has_column "precipitation" data = true)
      by (apply has_column_assoc; eauto).
    rewrite C. cbn [negb]. rewrite (getitem_assoc _ _ _ Hp). reflexivity.
  - cbn [values]. unfold zscore. split; [apply length_map|].
    intros i v Hv N. eexists. split.
    + apply map_nth_error, Hv.
    + now apply div_nan_l, sub_nan_l.
Qed.

(** X20: with a finite base temperature, the ['GDD'] series is missing on
    exactly the rows where the effective temperature is missing, and the
    running sum goes on past such a row: a row with a temperature holds the
    sum of the degree days of the rows up to it, a row without a temperature
    counting as 0. *)
Theorem gdd_missing_exactly_where_temperature_is
    (data : DataFrame) (params : list (string * float)) (temp : list float) :
  let base := kwargs_get params "base_temp" default_base_temp in
  effective_temperature data = Some temp ->
  is_finite base = true ->
  exists s,
    calculate_climate_index data "GDD" params = Ok s /\
    map is_nan (values s) = map is_nan temp /\
    forall i t,
      nth_error temp i = Some t -> is_nan t = false ->
      nth_error (values s) i =
        Some (Np.running_sum
                (map (fun t' => if is_nan t' then 0
                                else Np.maximum (t' - base) 0)
                     (firstn (S i) temp))).
Proof.
  intros base E B. eexists.
  split; [exact (gdd_on_effective_temperature _ _ _ E)|].
  cbn [values]. split; [now apply degree_days_missing|].
  intros i t Hi Ht. fold base.
  rewrite (degree_days_present base temp i t Hi)
    by (now rewrite sub_finite_is_nan).
  do 2 f_equal. apply map_ext. intros t'.
  now rewrite sub_finite_is_nan.
Qed.

(** X21: with a finite base temperature, no value of the ['GDD'] series is
    negative: each one is missing or at least zero, whatever the
    temperatures are. *)
Theorem gdd_is_never_negative
    (data : DataFrame) (params : list (string * float)) (temp : list float) :
  effective_temperature data = Some temp ->
  is_finite (kwargs_get params "base_temp" default_base_temp) = true ->
  exists s,
    calculate_climate_index data "GDD" params = Ok s /\
    forallb (fun g => is_nan g || (0 <=? g)) (values s) = true /\
    existsb (fun g => g <? 0) (values s) = false.
Proof.
  intros E B. eexists. split; [exact (gdd_on_effective_temperature _ _ _ E)|].
  cbn [values]. destruct (degree_days_missing _ temp B) as [_ N].
  split.
  - apply forallb_forall. rewrite Forall_forall in N. intros g Hg.
    destruct (N g Hg) as [-> | ->]; [reflexivity | apply orb_true_r].
  - induction N as [|g l Hg _ IH]; [reflexivity|]. cbn [existsb].
    rewrite IH, orb_false_r.
    rewrite ltb_spec. change (Prim2SF 0) with (S754_zero false).
    destruct Hg as [Hg|Hg].
    + rewrite is_nan_spec in Hg. now destruct (Prim2SF g).
    + rewrite leb0_spec in Hg.
      destruct (Prim2SF g) as [s|s| |s m e]; try destruct s;
        try discriminate; reflexivity.
Qed.

(** X22: the check of monotonicity that [test_calculate_climate_index] keeps
    in a comment, [(gdd.diff() >= 0).all()], is false on the ['GDD'] series of
    every table that has a row: the first difference is NaN, which is not at
    least zero. *)
Theorem gdd_diff_check_fails_on_every_table_with_rows
    (data : DataFrame) (params : list (string * float)) (temp : list float) :
  effective_temperature data = Some temp ->
  temp <> [] ->
  exists s,
    calculate_climate_index data "GDD" params = Ok s /\
    diff_never_negative s = false.
Proof.
  intros E T. eexists. split; [exact (gdd_on_effective_temperature _ _ _ E)|].
  unfold diff_never_negative. cbn [values].
  pose proof (degree_days_length
                (kwargs_get params "base_temp" default_base_temp) temp) as L.
  destruct (degree_days _ temp) as [|g l].
  - destruct temp; [contradiction | discriminate].
  - reflexivity.
Qed.

End MissingValues.

(** ** The driver *)

Section DriverProperties.

Local Open Scope string_scope.

Variable read_csv : string -> result DataFrame.
Variable read_json : string -> result DataFrame.
Variable read_excel : string -> result DataFrame.
Variable to_datetime : list label -> result (list date).
Variable stats_linregress :
  list float -> list float -> result (LinregressResult float).
Variable seasonal_decompose : Series -> nat -> result DecomposeResult.
Variable pivot : DataFrame -> list Z -> string -> result DataFrame.
Variable boxplot : DataFrame -> string -> list Z -> result unit.
Variable savefig : Figure -> string -> result unit.

Abbreviation run_main :=
  (main read_csv read_json read_excel to_datetime stats_linregress
        seasonal_decompose pivot boxplot savefig).

Abbreviation load :=
  (import_data read_csv read_json read_excel to_datetime
               "larger_sample_climate_data.csv" "csv").

Abbreviation analysis data :=
  (analyze_trends stats_linregress seasonal_decompose
                  data "temperature" "monthly").

Lemma analysis_has_trend data variable time_period results out :
  analyze_trends stats_linregress seasonal_decompose
                 data variable time_period = Ok (results, out) ->
  exists trend, dict_get results "trend" = Ok (VDict trend).
Proof.
  unfold analyze_trends.
  destruct (resample_column data variable time_period) as [rs|e];
    [|discriminate].
  cbn [bind]. destruct (stats_linregress _ _) as [t|e]; [|discriminate].
  cbn [bind]. destruct (24 <=? length (values rs))%nat.
  - destruct (seasonal_decompose rs 12) as [d|e]; [|discriminate].
    cbn [bind]. intros [= <- _]. eexists. reflexivity.
  - intros [= <- _]. eexists. reflexivity.
Qed.

Lemma saved_files_app a b :
  saved_files (a ++ b) = (saved_files a ++ saved_files b)%list.
Proof. unfold saved_files. apply flat_map_app. Qed.

Lemma saved_files_prints out : saved_files (map Print out) = [].
Proof. induction out as [|s out IH]; [reflexivity | exact IH]. Qed.

Lemma visualize_temperature n data temp :
  assoc "temperature" (columns data) = Some temp ->
  visualize_data pivot boxplot n (FrameData data) "line"
    [("variable", "temperature")]
    = (Ok (line_figure (index data) "temperature" temp), S n).
Proof.
  intros H.
  destruct (columns data) as [|[c y] rest] eqn:C; [discriminate|].
  apply (visualize_line_present pivot boxplot n data
           [("variable", "temperature")] c (map fst rest)).
  - unfold column_names. now rewrite C.
  - reflexivity.
  - now rewrite C.
Qed.

(** X23: when the file loads, the analysis returns, the table has the two
    columns and both figures can be written, the driver ends normally, and
    what it has left is, in this order: the notice of the analysis if there
    is one, the trend summary, the file [temperature_trend.png] with the line
    plot of the temperature column, the file [spi_index.png] with the line
    plot of the z-scores of the precipitation column, and the closing
    message; two figures stay open. *)
Theorem main_writes_both_plots
    (w : world) (data : DataFrame) (results : pydict) (out : list string)
    (temp p : list float) :
  load = Ok data ->
  analysis data = Ok (results, out) ->
  assoc "temperature" (columns data) = Some temp ->
  assoc "precipitation" (columns data) = Some p ->
  savefig (line_figure (index data) "temperature" temp)
          "temperature_trend.png" = Ok tt ->
  savefig (line_figure (index data) "SPI" (zscore p)) "spi_index.png"
    = Ok tt ->
  exists trend,
    assoc "trend" results = Some (VDict trend) /\
    run_main w =
      (Ok tt,
       mkWorld
         (trace w ++ map Print out ++
          [PrintWith "Temperature trend analysis:" (VDict trend);
           SaveFig (line_figure (index data) "temperature" temp)
                   "temperature_trend.png";
           SaveFig (line_figure (index data) "SPI" (zscore p))
                   "spi_index.png";
           Print ("Analysis complete. "
                  ++ "Check the generated plots for visual results.")])
         (S (S (figures w)))).
Proof.
  intros L A T P S1 S2.
  destruct (analysis_has_trend _ _ _ _ _ A) as [trend G].
  exists trend. split.
  { unfold dict_get in G. destruct (assoc "trend" results); congruence. }
  unfold main, io_bind, lift, call_analyze_trends, emit, call_visualize_data,
    call_savefig.
  rewrite L, A, G. cbn [trace figures].
  rewrite (visualize_temperature _ _ _ T), S1. cbn [trace figures].
  assert (C : has_column "precipitation" data = true)
    by (apply has_column_assoc; eauto).
  unfold calculate_climate_index. cbn [String.eqb Ascii.eqb Bool.eqb].
  rewrite C. cbn [negb]. rewrite (getitem_assoc _ _ _ P). cbn [bind values].
  rewrite (visualize_series_line pivot boxplot _
             (mkSeries "SPI" (index data) (zscore p))
             [("variable", "SPI")] eq_refl).
  cbn [sindex name values]. rewrite S2. cbn [trace figures].
  rewrite <- !app_assoc. reflexivity.
Qed.

(** X24: when the table has no ['precipitation'] column, the driver raises
    the value error of the index calculation after it has printed the trend
    summary and written [temperature_trend.png]: the first plot is left on
    disk, one figure stays open, and the closing message is not printed. *)
Theorem main_without_precipitation_stops_after_first_plot
    (w : world) (data : DataFrame) (results : pydict) (out : list string)
    (temp : list float) :
  load = Ok data ->
  analysis data = Ok (results, out) ->
  assoc "temperature" (columns data) = Some temp ->
  has_column "precipitation" data = false ->
  savefig (line_figure (index data) "temperature" temp)
          "temperature_trend.png" = Ok tt ->
  exists trend,
    run_main w =
      (Raise (ValueError "Precipitation data not found in the DataFrame"),
       mkWorld
         (trace w ++ map Print out ++
          [PrintWith "Temperature trend analysis:" (VDict trend);
           SaveFig (line_figure (index data) "temperature" temp)
                   "temperature_trend.png"])
         (S (figures w))).
Proof.
  intros L A T P S1.
  destruct (analysis_has_trend _ _ _ _ _ A) as [trend G].
  exists trend.
  unfold main, io_bind, lift, call_analyze_trends, emit, call_visualize_data,
    call_savefig.
  rewrite L, A, G. cbn [trace figures].
  rewrite (visualize_temperature _ _ _ T), S1. cbn [trace figures].
  unfold calculate_climate_index. cbn [String.eqb Ascii.eqb Bool.eqb].
  rewrite P. cbn [negb].
  rewrite <- !app_assoc. reflexivity.
Qed.

(** X25: when the file cannot be loaded, or the table loaded has no
    ['temperature'] column, the driver raises (the loader's exception, or the
    missing-key error) before it has printed or written anything or opened a
    figure. *)
Theorem main_stops_before_any_output (w : world) :
  (forall e, load = Raise e -> run_main w = (Raise e, w)) /\
  (forall data,
     load = Ok data -> has_column "temperature" data = false ->
     run_main w = (Raise (KeyError "temperature"), w)).
Proof.
  split.
  - intros e L. unfold main, io_bind, lift. now rewrite L.
  - intros data L T.
    unfold main, io_bind, lift, call_analyze_trends.
    rewrite L. unfold analyze_trends, resample_column.
    cbn [String.eqb Ascii.eqb Bool.eqb].
    now rewrite (getitem_missing _ _ T).
Qed.

End DriverProperties.

Section DriverSafety.

Local Open Scope string_scope.

Variable read_csv : string -> result DataFrame.
Variable read_json : string -> result DataFrame.
Variable read_excel : string -> result DataFrame.
Variable to_datetime : list label -> result (list date).
Variable stats_linregress :
  list float -> list float -> result (LinregressResult float).
Variable seasonal_decompose : Series -> nat -> result DecomposeResult.
Variable pivot : DataFrame -> list Z -> string -> result DataFrame.
Variable boxplot : DataFrame -> string -> list Z -> result unit.
Variable savefig : Figure -> string -> result unit.

Abbreviation run_main :=
  (main read_csv read_json read_excel to_datetime stats_linregress
        seasonal_decompose pivot boxplot savefig).

Lemma visualize_data_figures n data plot_type kwargs :
  snd (visualize_data pivot boxplot n data plot_type kwargs) = S n.
Proof. reflexivity. Qed.

Ltac visualize_step :=
  match goal with
  | |- context [visualize_data pivot boxplot ?n ?d ?t ?k] =>
      let r := fresh "r" in
      let n' := fresh "n" in
      let V := fresh "V" in
      let F := fresh "F" in
      pose proof (visualize_data_figures n d t k) as F;
      destruct (visualize_data pivot boxplot n d t k) as [r n'] eqn:V;
      cbn [snd] in F; subst n'; destruct r
  end.

Ltac driver_leaf :=
  cbn [fst snd trace figures];
  eexists; split;
  [ rewrite <- ?app_assoc; first [reflexivity | symmetry; apply app_nil_r]
  | rewrite ?saved_files_app, ?saved_files_prints;
    cbn [saved_files flat_map app];
    split; [auto|]; split; [lia|];
    split; [intros ?; try discriminate; reflexivity
           | intros ?; try discriminate; reflexivity] ].

(** X26: whatever the file holds and whatever the calls into the libraries
    do, the driver only adds to what was printed and written before; it
    writes no file besides [temperature_trend.png] and [spi_index.png], the
    second only after the first; it opens at most two figures; and it ends
    normally exactly when both files have been written. *)
Theorem main_writes_at_most_its_two_files (w : world) :
  exists done,
    trace (snd (run_main w)) = (trace w ++ done)%list /\
    (saved_files done = [] \/
     saved_files done = ["temperature_trend.png"] \/
     saved_files done = ["temperature_trend.png"; "spi_index.png"]) /\
    (figures w <= figures (snd (run_main w)) <= figures w + 2)%nat /\
    (fst (run_main w) = Ok tt <->
     saved_files done = ["temperature_trend.png"; "spi_index.png"]).
Proof.
  unfold main, io_bind, lift, call_analyze_trends, emit, call_visualize_data,
    call_savefig.
  destruct (import_data _ _ _ _ _ _) as [data|e]; [|driver_leaf].
  destruct (analyze_trends _ _ _ _ _) as [[results out]|e]; [|driver_leaf].
  destruct (dict_get results "trend") as [trend|e]; [|driver_leaf].
  cbn [trace figures]. visualize_step; [|driver_leaf].
  destruct (savefig _ "temperature_trend.png") as [[]|e]; [|driver_leaf].
  destruct (calculate_climate_index data "SPI" []) as [spi|e]; [|driver_leaf].
  cbn [trace figures]. visualize_step; [|driver_leaf].
  destruct (savefig _ "spi_index.png") as [[]|e]; driver_leaf.
Qed.

End DriverSafety.

(** ** Degree days while the temperature stays at or below the base *)

Section BelowBase.

Local Open Scope Z_scope.

Lemma digits2_le_53 s m e :
  valid_binary (S754_finite s m e) = true -> Z.pos (digits2_pos m) <= 53.
Proof.
  intros V. apply valid_canonical in V. unfold fexp64 in V. lia.
Qed.

(** Of two binary64 numbers in canonical form the one with the smaller
    exponent, or with the same exponent and the smaller mantissa, has the
    smaller magnitude once both are written with the smaller exponent. *)
Lemma aligned_le sa ma ea sb mb eb :
  valid_binary (S754_finite sa ma ea) = true ->
  valid_binary (S754_finite sb mb eb) = true ->
  ea < eb \/ (ea = eb /\ (ma <= mb)%positive) ->
  Z.pos (fst (shl_align ma ea (Z.min ea eb)))
    <= Z.pos (fst (shl_align mb eb (Z.min ea eb))).
Proof.
  intros Va Vb H.
  destruct (shl_align_spec ma ea (Z.min ea eb)) as [_ A].
  destruct (shl_align_spec mb eb (Z.min ea eb)) as [_ B].
  rewrite A, B. clear A B.
  destruct H as [H|[-> H]].
  - replace (Z.min ea (Z.min ea eb)) with ea by lia.
    replace (Z.min eb (Z.min ea eb)) with ea by lia.
    rewrite Z.sub_diag, Z.pow_0_r, Z.mul_1_r.
    pose proof (digits2_le_53 _ _ _ Va) as Da.
    apply valid_canonical in Vb. unfold fexp64 in Vb.
    pose proof (valid_canonical _ _ _ Va) as Ca. unfold fexp64 in Ca.
    assert (Db : Z.pos (digits2_pos mb) = 53) by lia.
    destruct (digits2_bounds ma) as [_ Ua].
    destruct (digits2_bounds mb) as [Lb _]. rewrite Db in Lb.
    assert (P : 2 ^ Z.pos (digits2_pos ma) <= 2 ^ 53)
      by (apply Z.pow_le_mono_r; lia).
    assert (Q : 2 ^ 1 <= 2 ^ (eb - ea)) by (apply Z.pow_le_mono_r; lia).
    change (2 ^ 1) with 2 in Q.
    change (2 ^ (53 - 1)) with 4503599627370496 in Lb.
    change (2 ^ 53) with 9007199254740992 in P. nia.
  - replace (Z.min eb (Z.min eb eb)) with eb by lia.
    rewrite Z.sub_diag, Z.pow_0_r, !Z.mul_1_r. exact H.
Qed.

Lemma round_result_nonpos m e :
  0 <= m -> sf_nonpos (round_result true m e) = true.
Proof.
  destruct m; simpl; try lia; trivial. now destruct (_ <=? _).
Qed.

Lemma binary_normalize_nonpos m e : m <= 0 ->
  sf_nonpos (binary_normalize prec emax m e false) = true.
Proof.
  destruct m as [|p|p]; intros H; [reflexivity | lia |].
  cbn [binary_normalize]. unfold binary_round.
  destruct (shl_align _ _ _) as [mz ez].
  destruct (binary_round_aux_spec true (Z.pos mz) ez loc_Exact ltac:(lia))
    as (m2 & [B1 B2] & E).
  cbn zeta in E. rewrite E. apply round_result_nonpos.
  assert (0 <= Z.pos mz
               / 2 ^ Z.max (fexp64 (Zdigits2 (Z.pos mz) + ez) - ez) 0)
    by (apply Z.div_pos; [lia | apply Z.pow_pos_nonneg; lia]).
  apply Z.div_pos; [lia | apply Z.pow_pos_nonneg; lia].
Qed.

(** What is not above a finite number, less that number, is a zero or
    negative. *)
Lemma SFsub_le_nonpos a b :
  valid_binary a = true -> valid_binary b = true ->
  sf_fin b = true -> SFleb a b = true ->
  sf_nonpos (SF64sub a b) = true.
Proof.
  intros Va Vb Fb. unfold SFleb, SF64sub, SFsub.
  destruct a as [sa|sa| |sa ma ea], b as [sb|sb| |sb mb eb];
    try discriminate; cbn [SFcompare].
  - intros _. now destruct sa, sb.
  - now destruct sb.
  - now destruct sa.
  - now destruct sa.
  - now destruct sa.
  - intros H. apply binary_normalize_nonpos.
    destruct sa, sb; cbn [cond_Zopp]; try lia; try discriminate.
    + assert (Z.pos (fst (shl_align mb eb (Z.min eb ea)))
              <= Z.pos (fst (shl_align ma ea (Z.min eb ea)))).
      { apply (aligned_le true mb eb true ma ea Vb Va).
        destruct (Z.compare_spec ea eb) as [->| |]; try discriminate.
        - right. split; [reflexivity|].
          change (Pos.compare_cont Eq ma mb) with (Pos.compare ma mb) in H.
          destruct (Pos.compare_spec ma mb); try discriminate; lia.
        - left. lia. }
      rewrite (Z.min_comm ea eb). lia.
    + assert (Z.pos (fst (shl_align ma ea (Z.min ea eb)))
              <= Z.pos (fst (shl_align mb eb (Z.min ea eb)))).
      { apply (aligned_le false ma ea false mb eb Va Vb).
        destruct (Z.compare_spec ea eb) as [->| |]; try discriminate.
        - right. split; [reflexivity|].
          change (Pos.compare_cont Eq ma mb) with (Pos.compare ma mb) in H.
          destruct (Pos.compare_spec ma mb); try discriminate; lia.
        - left. lia. }
      lia.
Qed.

Local Close Scope Z_scope.
Local Open Scope string_scope.
Local Open Scope float_scope.

Lemma is_zero_spec x : is_zero x = sf_zero (Prim2SF x).
Proof.
  unfold is_zero. rewrite FloatAxioms.eqb_spec.
  change (Prim2SF PrimFloat.zero) with (S754_zero false).
  destruct (Prim2SF x) as [s|s| |s m e]; try destruct s; reflexivity.
Qed.

Lemma floor_below_base t base :
  is_finite base = true -> (t <=? base) = true ->
  is_zero (Np.maximum (t - base) 0) = true.
Proof.
  intros B L. rewrite is_finite_spec in B. rewrite leb_spec in L.
  pose proof (SFsub_le_nonpos _ _ (Prim2SF_valid t) (Prim2SF_valid base) B L)
    as N.
  rewrite <- sub_spec in N. unfold Np.maximum.
  rewrite leb0_spec, is_nan_spec.
  destruct (Prim2SF (t - base)) as [s|s| |s m e] eqn:E; try discriminate;
    cbn [sf_nonpos] in N; cbn [sf_nonneg sf_not_nan negb orb].
  - now rewrite is_zero_spec, E.
  - subst s. reflexivity.
  - subst s. reflexivity.
Qed.

Lemma is_zero_add a b :
  is_zero a = true -> is_zero b = true -> is_zero (a + b) = true.
Proof.
  rewrite !is_zero_spec, add_spec.
  destruct (Prim2SF a) as [[]| | |], (Prim2SF b) as [[]| | |];
    try discriminate; reflexivity.
Qed.

Lemma is_zero_not_nan a : is_zero a = true -> is_nan a = false.
Proof.
  rewrite is_zero_spec, is_nan_spec. now destruct (Prim2SF a).
Qed.

Lemma cumsum_from_zero l : forall acc,
  is_zero acc = true -> Forall (fun g => is_zero g = true) l ->
  Forall (fun g => is_zero g = true) (Np.cumsum_from acc l).
Proof.
  induction l as [|v l IH]; intros acc Ha Hl; [constructor|].
  inversion Hl as [|? ? Hv Hl']; subst. cbn [Np.cumsum_from].
  assert (is_zero (acc + v) = true) by now apply is_zero_add.
  constructor; [assumption|]. now apply IH.
Qed.

Lemma degree_days_zero base temp :
  is_finite base = true ->
  Forall (fun t => (t <=? base) = true) temp ->
  Forall (fun g => is_zero g = true) (degree_days base temp).
Proof.
  intros B H. unfold degree_days.
  assert (F : Forall (fun g => is_zero g = true)
                (map (fun t => Np.maximum (t - base) 0) temp)).
  { apply Forall_map. eapply Forall_impl; [|exact H].
    intros t L. now apply floor_below_base. }
  rewrite pd_cumsum_no_nan.
  - destruct F as [|g l Hg Hl]; [constructor|]. cbn [Np.cumsum].
    constructor; [exact Hg|]. now apply cumsum_from_zero.
  - eapply Forall_impl; [|exact F]. intros g. apply is_zero_not_nan.
Qed.

(** X27: as long as no temperature is above the (finite) base temperature,
    the ['GDD'] series stays at zero on every row. *)
Theorem gdd_stays_zero_below_base
    (data : DataFrame) (params : list (string * float)) (temp : list float) :
  effective_temperature data = Some temp ->
  is_finite (kwargs_get params "base_temp" default_base_temp) = true ->
  forallb (fun t => t <=? kwargs_get params "base_temp" default_base_temp)
          temp = true ->
  exists s,
    calculate_climate_index data "GDD" params = Ok s /\
    length (values s) = length temp /\
    forallb (fun g => g =? 0) (values s) = true.
Proof.
  intros E B H. eexists.
  split; [exact (gdd_on_effective_temperature _ _ _ E)|].
  cbn [values]. split; [apply degree_days_length|].
  apply forallb_forall. rewrite forallb_forall in H.
  assert (Z : Forall (fun g => is_zero g = true)
                (degree_days (kwargs_get params "base_temp" default_base_temp)
                             temp)).
  { apply degree_days_zero; [exact B|]. now apply Forall_forall. }
  rewrite Forall_forall in Z. exact Z.
Qed.

End BelowBase.

(** ** The further properties on the sample tables *)

Section SampleRuns.

Local Open Scope string_scope.

Abbreviation run64 :=
  (analyze_trends (linregress_f64 no_pvalue) seasonal_decompose_additive).

Abbreviation main64 table :=
  (main (driver_read_csv table) sample_read_json sample_read_excel
        sample_to_datetime (linregress_f64 no_pvalue)
        seasonal_decompose_additive
        sample_pivot sample_boxplot sample_savefig).

Lemma analyze_trends_short_series_skips_decomposition_witness :
  run64 ten_days "temperature" "monthly" =
  analyze_trends (linregress_f64 no_pvalue)
                 (fun _ _ => Raise (LibraryError "not called"))
                 ten_days "temperature" "monthly".
Proof.
  apply (analyze_trends_short_series_skips_decomposition
           (linregress_f64 no_pvalue) seasonal_decompose_additive
           (fun _ _ => Raise (LibraryError "not called"))
           ten_days "temperature" "monthly").
  intros rs H. vm_compute in H. injection H as <-. cbn [values length]. lia.
Defined.

Lemma analyze_trends_library_errors_propagate_witness :
  analyze_trends (linregress_refusing_empty no_pvalue)
                 seasonal_decompose_additive
                 empty_table "temperature" "monthly"
    = Raise (ValueError "Inputs must not be empty.").
Proof.
  apply (proj1 (analyze_trends_library_errors_propagate
                  (linregress_refusing_empty no_pvalue)
                  seasonal_decompose_additive
                  empty_table "temperature" "monthly"
                  (mkSeries "temperature" (DatetimeIndex []) [])
                  (ValueError "Inputs must not be empty.") eq_refl)).
  reflexivity.
Defined.

Lemma analyze_trends_result_shape_witness :
  exists rs t,
    resample_column ten_days "temperature" "monthly" = Ok rs /\
    linregress_f64 no_pvalue (Np.arange (length (values rs))) (values rs)
      = Ok t /\
    length (values rs) = 1%nat.
Proof.
  destruct (run64 ten_days "temperature" "monthly") as [[results out]|e] eqn:A.
  - destruct (analyze_trends_result_shape (linregress_f64 no_pvalue)
                seasonal_decompose_additive ten_days "temperature" "monthly"
                results out A) as (rs & t & R & L & _ & _).
    exists rs, t. split; [exact R|]. split; [exact L|].
    vm_compute in R. injection R as <-. reflexivity.
  - vm_compute in A. discriminate.
Defined.

Lemma analyze_trends_reads_one_column_witness :
  run64 sample_data "temperature" "monthly" =
  run64 (mkFrame (index sample_data) [("temperature", sample_temperature)])
        "temperature" "monthly".
Proof.
  apply (analyze_trends_reads_one_column (linregress_f64 no_pvalue)
           seasonal_decompose_additive sample_data
           (mkFrame (index sample_data) [("temperature", sample_temperature)])
           "temperature" "monthly"); reflexivity.
Defined.

Lemma gap_table_bins :
  In 24252%Z (map (Pd.bin_of Pd.MonthEnd) [mkdate 2021 3 5; mkdate 2021 1 10;
                                           mkdate 2021 1 20]) /\
  In 24254%Z (map (Pd.bin_of Pd.MonthEnd) [mkdate 2021 3 5; mkdate 2021 1 10;
                                           mkdate 2021 1 20]) /\
  Forall (fun b => (24252 <= b <= 24254)%Z)
         (map (Pd.bin_of Pd.MonthEnd) [mkdate 2021 3 5; mkdate 2021 1 10;
                                       mkdate 2021 1 20]).
Proof.
  split; [right; left; reflexivity|]. split; [left; reflexivity|].
  repeat constructor; discriminate.
Defined.

Lemma resampled_points_span_the_calendar_witness :
  resampled_size (resample_column gap_table "temperature" "monthly")
    = Some 3%nat.
Proof.
  destruct gap_table_bins as (Hlo & Hhi & B).
  destruct (resampled_points_span_the_calendar gap_table "temperature"
              "monthly" Pd.MonthEnd _ _ 24252 24254 eq_refl eq_refl eq_refl
              Hlo Hhi B) as (rs & labels & R & _ & _ & L & _).
  rewrite R. cbn [resampled_size]. now rewrite L.
Defined.


Lemma resample_within_one_bin_is_the_column_mean_witness :
  (exists rs,
     resample_column ramp_table "temperature" "monthly" = Ok rs /\
     values rs = [0x1.9999999999999p-3%float] /\
     sindex rs = DatetimeIndex [mkdate 2021 6 30]) /\
  Pd.group_mean [0x1.999999999999ap-4; 0x1.999999999999ap-3;
                 0x1.3333333333333p-2]%float = 0x1.9999999999999p-3%float /\
  Pd.mean [0x1.999999999999ap-4; 0x1.999999999999ap-3;
           0x1.3333333333333p-2]%float = 0x1.999999999999bp-3%float.
Proof.
  split; [|split; vm_compute; reflexivity].
  destruct (resample_within_one_bin_is_the_column_mean
              ramp_table "temperature" "monthly" Pd.MonthEnd
              (mkdate 2021 6 1) (Pd.date_range (mkdate 2021 6 2) 2)
              [0x1.999999999999ap-4; 0x1.999999999999ap-3;
               0x1.3333333333333p-2]%float)
    as (rs & R & _ & V & I).
  - reflexivity.
  - reflexivity.
  - reflexivity.
  - repeat constructor.
  - repeat constructor.
  - exists rs. split; [exact R|]. split; [|exact I].
    rewrite V by reflexivity. vm_compute. reflexivity.
Defined.

Lemma no_decomposition_within_23_bins_witness :
  has_decomposition (run64 gap_table "temperature" "yearly") = false.
Proof.
  apply (no_decomposition_within_23_bins (linregress_f64 no_pvalue)
           seasonal_decompose_additive gap_table "temperature" "yearly"
           Pd.YearEnd
           [mkdate 2021 3 5; mkdate 2021 1 10; mkdate 2021 1 20] 2021%Z).
  - reflexivity.
  - reflexivity.
  - repeat constructor; discriminate.
Defined.

Lemma visualize_line_draws_chosen_column_witness :
  visualize_data sample_pivot sample_boxplot 0 (FrameData sample_data) "line" []
    = (Ok [LinePlot (index sample_data) sample_temperature;
           Title "temperature over time"; XLabel "Date"; YLabel "temperature";
           TightLayout], 1%nat).
Proof.
  apply (proj1 (visualize_line_draws_chosen_column sample_pivot
                  sample_boxplot 0 sample_data
                  [] "temperature" sample_temperature
                  [("precipitation", sample_precipitation)] eq_refl)).
  reflexivity.
Defined.

Lemma visualize_table_without_columns_witness :
  exists msg,
    visualize_data sample_pivot sample_boxplot 0 (FrameData no_columns)
                   "boxplot" [("variable", "temperature")]
      = (Raise (IndexError msg), 1%nat).
Proof.
  apply (visualize_table_without_columns sample_pivot sample_boxplot 0
           no_columns "boxplot" [("variable", "temperature")]).
  - reflexivity.
  - right. right. reflexivity.
Defined.

Lemma visualize_by_month_needs_date_index_witness :
  exists msg,
    visualize_data sample_pivot sample_boxplot 0 (FrameData label_table)
                   "heatmap" []
      = (Raise (AttributeError msg), 1%nat).
Proof.
  apply (visualize_by_month_needs_date_index sample_pivot sample_boxplot 0
           label_table "heatmap" []).
  - reflexivity.
  - discriminate.
  - left. reflexivity.
Defined.

Lemma climate_index_plots_under_its_tag_witness :
  visualize_data sample_pivot sample_boxplot 0
    (SeriesData (mkSeries "GDD" (index raw_json) [0; 2]%float)) "line"
    [("variable", "GDD")]
    = (Ok [LinePlot (index raw_json) [0; 2]%float; Title "GDD over time";
           XLabel "Date"; YLabel "GDD"; TightLayout], 1%nat).
Proof.
  apply (climate_index_plots_under_its_tag sample_pivot sample_boxplot 0
           raw_json "GDD" []
           (mkSeries "GDD" (index raw_json) [0; 2]%float)).
  reflexivity.
Defined.

Lemma spi_keeps_missing_rows_missing_witness :
  exists s z,
    calculate_climate_index missing_table "SPI" [] = Ok s /\
    length (values s) = 3%nat /\
    nth_error (values s) 1 = Some z /\ is_nan z = true.
Proof.
  destruct (spi_keeps_missing_rows_missing missing_table []
              [1; nan; 4]%float eq_refl) as (s & C & L & M).
  destruct (M 1%nat nan eq_refl eq_refl) as (z & Hz & N).
  exists s, z. auto.
Defined.

Lemma gdd_missing_exactly_where_temperature_is_witness :
  exists s,
    calculate_climate_index missing_table "GDD" [] = Ok s /\
    map is_nan (values s) = [false; true; false] /\
    nth_error (values s) 0 = Some 4%float /\
    nth_error (values s) 2 = Some 7%float.
Proof.
  destruct (gdd_missing_exactly_where_temperature_is missing_table []
              [14; nan; 13]%float eq_refl eq_refl) as (s & C & M & V).
  exists s. split; [exact C|]. split; [exact M|]. split.
  - rewrite (V 0%nat 14%float eq_refl eq_refl). vm_compute. reflexivity.
  - rewrite (V 2%nat 13%float eq_refl eq_refl). vm_compute. reflexivity.
Defined.

Lemma gdd_is_never_negative_witness :
  exists s,
    calculate_climate_index missing_table "GDD" [("base_temp", 20%float)]
      = Ok s /\
    forallb (fun g => is_nan g || (0 <=? g)%float) (values s) = true /\
    existsb (fun g => (g <? 0)%float) (values s) = false.
Proof.
  apply (gdd_is_never_negative missing_table [("base_temp", 20%float)]
           [14; nan; 13]%float); reflexivity.
Defined.

Lemma gdd_diff_check_fails_on_every_table_with_rows_witness :
  exists s,
    calculate_climate_index min_max_table "GDD" [] = Ok s /\
    diff_never_negative s = false.
Proof.
  apply (gdd_diff_check_fails_on_every_table_with_rows min_max_table []
           (mean_temp [20; 14; 25]%float [8; 2; 11]%float)).
  - reflexivity.
  - discriminate.
Defined.

Lemma gdd_stays_zero_below_base_witness :
  exists s,
    calculate_climate_index sample_data "GDD" [("base_temp", 25%float)]
      = Ok s /\
    length (values s) = length sample_temperature /\
    forallb (fun g => (g =? 0)%float) (values s) = true.
Proof.
  apply (gdd_stays_zero_below_base sample_data [("base_temp", 25%float)]
           sample_temperature).
  - reflexivity.
  - reflexivity.
  - vm_compute. reflexivity.
Defined.

Lemma main_writes_both_plots_witness :
  fst (main64 sample_data (mkWorld [] 0)) = Ok tt /\
  saved_files (trace (snd (main64 sample_data (mkWorld [] 0))))
    = ["temperature_trend.png"; "spi_index.png"] /\
  figures (snd (main64 sample_data (mkWorld [] 0))) = 2%nat.
Proof.
  destruct (run64 sample_data "temperature" "monthly")
    as [[results out]|e] eqn:A.
  - destruct (main_writes_both_plots (driver_read_csv sample_data)
                sample_read_json sample_read_excel sample_to_datetime
                (linregress_f64 no_pvalue) seasonal_decompose_additive
                sample_pivot sample_boxplot
                sample_savefig (mkWorld [] 0) sample_data results out
                sample_temperature sample_precipitation) as (trend & _ & M).
    + vm_compute. reflexivity.
    + exact A.
    + reflexivity.
    + reflexivity.
    + reflexivity.
    + reflexivity.
    + rewrite M. cbn [fst snd trace figures app].
      rewrite saved_files_app, saved_files_prints. repeat split.
  - vm_compute in A. discriminate.
Defined.

Lemma main_without_precipitation_stops_after_first_plot_witness :
  fst (main64 ten_days_across_months (mkWorld [] 0))
    = Raise (ValueError "Precipitation data not found in the DataFrame") /\
  saved_files (trace (snd (main64 ten_days_across_months (mkWorld [] 0))))
    = ["temperature_trend.png"] /\
  figures (snd (main64 ten_days_across_months (mkWorld [] 0))) = 1%nat.
Proof.
  destruct (run64 ten_days_across_months "temperature" "monthly")
    as [[results out]|e] eqn:A.
  - destruct (main_without_precipitation_stops_after_first_plot
                (driver_read_csv ten_days_across_months)
                sample_read_json sample_read_excel sample_to_datetime
                (linregress_f64 no_pvalue) seasonal_decompose_additive
                sample_pivot sample_boxplot
                sample_savefig (mkWorld [] 0) ten_days_across_months
                results out (firstn 10 sample_temperature)) as (trend & M).
    + vm_compute. reflexivity.
    + exact A.
    + reflexivity.
    + reflexivity.
    + reflexivity.
    + rewrite M. cbn [fst snd trace figures app].
      rewrite saved_files_app, saved_files_prints. repeat split.
  - vm_compute in A. discriminate.
Defined.

End SampleRuns.

(** ** From the loader to the analyzer and the index calculator *)

Section LoadedTable.

Local Open Scope string_scope.
Local Open Scope float_scope.

Variable read_csv read_json read_excel : string -> result DataFrame.
Variable to_datetime : list label -> result (list date).
Variable stats_linregress :
  list float -> list float -> result (LinregressResult float).
Variable seasonal_decompose : Series -> nat -> result DecomposeResult.

Abbreviation load :=
  (import_data read_csv read_json read_excel to_datetime).

Lemma loaded_table_is_clean file_path file_type df :
  load file_path file_type = Ok df ->
  is_datetime_index (index df) = true /\ no_missing df = true.
Proof.
  unfold import_data.
  destruct (read_file _ _ _ _ _) as [raw|e]; [|discriminate]. cbn [bind].
  destruct (ensure_datetime_index to_datetime raw) as [dated|e] eqn:D;
    [|discriminate].
  cbn [bind]. intros [= <-].
  destruct (ensure_datetime_index_ok _ _ _ D) as [I _].
  split; [now rewrite dropna_keeps_index_type | apply dropna_no_missing].
Qed.

Lemma no_missing_column df c v :
  no_missing df = true -> assoc c (columns df) = Some v ->
  Forall (fun t => is_nan t = false) v.
Proof.
  unfold no_missing. intros N H. apply assoc_In in H.
  rewrite forallb_forall in N. specialize (N _ H). cbn [snd] in N.
  rewrite forallb_forall in N. apply Forall_forall. intros t Ht.
  now apply negb_true_iff, N.
Qed.

(** X28: on a table that [import_data] has returned, with a ['temperature']
    column and a finite base temperature, the ['GDD'] series has no missing
    value, is nowhere negative and never goes down from one row to the
    next, whatever the file held (temperatures that are infinite included). *)
Theorem gdd_of_loaded_table_never_decreases
    (file_path file_type : string) (df : DataFrame)
    (params : list (string * float)) (temp : list float) :
  load file_path file_type = Ok df ->
  assoc "temperature" (columns df) = Some temp ->
  is_finite (kwargs_get params "base_temp" default_base_temp) = true ->
  exists s,
    calculate_climate_index df "GDD" params = Ok s /\
    sindex s = index df /\
    forallb (fun g => 0 <=? g) (values s) = true /\
    non_decreasing (values s) = true.
Proof.
  intros L T B. destruct (loaded_table_is_clean _ _ _ L) as [_ N].
  pose proof (no_missing_column _ _ _ N T) as V.
  set (base := kwargs_get params "base_temp" default_base_temp) in *.
  assert (F : Forall (fun t => is_nan (t - base) = false) temp).
  { eapply Forall_impl; [|exact V]. intros t Ht. now apply sub_not_nan. }
  eexists. split; [exact (gdd_on_temperature _ params _ T)|].
  cbn [sindex values]. split; [reflexivity|]. fold base. split.
  - unfold degree_days.
    rewrite pd_cumsum_no_nan by (apply floored_no_nan; exact F).
    apply forallb_forall, Forall_forall, np_cumsum_nonneg, Forall_map.
    eapply Forall_impl; [|exact F]. intros t. apply maximum_zero_nonneg.
  - now apply degree_days_non_decreasing.
Qed.

(** X29: on a table that [import_data] has returned, with a recognized
    period tag and a column of the table, the resampling always goes
    through, so that [analyze_trends] can raise only what the regression
    raises or, from 24 points on, what the decomposition raises. *)
Theorem analysis_of_loaded_table_fails_only_in_the_libraries
    (file_path file_type : string) (df : DataFrame)
    (variable time_period : string) :
  load file_path file_type = Ok df ->
  has_column variable df = true ->
  time_period = "monthly" \/ time_period = "yearly" ->
  exists rs,
    resample_column df variable time_period = Ok rs /\
    forall e,
      analyze_trends stats_linregress seasonal_decompose
                     df variable time_period = Raise e ->
      stats_linregress (Np.arange (length (values rs))) (values rs) = Raise e
      \/ ((24 <= length (values rs))%nat /\
          seasonal_decompose rs 12 = Raise e).
Proof.
  intros L C P. destruct (loaded_table_is_clean _ _ _ L) as [I _].
  destruct (resample_column_ok _ _ _ P C I) as [rs R].
  exists rs. split; [exact R|]. intros e. unfold analyze_trends.
  rewrite R. cbn [bind].
  destruct (stats_linregress _ _) as [t|e0]; cbn [bind].
  - destruct (24 <=? length (values rs))%nat eqn:N; [|discriminate].
    apply Nat.leb_le in N.
    destruct (seasonal_decompose rs 12) as [d|e1]; [discriminate|].
    cbn [bind]. intros [= <-]. right. now split.
  - intros [= <-]. now left.
Qed.

End LoadedTable.

Section LoadedRuns.

Local Open Scope string_scope.

Lemma gdd_of_loaded_table_never_decreases_witness :
  exists s,
    calculate_climate_index (Pd.dropna raw_csv) "GDD" [] = Ok s /\
    sindex s = index (Pd.dropna raw_csv) /\
    forallb (fun g => (0 <=? g)%float) (values s) = true /\
    non_decreasing (values s) = true.
Proof.
  apply (gdd_of_loaded_table_never_decreases sample_read_csv sample_read_json
           sample_read_excel sample_to_datetime "test_data.csv" "csv"
           (Pd.dropna raw_csv) [] [10; 12]%float); reflexivity.
Defined.

Lemma analysis_of_loaded_table_fails_only_in_the_libraries_witness :
  exists rs,
    resample_column (Pd.dropna raw_csv) "temperature" "yearly" = Ok rs /\
    forall e,
      analyze_trends (linregress_f64 no_pvalue) seasonal_decompose_additive
                     (Pd.dropna raw_csv) "temperature" "yearly" = Raise e ->
      linregress_f64 no_pvalue (Np.arange (length (values rs))) (values rs)
        = Raise e
      \/ ((24 <= length (values rs))%nat /\
          seasonal_decompose_additive rs 12 = Raise e).
Proof.
  apply (analysis_of_loaded_table_fails_only_in_the_libraries
           sample_read_csv sample_read_json sample_read_excel
           sample_to_datetime (linregress_f64 no_pvalue)
           seasonal_decompose_additive
           "test_data.csv" "csv" (Pd.dropna raw_csv) "temperature" "yearly").
  - reflexivity.
  - reflexivity.
  - right. reflexivity.
Defined.

Lemma import_data_raises_what_its_calls_raise_witness :
  import_data sample_read_csv sample_read_json sample_read_excel
              sample_to_datetime "missing.csv" "csv"
    = Raise (LibraryError "FileNotFoundError").
Proof.
  apply (proj2 (import_data_raises_what_its_calls_raise sample_read_csv
                  sample_read_json sample_read_excel sample_to_datetime
                  "missing.csv" "csv" (LibraryError "FileNotFoundError"))).
  left. reflexivity.
Defined.

Lemma main_stops_before_any_output_witness :
  main (driver_read_csv twos_table) sample_read_json sample_read_excel
       sample_to_datetime (linregress_f64 no_pvalue) seasonal_decompose_additive
       sample_pivot sample_boxplot sample_savefig (mkWorld [] 0)
    = (Raise (KeyError "temperature"), mkWorld [] 0).
Proof.
  apply (proj2 (main_stops_before_any_output (driver_read_csv twos_table)
                  sample_read_json sample_read_excel sample_to_datetime
                  (linregress_f64 no_pvalue) seasonal_decompose_additive
                sample_pivot sample_boxplot
                  sample_savefig (mkWorld [] 0)) twos_table); reflexivity.
Defined.

End LoadedRuns.

(** ** The tests of the index calculator *)

Section TestSuite.

Local Open Scope string_scope.

(** X30: the assertions of [test_calculate_climate_index] that compare
    exactly (names, lengths and the three value errors) hold for every draw
    of the two random columns of the fixture, one value per day from
    2020-01-01 to 2022-12-31. *)
Theorem test_calculate_climate_index_passes_for_every_draw
    (temperatures precipitation : list float) :
  length temperatures = length sample_dates ->
  length precipitation = length sample_dates ->
  last sample_dates (mkdate 0 0 0) = mkdate 2022 12 31 /\
  test_calculate_climate_index (fixture temperatures precipitation) = true.
Proof.
  intros T P. split; [vm_compute; reflexivity|].
  unfold test_calculate_climate_index.
  assert (S : calculate_climate_index (fixture temperatures precipitation)
                "SPI" []
              = Ok (mkSeries "SPI" (DatetimeIndex sample_dates)
                      (zscore precipitation))) by reflexivity.
  assert (G : calculate_climate_index (fixture temperatures precipitation)
                "GDD" [("base_temp", 10%float)]
              = Ok (mkSeries "GDD" (DatetimeIndex sample_dates)
                      (degree_days 10 temperatures))) by reflexivity.
  assert (U : calculate_climate_index (fixture temperatures precipitation)
                "UNSUPPORTED_INDEX" []
              = Raise (ValueError "Unsupported climate index"))
    by reflexivity.
  assert (D1 : drop (fixture temperatures precipitation) ["precipitation"]
               = Ok (mkFrame (DatetimeIndex sample_dates)
                       [("temperature", temperatures)])) by reflexivity.
  assert (D2 : drop (fixture temperatures precipitation) ["temperature"]
               = Ok (mkFrame (DatetimeIndex sample_dates)
                       [("precipitation", precipitation)])) by reflexivity.
  rewrite S, G, U, D1, D2.
  cbn [name values fixture index index_size is_value_error].
  unfold zscore. rewrite length_map, degree_days_length, T, P, Nat.eqb_refl.
  reflexivity.
Qed.

End TestSuite.

Lemma test_calculate_climate_index_passes_for_every_draw_witness :
  last sample_dates (mkdate 0 0 0) = mkdate 2022 12 31 /\
  test_calculate_climate_index sample_data = true.
Proof.
  apply (test_calculate_climate_index_passes_for_every_draw
           sample_temperature sample_precipitation);
    vm_compute; reflexivity.
Defined.
